(* ===== verification/_CoqProject ===== *)
-Q . S2P
Prelude.v
PyStr.v
PyJson.v
Completion.v
Invoker.v
Support.v
Payment.v
Forecast.v
Chatbot.v
Generators.v
Tasks.v
Models.v
App.v
