(* ===== verification/Prelude.v ===== *)
(** * A verification development of the Sphere.AI backend (backend-for-shereai)

    The program (Python, FastAPI) is an HTTP gateway: nine "AI tool"
    routers under [src/app/ai_tools/], each of which renders a prompt from a
    request, sends it to the OpenAI chat-completion API and wraps the
    answer in a JSON envelope; two payment routers under [src/app/payment/]
    that pass orders to Razorpay and Stripe and check their signatures;
    [src/app/main.py], which mounts the routers, configures CORS and serves
    two liveness routes; and [src/app/models.py], a SQLAlchemy schema that
    no route uses.  The handlers share no state: each request runs its
    own handler, which talks to the completion service (and, for payments,
    to an SDK) and returns.

    ** Files, in dependency order, and what they model

    - [Prelude] (this file): the scope [py_scope] (notation [NL] for a
      newline), the tactics [inv], [flatten], [str_simpl], the hint
      databases [pyhints] (resolve) and [pyrw] (rewrite), and the lemmas
      on strings, lists and options the other files share.
    - [PyStr]: the [str] operations the handlers call, on Rocq [string]
      (bytes, ASCII semantics): [str.lower] ([py_lower]), [in]
      ([py_contains]), [str.split()] ([py_split]), [sep.join]
      ([py_join]), [x or d] ([py_or]), [str(int)] ([py_str_int]),
      [int(str)] ([py_int_of_str]), [repr(str)] ([py_repr_str]).
    - [PyJson]: the values [json.loads] returns ([json]), [dict.get]
      ([dict_get]: the last of duplicated keys wins), [int()] of a value
      with its [TypeError]/[ValueError] messages ([py_int]), [str]/[repr]
      of values and of float literals, [json.dumps(v, indent=2)]
      ([json_dumps_indent2]), request floats as decimal literals
      ([pyfloat]) and [format(x, ",.2f")] ([fmt_comma_2f]).
    - [Completion]: the effect model.  A handler is a [Prog A]: return,
      raise a Python exception ([exn]), or call the completion service
      ([complete], the awaited [client.chat.completions.create] and the
      read of [choices[0].message.content]) and continue with its reply;
      [catch] is [try/except], [catch_500_with] the [except Exception as
      e: raise HTTPException(500, ...)] that wraps every handler.  [run]
      interprets a program against an oracle (the service's answer to the
      n-th call) and returns the outcome and the trace of requests;
      [respond]/[serve] are FastAPI's mapping to an HTTP response.
      [prog_equiv] is an [Equivalence] with [Proper] instances for bind
      and catch.
    - [Invoker]: spec section 2's prompt-templated completion invoker: a
      [tool] record (model, persona, prompt, temperature, token bound,
      error prefix, a check run before the call, envelope) and [invoke],
      its one-call handler, with [run_from_invoke] and [invoke_equiv] (a
      handler written as the pattern refines [invoke]).
    - [Support] ([customer_support.py]): the two handlers, the prompt
      templates, the keyword sentiment classifier and its specification.
    - [Payment] ([razorpay_integration.py], [stripe_integration.py]): the
      four handlers over the SDK interfaces [RazorpayClient] and
      [StripeClient] (type classes whose laws are the SDKs' documented
      signature checks), in a Section over the environment.
    - [Forecast] ([financial_forecast.py]): the projection loop on exact
      rationals, the [OverflowError] its [float ** int] raises on long
      horizons, [round(x, 2)], break-even and summary, the prompt with
      [",.2f"] and [json.dumps] of the first twelve rows, the handler.
    - [Chatbot] ([chatbot_builder.py]): the sample-answer loop (up to five
      sequential calls, insertion-ordered dict), the templates and the
      respond handler.
    - [Generators] (Modules [BusinessPlan], [MarketResearch], [PitchDeck],
      [ContentGenerator]): the four document generators.
    - [Tasks] (Modules [TaskManager], [TimeManagement]): the task lists
      and the calendar handler's [len(meetings)].
    - [Models] ([models.py]): the four declarative classes and the checks
      SQLAlchemy's declarative API makes on them.
    - [App] ([main.py]): the route table (with the documentation routes
      [FastAPI()] installs) and Starlette's dispatch (handler, 405,
      trailing-slash 307, 404), the liveness routes, the CORS decisions,
      the refinement of every single-call AI handler to [Invoker.invoke].
    Every prompt template was compared byte for byte with CPython's
    rendering of the source's f-string on sample requests.

    ** What the theorems show

    - Error paths and statuses: the payment handlers answer 200 or 500
      only, and a tampered Razorpay signature is a 500 (the inner 400 is
      swallowed by the outer handler); each handler's outcome on every
      reply of the service (answer, [None], failure), including the
      business plan's own error prefix and the [AttributeError] of
      [.lower()]/[.split()] on [None].
    - Refinement: the sentiment classifier implements its specification;
      the forecast loop computes the closed-form rows; the eleven
      single-call AI handlers are instances of the invoker.
    - Functional behaviour: break-even is the first month above the
      investment, read on the rounded profit, so a sub-cent excess over a
      whole-cent investment never counts; the forecast's [OverflowError];
      prompts contain their fields; a string amount is read as the integer
      it spells; the content generator's defaults; zero-hour tasks; the
      calendar's [len].
    - Invariants: the order of the forecast's rows (revenue never falls
      with non-negative growth, costs follow the sign of [monthly_costs]);
      the chatbot's sample dict (distinct keys, last answer wins) and its
      bound of five calls.
    - Configuration: routing is unambiguous (a request reaches exactly the
      handler of the route with its path and method) and serves the
      spec's routes; the CORS wildcard admits every origin with
      credentials.  Lemmas not stated as properties: [int(str(n)) = n],
      [str.split] of joined words, [round(x, 2)] within half a cent, and
      importing [app.models] failing on the reserved attribute
      [metadata] ([Models.models_import_fails_on_metadata]).

    ** Bounds and fuel

    No fuel is needed: every loop of the program iterates over a finite
    list (a [range], a slice of at most five questions, a task list), so
    every definition is structural and total.  Integers are unbounded as
    in Python ([Z]).  The one width that matters is the float's: CPython's
    [float ** int] raises [OverflowError] when the exact power reaches
    [2^1024 - 2^970] in magnitude ([Forecast.float_pow_overflows]), which
    the forecast loop meets for 100% growth over 1100 months, or past
    about 35,800 months through [1.02 ** (month-1)].

    ** What is not modelled, and why

    - The OpenAI, Razorpay and Stripe SDKs are external: the completion
      service is the oracle of [Completion.run]; the payment SDKs are type
      classes.  Starlette's CORS middleware and SQLAlchemy's declarative
      checks are modelled from their documented behaviour, as far as the
      configuration in [main.py] and [models.py] exercises them.
    - Pydantic validation (HTTP 422 before a handler runs) is not
      modelled: typed handlers take validated records.
    - Python floats are exact rationals [Q] given by their decimal
      literal; [round(x, 2)] rounds the exact value half to even.  The
      binary rounding of float arithmetic is not modelled, so at an exact
      decimal tie of a computed value the model and CPython may differ
      (a cumulative value of exactly [24310.125] rounds to [24310.12]
      here, while CPython's double for it lies slightly above and gives
      [24310.13]); [repr] of floats at or above [1e16] (exponent
      notation) and of literals with more than 17 significant digits is
      not modelled.  Besides the [OverflowError] of [**], float overflow
      is not modelled: a finite product or sum that rounds to [inf], the
      absorption of small terms in large cumulative sums, and FastAPI's
      failure to render [inf] in a response ([Completion.respond] renders
      every returned dict with status 200).
    - [await request.json()] failing on a malformed body raises a
      [JSONDecodeError] whose message names the position of the error;
      the model keeps one message for every malformed body.
    - Strings are byte strings with ASCII case mapping and ASCII
      whitespace; non-ASCII code points are not case-mapped, and
      [json.dumps] leaves bytes above 0x7f unescaped.
    - Concurrency (spec section 5): handlers share no mutable state, so a
      request is modelled in isolation; timeouts of the transport are not
      modelled.
    - [load_dotenv] and [os.getenv]: the environment is a parameter. *)

From Stdlib Require Export String Ascii List ZArith QArith Qround Lia Bool.
Export ListNotations.

Declare Scope py_scope.
Delimit Scope py_scope with py.

(** The newline character, written [NL] in templates that join lines. *)
Notation "'NL'" := (String (Ascii.ascii_of_nat 10) EmptyString) : py_scope.

Create HintDb pyhints.
Create Rewrite HintDb pyrw.

Local Open Scope string_scope.

(** ** Generic lemmas on strings *)

Lemma str_app_nil_r (s : string) : s ++ EmptyString = s.
Proof. induction s as [|c s IH]; simpl; [reflexivity | now rewrite IH]. Qed.

Lemma str_app_assoc (a b c : string) : (a ++ b) ++ c = a ++ (b ++ c).
Proof. induction a as [|x a IH]; simpl; [reflexivity | now rewrite IH]. Qed.

Lemma str_length_app (a b : string) :
  (String.length (a ++ b) = String.length a + String.length b)%nat.
Proof. induction a as [|x a IH]; simpl; [reflexivity | now rewrite IH]. Qed.

Lemma str_app_cons (c : ascii) (a b : string) : String c a ++ b = String c (a ++ b).
Proof. reflexivity. Qed.

Lemma str_app_inv_l (s a b : string) : s ++ a = s ++ b -> a = b.
Proof. induction s as [|x s IH]; simpl; [auto | intros H; injection H; auto]. Qed.

#[export] Hint Rewrite str_app_nil_r str_app_assoc str_length_app : pyrw.

(** ** Strings as lists of characters *)

Lemma list_ascii_of_string_app (a b : string) :
  list_ascii_of_string (a ++ b) = (list_ascii_of_string a ++ list_ascii_of_string b)%list.
Proof. induction a as [|x a IH]; simpl; [reflexivity | now rewrite IH]. Qed.

#[export] Hint Rewrite list_ascii_of_string_app : pyrw.

(** ** Options and lists *)

Lemma firstn_length_min {A} (n : nat) (l : list A) :
  List.length (firstn n l) = Nat.min n (List.length l).
Proof. apply length_firstn. Qed.

Lemma option_map_some_inv {A B} (f : A -> B) (o : option A) (b : B) :
  option_map f o = Some b -> exists a, o = Some a /\ b = f a.
Proof. destruct o; simpl; intros H; [injection H; eauto | discriminate]. Qed.

(** ** Tactics shared by the components *)

(** Invert a hypothesis and clean up. *)
Ltac inv H := inversion H; subst; clear H.

(** Case on the first [match] or [if] scrutinee of the goal. *)
Ltac flatten :=
  match goal with
  | |- context [match ?x with _ => _ end] =>
      let E := fresh "E" in destruct x eqn:E
  end.

(** Normalise string appends with the prelude's rewrite lemmas. *)
Ltac str_simpl := autorewrite with pyrw in *.
