(* ===== verification/PyStr.v ===== *)
(** * PyStr: the Python [str] operations the handlers call

    Strings are Rocq [string]s (byte strings); case mapping and whitespace
    are those of CPython restricted to the ASCII range.  The operations
    come first, then the lemmas that pin down their behaviour: [py_contains] is
    the [in] operator ([x in s], a substring test), [py_lower] is
    [str.lower], [py_split] is [str.split()] with no separator (runs of
    whitespace separate, empty words are dropped), [py_join] is
    [sep.join(words)], [py_str_int] is [str(n)] and [py_int_of_str] is
    [int(s)] on a string (base 10, surrounding whitespace, optional sign,
    single underscores between digits). *)

From S2P Require Import Prelude.
From Stdlib Require Import DecimalString DecimalPos.
Local Open Scope string_scope.
Local Open Scope py_scope.

(** ** [str.lower] on ASCII *)

Definition is_upper (c : ascii) : bool :=
  let n := nat_of_ascii c in (65 <=? n)%nat && (n <=? 90)%nat.

Definition lower_char (c : ascii) : ascii :=
  if is_upper c then ascii_of_nat (nat_of_ascii c + 32) else c.

Fixpoint py_lower (s : string) : string :=
  match s with
  | EmptyString => EmptyString
  | String c s' => String (lower_char c) (py_lower s')
  end.

(** ** Prefix and substring tests *)

(** [s.startswith(p)]; the Standard Library's [String.prefix]. *)
Definition py_startswith (p s : string) : bool := String.prefix p s.

(** [p in s] for strings: CPython returns [True] for the empty [p]. *)
Fixpoint py_contains (p s : string) : bool :=
  if String.prefix p s then true
  else match s with
       | EmptyString => false
       | String _ s' => py_contains p s'
       end.

Notation "p 'in_s' s" := (py_contains p s) (at level 70, no associativity) : py_scope.

(** ** [str.split()] with no argument *)

(** The characters [str.isspace] accepts in the ASCII range: tab, line
    feed, vertical tab, form feed, carriage return, the four information
    separators 0x1c-0x1f and space. *)
Definition is_space (c : ascii) : bool :=
  let n := nat_of_ascii c in
  ((9 <=? n) && (n <=? 13))%nat || ((28 <=? n) && (n <=? 32))%nat.

(** CPython's [split_whitespace]: [cur] is the word read so far. *)
Fixpoint split_go (s cur : string) : list string :=
  match s with
  | EmptyString => if String.eqb cur EmptyString then [] else [cur]
  | String c s' =>
      if is_space c then
        (if String.eqb cur EmptyString then split_go s' EmptyString else cur :: split_go s' EmptyString)
      else split_go s' (cur ++ String c EmptyString)
  end.

Definition py_split (s : string) : list string := split_go s EmptyString.

(** [len(s.split())], the word count of the business-plan and content
    envelopes. *)
Definition py_word_count (s : string) : nat := List.length (py_split s).

(** [sep.join(words)]. *)
Definition py_join (sep : string) (ws : list string) : string := String.concat sep ws.

(** [str(x)] of an [Optional[str]], as an f-string renders it: [None] is
    printed [None]. *)
Definition py_str_opt (o : option string) : string :=
  match o with Some s => s | None => "None" end.

(** [x or d] on an [Optional[str]]: [None] and the empty string are falsy. *)
Definition py_or (x : option string) (d : string) : string :=
  match x with
  | Some s => if String.eqb s EmptyString then d else s
  | None => d
  end.

(** ** Helpers of [str.split], [int()] and [repr] *)

(** A word with no whitespace character. *)
Definition no_space (w : string) : bool :=
  forallb (fun c => negb (is_space c)) (list_ascii_of_string w).

(** A run of whitespace. *)
Definition all_space (s : string) : bool := forallb is_space (list_ascii_of_string s).

Definition is_digit (c : ascii) : bool :=
  let n := nat_of_ascii c in (48 <=? n)%nat && (n <=? 57)%nat.

Definition digit_val (c : ascii) : Z := Z.of_nat (nat_of_ascii c - 48).

(** The digit loop of CPython's [int(s)] in base 10: [after_digit] records
    that the previous character was a digit, which an underscore needs. *)
Fixpoint digits_go (s : string) (acc : Z) (after_digit : bool) : option Z :=
  match s with
  | EmptyString => if after_digit then Some acc else None
  | String c s' =>
      if is_digit c then digits_go s' (acc * 10 + digit_val c) true
      else if Ascii.eqb c "_" && after_digit then digits_go s' acc false
      else None
  end.

Fixpoint py_lstrip (s : string) : string :=
  match s with
  | EmptyString => EmptyString
  | String c s' => if is_space c then py_lstrip s' else s
  end.

Definition str_rev (s : string) : string :=
  string_of_list_ascii (rev (list_ascii_of_string s)).

Definition py_rstrip (s : string) : string := str_rev (py_lstrip (str_rev s)).

(** [s.strip()]. *)
Definition py_strip (s : string) : string := py_rstrip (py_lstrip s).

(** [int(s)] for a string [s]: [None] is the [ValueError] CPython raises. *)
Definition py_int_of_str (s : string) : option Z :=
  match py_strip s with
  | String "-" d => option_map Z.opp (digits_go d 0 false)
  | String "+" d => digits_go d 0 false
  | d => digits_go d 0 false
  end.

(** [str(n)] for an integer [n]: the sign, then the decimal digits with no
    leading zero. *)
Definition py_str_int (z : Z) : string := DecimalString.NilZero.string_of_int (Z.to_int z).

(** Two hexadecimal digits, for the [\xhh] escape. *)
Definition hex_digit (n : nat) : ascii :=
  if (n <? 10)%nat then ascii_of_nat (48 + n) else ascii_of_nat (87 + n).

(** The escape CPython's [repr] writes for one character, given the quote
    character in use. *)
Definition repr_char (q c : ascii) : string :=
  let n := nat_of_ascii c in
  if Ascii.eqb c "\" then "\\"
  else if Ascii.eqb c q then String "\" (String q EmptyString)
  else if (n =? 9)%nat then "\t"
  else if (n =? 10)%nat then "\n"
  else if (n =? 13)%nat then "\r"
  else if (n <? 32)%nat || (n =? 127)%nat then
    String "\" (String "x" (String (hex_digit (n / 16)) (String (hex_digit (n mod 16)) EmptyString)))
  else String c EmptyString.

Fixpoint repr_body (q : ascii) (s : string) : string :=
  match s with
  | EmptyString => EmptyString
  | String c s' => repr_char q c ++ repr_body q s'
  end.

(** The double-quote character. *)
Definition dquote : ascii := ascii_of_nat 34.

(** [repr(s)]: single quotes, unless [s] contains a single quote and no
    double quote. *)
Definition py_repr_str (s : string) : string :=
  let q := if py_contains "'" s && negb (py_contains (String dquote EmptyString) s)
           then dquote else "'"%char in
  String q (repr_body q s ++ String q EmptyString).

(** ** Lemmas: prefix *)

Lemma prefix_app (p b : string) : String.prefix p (p ++ b) = true.
Proof.
  induction p as [|c p IH]; simpl; [destruct b; reflexivity|].
  destruct (ascii_dec c c); [exact IH | congruence].
Qed.

Lemma prefix_spec (p s : string) :
  String.prefix p s = true <-> exists b, s = p ++ b.
Proof.
  split.
  - revert s. induction p as [|c p IH]; intros s H; [now exists s|].
    destruct s as [|d s]; simpl in H; [discriminate|].
    destruct (ascii_dec c d) as [->|]; [|discriminate].
    destruct (IH s H) as [b ->]. now exists b.
  - intros [b ->]. apply prefix_app.
Qed.

#[export] Hint Resolve prefix_app : pyhints.

(** ** Lemmas: the [in] operator *)

Lemma py_contains_cons (p : string) (c : ascii) (s : string) :
  py_contains p (String c s) =
  if String.prefix p (String c s) then true else py_contains p s.
Proof. reflexivity. Qed.

(** [p in s] holds exactly when [s] splits as [a ++ p ++ b]. *)
Lemma py_contains_spec (p s : string) :
  py_contains p s = true <-> exists a b, s = a ++ p ++ b.
Proof.
  split.
  - induction s as [|c s IH].
    + destruct p; simpl; intros H; [now exists EmptyString, EmptyString | discriminate].
    + rewrite py_contains_cons. destruct (String.prefix p (String c s)) eqn:E.
      * intros _. apply prefix_spec in E as [b E]. now exists EmptyString, b.
      * intros H. destruct (IH H) as [a [b ->]]. now exists (String c a), b.
  - intros [a [b ->]]. induction a as [|c a IH].
    + assert (Hu : forall t, String.prefix p t = true -> py_contains p t = true)
        by (intros [|d t] Ht; simpl in *; now rewrite Ht).
      apply Hu; exact (prefix_app p b).
    + rewrite str_app_cons, py_contains_cons, IH. now destruct (String.prefix _ _).
Qed.

Lemma py_contains_middle (a p b : string) : py_contains p (a ++ p ++ b) = true.
Proof. apply py_contains_spec. eauto. Qed.

Lemma py_contains_app_l (p a b : string) :
  py_contains p a = true -> py_contains p (a ++ b) = true.
Proof.
  intros H. apply py_contains_spec in H as [x [y ->]].
  apply py_contains_spec. exists x, (y ++ b). now str_simpl.
Qed.

Lemma py_contains_app_r (p a b : string) :
  py_contains p b = true -> py_contains p (a ++ b) = true.
Proof.
  intros H. apply py_contains_spec in H as [x [y ->]].
  apply py_contains_spec. exists (a ++ x), y. now str_simpl.
Qed.

#[export] Hint Resolve py_contains_middle py_contains_app_l py_contains_app_r : pyhints.

(** ** Lemmas: lower case *)

Lemma lower_char_idem (c : ascii) : lower_char (lower_char c) = lower_char c.
Proof.
  destruct c as [[|] [|] [|] [|] [|] [|] [|] [|]]; reflexivity.
Qed.

Lemma py_lower_idem (s : string) : py_lower (py_lower s) = py_lower s.
Proof.
  induction s as [|c s IH]; simpl; [reflexivity|].
  now rewrite lower_char_idem, IH.
Qed.

Lemma py_lower_app (a b : string) : py_lower (a ++ b) = py_lower a ++ py_lower b.
Proof. induction a as [|c a IH]; simpl; [reflexivity | now rewrite IH]. Qed.

#[export] Hint Rewrite py_lower_idem py_lower_app : pyrw.

(** ** Lemmas: [str.split()] and [" ".join] *)

Lemma split_go_word (w s cur : string) :
  no_space w = true -> split_go (w ++ s) cur = split_go s (cur ++ w).
Proof.
  revert cur. induction w as [|c w IH]; intros cur Hw; simpl.
  - now rewrite str_app_nil_r.
  - unfold no_space in Hw. simpl in Hw. apply andb_true_iff in Hw as [Hc Hw].
    apply negb_true_iff in Hc. rewrite Hc, IH by exact Hw.
    now rewrite str_app_assoc.
Qed.

Lemma split_go_spaces (s rest : string) :
  all_space s = true -> split_go (s ++ rest) EmptyString = split_go rest EmptyString.
Proof.
  induction s as [|c s IH]; intros Hs; [reflexivity|].
  unfold all_space in Hs. simpl in Hs. apply andb_true_iff in Hs as [Hc Hs].
  simpl. rewrite Hc. apply IH, Hs.
Qed.

(** Whitespace after a word ends it. *)
Lemma split_go_spaces_cur (s rest cur : string) :
  all_space s = true -> s <> EmptyString -> cur <> EmptyString ->
  split_go (s ++ rest) cur = cur :: split_go rest EmptyString.
Proof.
  destruct s as [|c s]; intros Hs Hne Hcur; [congruence|].
  unfold all_space in Hs. simpl in Hs. apply andb_true_iff in Hs as [Hc Hs].
  simpl. rewrite Hc, (proj2 (String.eqb_neq cur EmptyString) Hcur).
  f_equal. apply split_go_spaces, Hs.
Qed.

Lemma split_go_spaces_end (t cur : string) :
  all_space t = true -> cur <> EmptyString -> split_go t cur = [cur].
Proof.
  intros Ht Hcur. destruct t as [|c t].
  - simpl. now rewrite (proj2 (String.eqb_neq cur EmptyString) Hcur).
  - rewrite <- (str_app_nil_r (String c t)), split_go_spaces_cur by (try discriminate; assumption).
    reflexivity.
Qed.

Lemma concat_sep_cons (sep w v : string) (ws : list string) :
  String.concat sep (w :: v :: ws) = w ++ sep ++ String.concat sep (v :: ws).
Proof. reflexivity. Qed.

Section SplitJoin.
Variables (sep trail : string).
Hypotheses (Hsep : all_space sep = true) (Hsep_ne : sep <> EmptyString)
           (Htrail : all_space trail = true).

Lemma split_go_join_nonempty (ws : list string) :
  Forall (fun w => w <> EmptyString /\ no_space w = true) ws -> ws <> [] ->
  split_go (py_join sep ws ++ trail) EmptyString = ws.
Proof.
  unfold py_join. induction ws as [|w ws IH]; intros Hws Hnil; [congruence|].
  inversion Hws as [|? ? [Hne Hw] Hrest]; subst.
  destruct ws as [|v ws].
  - simpl String.concat. rewrite split_go_word by exact Hw.
    now apply split_go_spaces_end.
  - rewrite concat_sep_cons, !str_app_assoc, split_go_word by exact Hw.
    change (EmptyString ++ w) with w.
    rewrite split_go_spaces_cur by assumption. f_equal.
    apply IH; [exact Hrest | discriminate].
Qed.
End SplitJoin.

(** Round trip: [str.split()] with no argument gives back the words
    of a text made of non-empty words without whitespace, separated by
    non-empty runs of whitespace, with any leading and trailing
    whitespace; so [len(text.split())], the envelopes' [word_count], is
    the number of those words. *)
Lemma py_split_join (lead sep trail : string) (ws : list string) :
  all_space lead = true -> all_space sep = true -> sep <> EmptyString -> all_space trail = true ->
  Forall (fun w => w <> EmptyString /\ no_space w = true) ws ->
  py_split (lead ++ py_join sep ws ++ trail) = ws.
Proof.
  intros Hl Hs Hne Ht Hws. unfold py_split. rewrite split_go_spaces by exact Hl.
  destruct ws as [|w ws].
  - simpl. rewrite <- (str_app_nil_r trail), split_go_spaces by exact Ht. reflexivity.
  - apply split_go_join_nonempty; [assumption..|discriminate].
Qed.

(** ** Lemmas: the [int]/[str] round trip *)

Lemma digits_go_digit (c : ascii) (s : string) (acc : Z) (b : bool) :
  is_digit c = true -> digits_go (String c s) acc b = digits_go s (acc * 10 + digit_val c) true.
Proof. intros H. simpl. now rewrite H. Qed.
Lemma digits_go_acc (d : Decimal.uint) (acc : positive) :
  digits_go (NilEmpty.string_of_uint d) (Zpos acc) true = Some (Zpos (Pos.of_uint_acc d acc)).
Proof.
  revert acc.
  induction d as [|d IH|d IH|d IH|d IH|d IH|d IH|d IH|d IH|d IH|d IH];
    intros acc; [reflexivity|..]; cbn [NilEmpty.string_of_uint Pos.of_uint_acc];
    rewrite digits_go_digit, <- IH by reflexivity; f_equal; unfold digit_val; simpl (nat_of_ascii _); simpl (_ - _)%nat; simpl Z.of_nat; rewrite ?Pos2Z.inj_add, Pos2Z.inj_mul; lia.
Qed.

Lemma digits_go_uint_true (d : Decimal.uint) :
  digits_go (NilEmpty.string_of_uint d) 0 true = Some (Z.of_N (Pos.of_uint d)).
Proof.
  induction d as [|d IH|d IH|d IH|d IH|d IH|d IH|d IH|d IH|d IH|d IH]; [reflexivity|..];
    cbn [NilEmpty.string_of_uint]; rewrite digits_go_digit by reflexivity;
    [exact IH|..]; exact (digits_go_acc _ _).
Qed.

Lemma digits_go_uint (d : Decimal.uint) (b : bool) :
  d <> Decimal.Nil ->
  digits_go (NilEmpty.string_of_uint d) 0 b = Some (Z.of_N (Pos.of_uint d)).
Proof.
  destruct d; intros Hd; [congruence|..];
    cbn [NilEmpty.string_of_uint]; rewrite digits_go_digit by reflexivity;
    [exact (digits_go_uint_true _)|..]; exact (digits_go_acc _ _).
Qed.
Lemma no_space_uint (d : Decimal.uint) : no_space (NilEmpty.string_of_uint d) = true.
Proof. induction d; exact IHd || reflexivity. Qed.

Lemma py_lstrip_no_space (s : string) :
  no_space s = true -> py_lstrip s = s.
Proof.
  destruct s as [|c s]; [reflexivity|]. unfold no_space. simpl.
  intros H. apply andb_true_iff in H as [Hc _]. apply negb_true_iff in Hc.
  now rewrite Hc.
Qed.

Lemma no_space_rev (s : string) : no_space (str_rev s) = no_space s.
Proof.
  unfold no_space, str_rev. rewrite list_ascii_of_string_of_list_ascii.
  induction (list_ascii_of_string s) as [|c l IH]; [reflexivity|].
  simpl. rewrite forallb_app, IH. simpl. now rewrite andb_true_r, andb_comm.
Qed.

Lemma str_rev_involutive (s : string) : str_rev (str_rev s) = s.
Proof.
  unfold str_rev. rewrite list_ascii_of_string_of_list_ascii, rev_involutive.
  apply string_of_list_ascii_of_string.
Qed.

Lemma py_strip_no_space (s : string) : no_space s = true -> py_strip s = s.
Proof.
  intros H. unfold py_strip, py_rstrip.
  rewrite (py_lstrip_no_space s H), py_lstrip_no_space.
  - apply str_rev_involutive.
  - now rewrite no_space_rev.
Qed.

Lemma py_int_of_str_uint (d : Decimal.uint) :
  d <> Decimal.Nil ->
  py_int_of_str (NilEmpty.string_of_uint d) = Some (Z.of_N (Pos.of_uint d)).
Proof.
  intros Hd. unfold py_int_of_str. rewrite py_strip_no_space by apply no_space_uint.
  destruct d; [congruence|..]; exact (digits_go_uint _ false Hd).
Qed.

Lemma py_int_of_str_neg_uint (d : Decimal.uint) :
  d <> Decimal.Nil ->
  py_int_of_str (String "-" (NilEmpty.string_of_uint d)) = Some (- Z.of_N (Pos.of_uint d))%Z.
Proof.
  intros Hd. unfold py_int_of_str.
  rewrite py_strip_no_space by apply (no_space_uint d).
  simpl. now rewrite digits_go_uint by exact Hd.
Qed.

Lemma nilzero_nonnil (d : Decimal.uint) :
  d <> Decimal.Nil -> NilZero.string_of_uint d = NilEmpty.string_of_uint d.
Proof. destruct d; intros H; [congruence | reflexivity..]. Qed.

(** Round trip: [int(str(n)) == n] for every integer [n]. *)
Lemma py_int_of_str_py_str_int (z : Z) : py_int_of_str (py_str_int z) = Some z.
Proof.
  unfold py_str_int.
  destruct z as [|p|p]; [reflexivity|..]; simpl Z.to_int;
    unfold NilZero.string_of_int;
    pose proof (Unsigned.to_uint_nonnil p) as Hnn;
    rewrite nilzero_nonnil by exact Hnn.
  - now rewrite py_int_of_str_uint, Unsigned.of_to.
  - now rewrite py_int_of_str_neg_uint, Unsigned.of_to.
Qed.

(** ** Automation: a field occurs in a rendered template *)

Lemma py_contains_head (p b : string) : py_contains p (p ++ b) = true.
Proof. exact (py_contains_middle EmptyString p b). Qed.

Lemma py_contains_refl (p : string) : py_contains p p = true.
Proof. rewrite <- (str_app_nil_r p) at 2. apply py_contains_head. Qed.

(** Each item of a list is found in its join. *)
Lemma py_contains_join (sep w : string) (ws : list string) :
  In w ws -> py_contains w (py_join sep ws) = true.
Proof.
  unfold py_join. induction ws as [|v ws IH]; intros Hin; [destruct Hin|].
  destruct Hin as [->|Hin].
  - destruct ws; [apply py_contains_refl | apply py_contains_head].
  - destruct ws as [|u ws]; [destruct Hin|].
    rewrite concat_sep_cons. apply py_contains_app_r, py_contains_app_r, IH, Hin.
Qed.

(** Walk down a right-nested concatenation [x1 ++ (x2 ++ ...)] to the
    piece that is the searched string. *)
Ltac solve_contains :=
  first [ apply py_contains_refl
        | apply py_contains_head
        | apply py_contains_app_r; solve_contains ].

(** [In f [x1; ...; xn] -> py_contains f (template ...) = true]: each field
    is found by [solve_contains]. *)
Ltac solve_contains_fields :=
  let H := fresh "Hin" in
  intros H; repeat (destruct H as [<-|H]; [solve_contains|]); destruct H.

Lemma py_split_join_witness :
  py_split (String (ascii_of_nat 10) EmptyString ++ py_join (String (ascii_of_nat 9) " ") ["Sphere"; "AI"] ++ "  ") =
  ["Sphere"; "AI"].
Proof.
  apply py_split_join; [reflexivity | reflexivity | discriminate | reflexivity |].
  repeat constructor; discriminate.
Defined.
