(* ===== verification/PyJson.v ===== *)
(** * PyJson: the Python values that come out of [json.loads]

    The payment handlers and the two [request: dict] handlers read their
    body as a parsed JSON document and call [data.get(key)], [int(...)]
    and f-string formatting on what they find.  [json] is the shape of a
    value [json.loads] returns; a number written with a fraction or an
    exponent is a Python [float] and is kept here as the decimal literal
    [JNum m e] (value [m * 10^-e]), an integer literal is a Python [int].
    [obj_get] is [dict.get] on a parsed object (the last binding of a
    duplicated key wins, as in [json.loads]); [py_int] is the built-in
    [int()] with its [TypeError]/[ValueError] cases; [py_str] is [str()],
    which an f-string applies to each interpolated value. *)

From S2P Require Import Prelude PyStr.
Local Open Scope string_scope.
Local Open Scope py_scope.

#[local] Set Warnings "-register-all".

Inductive json : Type :=
| JNull
| JBool (b : bool)
| JInt (z : Z)
| JNum (m : Z) (e : nat)
| JStr (s : string)
| JArr (l : list json)
| JObj (l : list (string * json)).

(** ** [dict.get] *)

(** The value bound to [k] in a parsed object: the last binding, since
    [json.loads] keeps the last of duplicated keys. *)
Definition obj_get (k : string) (l : list (string * json)) : option json :=
  fold_left (fun acc kv => if String.eqb (fst kv) k then Some (snd kv) else acc) l None.

(** [data.get(k)] on a value that is a dict; [None] is Python's [None]. *)
Definition dict_get (k : string) (l : list (string * json)) : json :=
  match obj_get k l with Some v => v | None => JNull end.

(** [data.get(k, default)]. *)
Definition dict_get_default (k : string) (d : json) (l : list (string * json)) : json :=
  match obj_get k l with Some v => v | None => d end.

(** ** Errors of the built-ins *)

(** The exceptions [int()] and [str()] may raise on a JSON value. *)
Inductive conv_error : Type :=
| ConvTypeError (msg : string)
| ConvValueError (msg : string).

(** Python's name of the type of a value, as it appears in messages. *)
Definition type_name (v : json) : string :=
  match v with
  | JNull => "NoneType"
  | JBool _ => "bool"
  | JInt _ => "int"
  | JNum _ _ => "float"
  | JStr _ => "str"
  | JArr _ => "list"
  | JObj _ => "dict"
  end.

(** ** [int(v)] *)

Definition py_int (v : json) : conv_error + Z :=
  match v with
  | JBool b => inr (if b then 1 else 0)%Z
  | JInt z => inr z
  | JNum m e => inr (Z.quot m (10 ^ Z.of_nat e))
  | JStr s =>
      match py_int_of_str s with
      | Some z => inr z
      | None => inl (ConvValueError ("invalid literal for int() with base 10: " ++ py_repr_str s))
      end
  | JNull | JArr _ | JObj _ =>
      inl (ConvTypeError ("int() argument must be a string, a bytes-like object or a real number, not '"
                           ++ type_name v ++ "'"))
  end.

(** ** [repr] and [str] of a float literal *)

(** Drop trailing zeros of the fraction: [12.50] is printed [12.5]. *)
Fixpoint dec_normalize (fuel : nat) (m : Z) (e : nat) : Z * nat :=
  match fuel, e with
  | S f, S e' => if (m mod 10 =? 0)%Z then dec_normalize f (m / 10) e' else (m, e)
  | _, _ => (m, e)
  end.

(** [n] printed on [w] digits with leading zeros. *)
Definition pad_zeros (w : nat) (s : string) : string :=
  (fix pad (k : nat) : string :=
     match k with 0%nat => EmptyString | S k' => String "0" (pad k') end)
    (w - String.length s)%nat ++ s.

(** [repr(float)] of the literal [m * 10^-e], in fixed notation (what
    CPython prints for magnitudes in [1e-4, 1e16) with at most 17
    significant digits): the shortest digits, and at least one digit after
    the point. *)
Definition py_float_repr (m : Z) (e : nat) : string :=
  let '(m', e') := dec_normalize e m e in
  let sign := if (m' <? 0)%Z then "-" else EmptyString in
  let a := Z.abs m' in
  match e' with
  | O => sign ++ py_str_int a ++ ".0"
  | S _ =>
      let p := (10 ^ Z.of_nat e')%Z in
      sign ++ py_str_int (a / p) ++ "." ++ pad_zeros e' (py_str_int (a mod p))
  end.

(** [repr(v)] and [str(v)]: they differ only on strings. *)
Fixpoint py_repr (v : json) : string :=
  match v with
  | JNull => "None"
  | JBool b => if b then "True" else "False"
  | JInt z => py_str_int z
  | JNum m e => py_float_repr m e
  | JStr s => py_repr_str s
  | JArr l => "[" ++ py_join ", " (map py_repr l) ++ "]"
  | JObj l => "{" ++ py_join ", " (map (fun kv => py_repr_str (fst kv) ++ ": " ++ py_repr (snd kv)) l) ++ "}"
  end.

Definition py_str (v : json) : string :=
  match v with
  | JStr s => s
  | _ => py_repr v
  end.

(** ** [json.dumps(v, indent=2)] *)

(** The escape [json.dumps] writes for one character ([ensure_ascii]
    default): the quote, backslash and control characters; bytes above
    0x7f are left as they are (their UTF-8 decoding is not modelled). *)
Definition json_escape_char (c : ascii) : string :=
  let n := nat_of_ascii c in
  if (n =? 34)%nat then String "\" (String dquote EmptyString)
  else if (n =? 92)%nat then "\\"
  else if (n =? 10)%nat then "\n"
  else if (n =? 13)%nat then "\r"
  else if (n =? 9)%nat then "\t"
  else if (n =? 8)%nat then "\b"
  else if (n =? 12)%nat then "\f"
  else if (n <? 32)%nat then
    "\u00" ++ String (hex_digit (n / 16)) (String (hex_digit (n mod 16)) EmptyString)
  else String c EmptyString.

Fixpoint json_escape (s : string) : string :=
  match s with
  | EmptyString => EmptyString
  | String c s' => json_escape_char c ++ json_escape s'
  end.

(** A JSON string literal. *)
Definition json_quote (s : string) : string :=
  String dquote (json_escape s ++ String dquote EmptyString).

(** The indentation of nesting level [k] with [indent=2]. *)
Fixpoint indent2 (k : nat) : string :=
  match k with 0%nat => EmptyString | S k' => "  " ++ indent2 k' end.

(** [json.dumps(v, indent=2)] at nesting level [level]: items separated by
    [","] and a newline, keys by [": "], empty containers as [[]]/[{}]. *)
Fixpoint json_dumps_at (level : nat) (v : json) : string :=
  match v with
  | JNull => "null"
  | JBool b => if b then "true" else "false"
  | JInt z => py_str_int z
  | JNum m e => py_float_repr m e
  | JStr s => json_quote s
  | JArr [] => "[]"
  | JArr l =>
      "[" ++ NL ++
      py_join ("," ++ NL) (map (fun x => indent2 (S level) ++ json_dumps_at (S level) x) l) ++
      NL ++ indent2 level ++ "]"
  | JObj [] => "{}"
  | JObj l =>
      "{" ++ NL ++
      py_join ("," ++ NL)
        (map (fun kv => indent2 (S level) ++ json_quote (fst kv) ++ ": " ++ json_dumps_at (S level) (snd kv)) l) ++
      NL ++ indent2 level ++ "}"
  end.

Definition json_dumps_indent2 (v : json) : string := json_dumps_at 0 v.

(** ** Request floats *)

(** A [float] field of a request, as the decimal literal of the JSON body
    it was parsed from: [fl_mant * 10^-fl_exp]. *)
Record pyfloat : Type := mk_pyfloat { fl_mant : Z; fl_exp : nat }.

Definition fl_val (f : pyfloat) : Q := inject_Z (fl_mant f) / inject_Z (10 ^ Z.of_nat (fl_exp f)).

(** A whole number sent for a float field (pydantic converts [5] to [5.0]). *)
Definition flt (z : Z) : pyfloat := mk_pyfloat z 0.

(** [str(f)] (an f-string's [{f}]). *)
Definition py_float_str (f : pyfloat) : string := py_float_repr (fl_mant f) (fl_exp f).

(** ** [format(x, ",.2f")] *)

(** Insert a comma every three digits, on the reversed digit list. *)
Fixpoint commas_rev (l : list ascii) (k : nat) : list ascii :=
  match l with
  | [] => []
  | c :: l' => if (k =? 3)%nat then ","%char :: c :: commas_rev l' 1 else c :: commas_rev l' (S k)
  end.

(** A non-negative integer with thousands separators. *)
Definition group_thousands (n : Z) : string :=
  string_of_list_ascii (rev (commas_rev (rev (list_ascii_of_string (py_str_int n))) 0)).

(** [format(x, ",.2f")] given the value rounded to cents: the sign of [x]
    is kept even when the rounded value is zero. *)
Definition fmt_comma_2f (negative : bool) (abs_cents : Z) : string :=
  (if negative then "-" else EmptyString) ++ group_thousands (abs_cents / 100) ++ "." ++
  pad_zeros 2 (py_str_int (abs_cents mod 100)).

(** ** Lemmas *)

(** The binding written last is the one [dict.get] sees. *)
Lemma obj_get_app_last (k : string) (v : json) (l : list (string * json)) :
  obj_get k (l ++ [(k, v)]) = Some v.
Proof. unfold obj_get. rewrite fold_left_app. simpl. now rewrite String.eqb_refl. Qed.

(** A binding of another key written last leaves [dict.get] unchanged. *)
Lemma obj_get_app_other (k k' : string) (v : json) (l : list (string * json)) :
  String.eqb k' k = false -> obj_get k (l ++ [(k', v)]) = obj_get k l.
Proof. intros H. unfold obj_get. rewrite fold_left_app. simpl. now rewrite H. Qed.

Lemma dict_get_app_last (k : string) (v : json) (l : list (string * json)) :
  dict_get k (l ++ [(k, v)]) = v.
Proof. unfold dict_get. now rewrite obj_get_app_last. Qed.

Lemma dict_get_app_other (k k' : string) (v : json) (l : list (string * json)) :
  String.eqb k' k = false -> dict_get k (l ++ [(k', v)]) = dict_get k l.
Proof. intros H. unfold dict_get. now rewrite obj_get_app_other. Qed.

Lemma dict_get_default_app_other (k k' : string) (d v : json) (l : list (string * json)) :
  String.eqb k' k = false -> dict_get_default k d (l ++ [(k', v)]) = dict_get_default k d l.
Proof. intros H. unfold dict_get_default. now rewrite obj_get_app_other. Qed.

Lemma obj_get_cons_ne (k k' : string) (v : json) (l : list (string * json)) :
  k' <> k -> ~ In k (map fst l) -> obj_get k ((k', v) :: l) = None.
Proof.
  intros Hne Hin. unfold obj_get. simpl.
  rewrite (proj2 (String.eqb_neq k' k) Hne).
  induction l as [|[k2 v2] l IH]; [reflexivity|]. simpl in *.
  rewrite (proj2 (String.eqb_neq k2 k)) by (intros ->; tauto). apply IH. tauto.
Qed.

(** A key bound once is found. *)
Lemma obj_get_unique (k : string) (v : json) (l1 l2 : list (string * json)) :
  ~ In k (map fst l2) -> obj_get k (l1 ++ (k, v) :: l2) = Some v.
Proof.
  intros Hin. unfold obj_get. rewrite fold_left_app. simpl. rewrite String.eqb_refl.
  generalize (fold_left (fun acc kv => if String.eqb (fst kv) k then Some (snd kv) else acc) l1 None).
  intros _. revert Hin. generalize (Some v) as acc. clear.
  induction l2 as [|[k2 v2] l IH]; intros acc Hin; [reflexivity|]. simpl in *.
  rewrite (proj2 (String.eqb_neq k2 k)) by (intros ->; tauto). apply IH. tauto.
Qed.
