(* ===== verification/Completion.v ===== *)
(** * Completion: handlers as programs that call the completion service

    Every AI-tool handler has the same shape (spec section 4.1): inside one
    [try] block it awaits zero or more calls
    [client.chat.completions.create(model=..., messages=[system, user],
    temperature=..., max_tokens=...)], reads
    [response.choices[0].message.content] (a [str] or [None]), and returns a
    dict; [except Exception as e] turns any exception into
    [HTTPException(status_code=500, detail=str(e))].

    - [exn] are the Python exceptions that occur; [py_str_exn] is [str(e)].
    - [chat_request] is one call's arguments; [reply] is what the service
      does with it: answer with a content, or raise.
    - [Prog A] is a handler body: return, raise, or call the service and
      continue with its reply.  It is a monad (ExtLib's [Monad] class), with
      [complete] the awaited call and [catch] the [try/except].
    - [run] interprets a program against an [oracle] that answers the
      [n]-th call of the request; it returns the outcome and the trace of
      requests sent, in order.  The oracle stands for the remote service:
      it may answer differently each time, and theorems quantify over it.
    - [respond] is FastAPI's translation of the outcome into an HTTP
      response: [200] with the dict, the status and [{"detail": ...}] of an
      [HTTPException], and [500 Internal Server Error] for any other
      exception that escapes. *)

From S2P Require Import Prelude PyStr PyJson.
From ExtLib Require Import Structures.Monad.
From Stdlib Require Import Setoid Morphisms.
Local Open Scope string_scope.
Local Open Scope py_scope.

(** ** Exceptions *)

Inductive exn : Type :=
| HTTPException (status_code : Z) (detail : string)
  (** [fastapi.HTTPException] *)
| SignatureVerificationError (msg : string)
  (** [razorpay.errors.SignatureVerificationError] *)
| TypeError (msg : string)
| ValueError (msg : string)
| AttributeError (msg : string)
| KeyError (key : string)
| OverflowError (msg : string)
  (** raised by [float ** int] when the result leaves the double range *)
| UpstreamError (msg : string)
  (** anything an SDK call raises: [openai.APIError], a network error,
      [stripe.error.SignatureVerificationError], ... *).

(** [str(e)].  Starlette's [HTTPException.__str__] is
    [f"{self.status_code}: {self.detail}"]; [str(KeyError(k))] is
    [repr(k)]; the others print their message. *)
Definition py_str_exn (e : exn) : string :=
  match e with
  | HTTPException c d => py_str_int c ++ ": " ++ d
  | KeyError k => py_repr_str k
  | SignatureVerificationError m | TypeError m | ValueError m
  | AttributeError m | OverflowError m | UpstreamError m => m
  end.

(** The exception [int()]/[str()] raise, as an [exn]. *)
Definition exn_of_conv (c : conv_error) : exn :=
  match c with
  | ConvTypeError m => TypeError m
  | ConvValueError m => ValueError m
  end.

(** ** The completion service's interface *)

Inductive role : Type := System | User.

Record chat_message : Type := mk_message { msg_role : role; msg_content : string }.

Record chat_request : Type := mk_chat_request {
  req_model : string;
  req_messages : list chat_message;
  req_temperature : Q;
  req_max_tokens : Z
}.

(** The request every tool sends: a system persona, then the prompt. *)
Definition chat (model : string) (persona prompt : string) (temperature : Q) (max_tokens : Z)
  : chat_request :=
  mk_chat_request model [mk_message System persona; mk_message User prompt] temperature max_tokens.

(** What the service does with one request: answer with
    [choices[0].message.content] ([None] is possible), or raise. *)
Inductive reply : Type :=
| Answer (content : option string)
| Fail (e : exn).

(** ** Programs *)

Inductive Prog (A : Type) : Type :=
| Ret (a : A)
| Raise (e : exn)
| Call (req : chat_request) (k : reply -> Prog A).

Arguments Ret {A} a.
Arguments Raise {A} e.
Arguments Call {A} req k.

Fixpoint prog_bind {A B} (p : Prog A) (f : A -> Prog B) : Prog B :=
  match p with
  | Ret a => f a
  | Raise e => Raise e
  | Call r k => Call r (fun x => prog_bind (k x) f)
  end.

#[export] Instance Monad_Prog : Monad Prog := {| ret := @Ret; bind := @prog_bind |}.

(** [await client.chat.completions.create(...)] followed by
    [response.choices[0].message.content]. *)
Definition complete (r : chat_request) : Prog (option string) :=
  Call r (fun x => match x with Answer c => Ret c | Fail e => Raise e end).

(** [try: p except Exception as e: h(e)]. *)
Fixpoint catch {A} (p : Prog A) (h : exn -> Prog A) : Prog A :=
  match p with
  | Ret a => Ret a
  | Raise e => h e
  | Call r k => Call r (fun x => catch (k x) h)
  end.

(** A content returned as is in an envelope: [None] becomes [null]. *)
Definition content_json (c : option string) : json :=
  match c with Some s => JStr s | None => JNull end.

(** Lift a built-in conversion: its error is raised. *)
Definition of_conv {A} (c : conv_error + A) : Prog A :=
  match c with inl e => Raise (exn_of_conv e) | inr a => Ret a end.

(** The handler's outer [except Exception as e: raise HTTPException(
    status_code=500, detail=prefix + str(e))]; every handler but the
    business plan uses the empty prefix. *)
Definition catch_500_with {A} (prefix : string) (p : Prog A) : Prog A :=
  catch p (fun e => Raise (HTTPException 500 (prefix ++ py_str_exn e))).

Definition catch_500 {A} (p : Prog A) : Prog A := catch_500_with EmptyString p.

(** ** Running a program against the service *)

Inductive outcome (A : Type) : Type :=
| Done (a : A)
| Raised (e : exn).

Arguments Done {A} a.
Arguments Raised {A} e.

(** The service: its answer to the [n]-th call (from 0) of a request. *)
Definition oracle : Type := nat -> chat_request -> reply.

Fixpoint run_from {A} (o : oracle) (n : nat) (p : Prog A) : outcome A * list chat_request :=
  match p with
  | Ret a => (Done a, [])
  | Raise e => (Raised e, [])
  | Call r k => let '(res, tr) := run_from o (S n) (k (o n r)) in (res, r :: tr)
  end.

Definition run {A} (o : oracle) (p : Prog A) : outcome A * list chat_request := run_from o 0 p.

(** ** HTTP responses *)

Inductive body : Type :=
| JsonBody (j : json)
| TextBody (s : string).

Record response : Type := mk_response { status : Z; resp_body : body }.

(** FastAPI: a returned dict is [200] with the dict; an [HTTPException] is
    its status with [{"detail": detail}]; any other exception escapes to
    Starlette's [ServerErrorMiddleware], which answers [500] with the text
    [Internal Server Error].  A dict holding a float [inf] or [nan] fails
    to render as JSON in CPython; the model's numbers are exact, so that
    failure is not modelled. *)
Definition respond (o : outcome json) : response :=
  match o with
  | Done j => mk_response 200 (JsonBody j)
  | Raised (HTTPException c d) => mk_response c (JsonBody (JObj [("detail", JStr d)]))
  | Raised _ => mk_response 500 (TextBody "Internal Server Error")
  end.

(** The HTTP response a handler gives when the service behaves as [o]. *)
Definition serve (o : oracle) (p : Prog json) : response := respond (fst (run o p)).

(** What the [except Exception] clause lets out: a return, or an
    [HTTPException] with status 500 whose detail starts with [prefix]. *)
Definition http_500_or_done {A} (prefix : string) (r : outcome A) : Prop :=
  match r with
  | Done _ => True
  | Raised e => exists d, e = HTTPException 500 (prefix ++ d)
  end.

(** Two programs are equivalent when they give the same outcome and send
    the same requests whatever the service answers. *)
Definition prog_equiv {A} (p q : Prog A) : Prop :=
  forall o n, run_from o n p = run_from o n q.

(** ** Running composite programs *)

Section Run.
Context {A B : Type} (o : oracle).

(** Running [p >>= f]: run [p]; if it returns, run [f] from the next call
    number; the traces are concatenated. *)
Lemma run_from_bind (n : nat) (p : Prog A) (f : A -> Prog B) :
  run_from o n (prog_bind p f) =
  match run_from o n p with
  | (Done a, tr) => let '(res, tr') := run_from o (n + List.length tr) (f a) in (res, (tr ++ tr')%list)
  | (Raised e, tr) => (Raised e, tr)
  end.
Proof.
  revert n. induction p as [a|e|r k IH]; intros n; simpl.
  - rewrite Nat.add_0_r. now destruct (run_from o n (f a)).
  - reflexivity.
  - rewrite IH. destruct (run_from o (S n) (k (o n r))) as [[a|e] tr]; [|reflexivity].
    simpl List.length. replace (S n + List.length tr)%nat with (n + S (List.length tr))%nat by lia.
    now destruct (run_from o (n + S (List.length tr)) (f a)).
Qed.

(** Running [try p except: h]: the handler runs only when [p] raises. *)
Lemma run_from_catch (n : nat) (p : Prog A) (h : exn -> Prog A) :
  run_from o n (catch p h) =
  match run_from o n p with
  | (Done a, tr) => (Done a, tr)
  | (Raised e, tr) => let '(res, tr') := run_from o (n + List.length tr) (h e) in (res, (tr ++ tr')%list)
  end.
Proof.
  revert n. induction p as [a|e|r k IH]; intros n; simpl.
  - reflexivity.
  - rewrite Nat.add_0_r. now destruct (run_from o n (h e)).
  - rewrite IH. destruct (run_from o (S n) (k (o n r))) as [[a|e] tr]; [reflexivity|].
    simpl List.length. replace (S n + List.length tr)%nat with (n + S (List.length tr))%nat by lia.
    now destruct (run_from o (n + S (List.length tr)) (h e)).
Qed.
End Run.

Lemma run_from_complete (o : oracle) (n : nat) (r : chat_request) :
  run_from o n (complete r) =
  (match o n r with Answer c => Done c | Fail e => Raised e end, [r]).
Proof. simpl. now destruct (o n r). Qed.

(** ** The catch-all wrapper *)

(** Whatever the body does and whatever the service answers, a handler
    wrapped in [catch_500_with] returns, or raises [HTTPException(500)]:
    no other status and no other exception leaves it. *)
Lemma catch_500_with_outcome {A} (prefix : string) (o : oracle) (n : nat) (p : Prog A) :
  http_500_or_done prefix (fst (run_from o n (catch_500_with prefix p))).
Proof.
  unfold catch_500_with. rewrite run_from_catch.
  destruct (run_from o n p) as [[a|e] tr]; simpl; [exact I|]. eauto.
Qed.

(** The trace is the body's: the handler sends no request of its own. *)
Lemma catch_500_with_trace {A} (prefix : string) (o : oracle) (n : nat) (p : Prog A) :
  snd (run_from o n (catch_500_with prefix p)) = snd (run_from o n p).
Proof.
  unfold catch_500_with. rewrite run_from_catch.
  destruct (run_from o n p) as [[a|e] tr]; simpl; [reflexivity|]. apply app_nil_r.
Qed.

(** The HTTP status of a wrapped handler is 200 or 500. *)
Lemma serve_catch_500_status (prefix : string) (o : oracle) (p : Prog json) :
  status (serve o (catch_500_with prefix p)) = 200%Z \/
  status (serve o (catch_500_with prefix p)) = 500%Z.
Proof.
  unfold serve, run. pose proof (catch_500_with_outcome prefix o 0 p) as H.
  destruct (fst (run_from o 0 (catch_500_with prefix p))) as [a|e]; simpl; [now left|].
  destruct H as [d ->]. now right.
Qed.

(** ** Program equivalence *)

#[export] Instance prog_equiv_Equivalence {A} : Equivalence (@prog_equiv A).
Proof.
  split; repeat intro; [reflexivity | now symmetry | etransitivity; eauto].
Qed.

#[export] Instance prog_bind_Proper {A B} :
  Proper (prog_equiv ==> pointwise_relation A prog_equiv ==> @prog_equiv B) prog_bind.
Proof.
  intros p q Hpq f g Hfg o n. rewrite !run_from_bind, Hpq.
  destruct (run_from o n q) as [[a|e] tr]; [|reflexivity]. now rewrite (Hfg a).
Qed.

#[export] Instance catch_Proper {A} :
  Proper (prog_equiv ==> pointwise_relation exn prog_equiv ==> @prog_equiv A) catch.
Proof.
  intros p q Hpq f g Hfg o n. rewrite !run_from_catch, Hpq.
  destruct (run_from o n q) as [[a|e] tr]; [reflexivity|]. now rewrite (Hfg e).
Qed.

(** The monad laws, up to [prog_equiv] (on the nose they need function
    extensionality under [Call]). *)
Lemma prog_bind_ret_r {A} (p : Prog A) : prog_equiv (prog_bind p Ret) p.
Proof.
  intros o n. rewrite run_from_bind. destruct (run_from o n p) as [[a|e] tr]; simpl; [|reflexivity].
  now rewrite app_nil_r.
Qed.

Lemma prog_bind_assoc {A B C} (p : Prog A) (f : A -> Prog B) (g : B -> Prog C) :
  prog_equiv (prog_bind (prog_bind p f) g) (prog_bind p (fun a => prog_bind (f a) g)).
Proof.
  intros o n. rewrite !run_from_bind. destruct (run_from o n p) as [[a|e] tr]; [|reflexivity].
  rewrite run_from_bind. destruct (run_from o (n + List.length tr) (f a)) as [[b|e] tr']; simpl.
  - rewrite length_app, Nat.add_assoc.
    destruct (run_from o (n + List.length tr + List.length tr') (g b)). now rewrite app_assoc.
  - reflexivity.
Qed.

(** [catch] distributes over a body that returns: a [try] around a program
    that cannot raise is that program. *)
Lemma catch_ret {A} (a : A) (h : exn -> Prog A) : catch (Ret a) h = Ret a.
Proof. reflexivity. Qed.
