(* ===== verification/Invoker.v ===== *)
(** * Invoker: the prompt-templated completion invoker

    Spec section 2 describes every AI-tool endpoint as one pattern, the
    prompt-templated completion invoker, parameterized by a request
    schema, a prompt template, a persona, the sampling parameters and the
    shaping of the reply.  [tool] is that parameterization, as a record of
    operations; [invoke] is the pattern: one [complete] call inside the
    handler's [try], the envelope built from the reply, every exception
    turned into [HTTPException(500, prefix + str(e))].

    The handlers of [src/app/ai_tools] are written out one by one, as the
    code has them (in [Support], [Forecast], [Chatbot], [Generators],
    [Tasks]); [App] proves that each single-call handler is equivalent
    ([prog_equiv]) to [invoke] on its [tool], so that what is proved here
    of [invoke] holds of each of them.

    [tool_precheck] is the local computation a handler does before the
    call, when it can raise (the forecast's [float ** int] overflow): an
    exception there is reported as a 500 and no request is sent.  The
    envelope is a value of [exn + json]: it may raise, as
    [analysis.lower()] and [text.split()] do on a [None] content. *)

From S2P Require Import Prelude PyStr PyJson Completion.
From ExtLib Require Import Structures.Monad.
Import MonadNotation.
Local Open Scope string_scope.
Local Open Scope monad_scope.

(** ** The parameterization *)

Record tool (Req : Type) : Type := mk_tool {
  tool_model : string;
  tool_persona : Req -> string;
  tool_prompt : Req -> string;
  tool_temperature : Q;
  tool_max_tokens : Z;
  tool_error_prefix : string;
  tool_precheck : Req -> option exn;
  tool_envelope : Req -> option string -> exn + json
}.

Arguments mk_tool {Req}.
Arguments tool_model {Req}.
Arguments tool_persona {Req}.
Arguments tool_prompt {Req}.
Arguments tool_temperature {Req}.
Arguments tool_max_tokens {Req}.
Arguments tool_error_prefix {Req}.
Arguments tool_precheck {Req}.
Arguments tool_envelope {Req}.

Definition tool_request {Req} (t : tool Req) (r : Req) : chat_request :=
  chat (tool_model t) (tool_persona t r) (tool_prompt t r) (tool_temperature t) (tool_max_tokens t).

(** Raise the exception or return the value. *)
Definition of_result {A} (x : exn + A) : Prog A :=
  match x with inl e => Raise e | inr a => Ret a end.

(** The invoker. *)
Definition invoke {Req} (t : tool Req) (r : Req) : Prog json :=
  catch_500_with (tool_error_prefix t)
    (match tool_precheck t r with
     | Some e => Raise e
     | None => content <- complete (tool_request t r) ;; of_result (tool_envelope t r content)
     end).

(** What the handler's [except Exception] makes of an exception. *)
Definition wrap_500 (prefix : string) (e : exn) : exn :=
  HTTPException 500 (prefix ++ py_str_exn e).

(** The outcome of [invoke] for one reply of the service, when the
    pre-call computation succeeds. *)
Definition invoke_outcome {Req} (t : tool Req) (r : Req) (rep : reply) : outcome json :=
  match rep with
  | Answer c =>
      match tool_envelope t r c with
      | inr j => Done j
      | inl e => Raised (wrap_500 (tool_error_prefix t) e)
      end
  | Fail e => Raised (wrap_500 (tool_error_prefix t) e)
  end.

(** ** Lemmas *)

Lemma run_from_of_result {A} (o : oracle) (n : nat) (x : exn + A) :
  run_from o n (of_result x) = (match x with inl e => Raised e | inr a => Done a end, []).
Proof. now destruct x. Qed.

(** [invoke] fails with no request when the pre-call computation raises;
    otherwise it sends exactly one request, [tool_request t r], and its
    outcome depends on the service's reply to that request alone. *)
Lemma run_from_invoke {Req} (o : oracle) (n : nat) (t : tool Req) (r : Req) :
  run_from o n (invoke t r) =
  match tool_precheck t r with
  | Some e => (Raised (wrap_500 (tool_error_prefix t) e), [])
  | None => (invoke_outcome t r (o n (tool_request t r)), [tool_request t r])
  end.
Proof.
  unfold invoke, catch_500_with. destruct (tool_precheck t r) as [e|]; [reflexivity|]. simpl.
  destruct (o n (tool_request t r)) as [c|e]; simpl; [|reflexivity].
  now destruct (tool_envelope t r c).
Qed.

(** A handler written as [try: c = complete(q); k(c) except ...] refines
    the invoker of a tool whose request is [q] and whose envelope [k]
    computes. *)
Lemma invoke_equiv {Req} (t : tool Req) (r : Req) (k : option string -> Prog json) :
  tool_precheck t r = None ->
  (forall c, prog_equiv (k c) (of_result (tool_envelope t r c))) ->
  prog_equiv (catch_500_with (tool_error_prefix t) (c <- complete (tool_request t r) ;; k c))
             (invoke t r).
Proof.
  intros Hpre Hk. unfold invoke, catch_500_with. rewrite Hpre.
  apply catch_Proper; [|intro; reflexivity].
  apply prog_bind_Proper; [reflexivity|exact Hk].
Qed.

(** The same for a handler whose pre-call computation raises [e] when [b]
    holds. *)
Lemma invoke_equiv_precheck {Req} (t : tool Req) (r : Req) (k : option string -> Prog json)
    (b : bool) (e : exn) :
  tool_precheck t r = (if b then Some e else None) ->
  (forall c, prog_equiv (k c) (of_result (tool_envelope t r c))) ->
  prog_equiv (catch_500_with (tool_error_prefix t)
                (if b then Raise e else c <- complete (tool_request t r) ;; k c))
             (invoke t r).
Proof.
  intros Hpre Hk. destruct b.
  - unfold invoke. rewrite Hpre. reflexivity.
  - now apply invoke_equiv.
Qed.

(** What an equivalent handler does: one request, the outcome of the
    invoker. *)
Lemma run_refines_invoke {Req} (t : tool Req) (r : Req) (p : Prog json) (o : oracle) (n : nat) :
  prog_equiv p (invoke t r) -> tool_precheck t r = None ->
  run_from o n p = (invoke_outcome t r (o n (tool_request t r)), [tool_request t r]).
Proof. intros H Hpre. now rewrite H, run_from_invoke, Hpre. Qed.

(** Closes the two premises of [invoke_equiv]: the pre-call check passes,
    and the envelope agrees with the handler's continuation on each
    content ([None] or a string). *)
Ltac envelope_equiv := first [reflexivity | intros [?|]; reflexivity].
