(* ===== verification/Support.v ===== *)
(** * Support: [src/app/ai_tools/customer_support.py]

    Two handlers.  [analyze_support_ticket] renders the ticket into a
    prompt, asks the completion service for an analysis and derives a
    coarse sentiment from the answer by keyword search
    ([classify_sentiment]); [generate_support_response] reads
    [request.get("message", "")] from an untyped body and asks for a reply.
    The sentiment classifier has an abstract specification
    ([sentiment_spec]: first match of "negative"/"angry", then "positive",
    else "neutral", on the lower-cased text) which it refines; the
    handlers' theorems give their response on every branch of the service's
    behaviour. *)

From S2P Require Import Prelude PyStr PyJson Completion.
From ExtLib Require Import Structures.Monad.
Import MonadNotation.
Local Open Scope string_scope.
Local Open Scope py_scope.
Local Open Scope monad_scope.

(** ** Data *)

(** [class SupportTicket(BaseModel)]; [priority] is [Optional[str]]
    (pydantic fills in ["medium"] when the field is absent; an explicit
    [null] is [None]). *)
Record SupportTicket : Type := mk_ticket {
  customer_name : string;
  customer_email : string;
  subject : string;
  message : string;
  priority : option string
}.

(** ** [analyze_support_ticket] *)

Definition ticket_prompt (t : SupportTicket) : string :=
"
        Analyze this customer support ticket:
        
        From: " ++ customer_name t ++ " (" ++ customer_email t ++ ")
        Subject: " ++ subject t ++ "
        Priority: " ++ py_str_opt (priority t) ++ "
        
        Message:
        " ++ message t ++ "
        
        Provide:
        1. Sentiment Analysis (positive, neutral, negative, angry)
        2. Category (technical, billing, feature_request, complaint, question)
        3. Priority Assessment (low, medium, high, urgent)
        4. Suggested Response (professional, empathetic, helpful)
        5. Required Actions (specific steps to resolve)
        6. Escalation Needed? (yes/no and why)
        
        Format your analysis clearly with sections.
        ".

Definition ticket_persona : string :=
  "You are a customer support expert who analyzes tickets and provides actionable insights.".

Definition ticket_request (t : SupportTicket) : chat_request :=
  chat "gpt-4-turbo-preview" ticket_persona (ticket_prompt t) (6 # 10) 1000.

(** The keyword classifier: [sentiment = "neutral"; if "negative" in
    analysis.lower() or "angry" in analysis.lower(): sentiment = "negative"
    elif "positive" in analysis.lower(): sentiment = "positive"]. *)
Definition classify_sentiment (analysis : string) : string :=
  if py_contains "negative" (py_lower analysis) || py_contains "angry" (py_lower analysis)
  then "negative"
  else if py_contains "positive" (py_lower analysis) then "positive"
  else "neutral".

Definition ticket_envelope (analysis : string) : json :=
  JObj [("success", JBool true); ("analysis", JStr analysis);
        ("sentiment", JStr (classify_sentiment analysis));
        ("tool", JStr "customer_support_ai")].

(** [analysis.lower()] on a [None] content raises [AttributeError]. *)
Definition analyze_support_ticket (t : SupportTicket) : Prog json :=
  catch_500 (
    content <- complete (ticket_request t) ;;
    match content with
    | None => Raise (AttributeError "'NoneType' object has no attribute 'lower'")
    | Some analysis => ret (ticket_envelope analysis)
    end).

(** ** [generate_support_response] *)

Definition support_response_prompt (message : string) : string :=
"
        Generate a professional, empathetic customer support response for this issue:
        
        Customer Issue:
        " ++ message ++ "
        
        Requirements:
        - Be empathetic and understanding
        - Provide clear solution steps
        - Use professional but friendly tone
        - Include next steps or timeline
        - Offer additional help
        - End with positive note
        
        Format as email response.
        ".

Definition support_response_persona : string :=
  "You are an expert customer support representative known for excellent service.".

(** [request.get("message", "")] formatted by the f-string. *)
Definition support_message (request : list (string * json)) : string :=
  py_str (dict_get_default "message" (JStr EmptyString) request).

Definition support_response_request (request : list (string * json)) : chat_request :=
  chat "gpt-4-turbo-preview" support_response_persona
       (support_response_prompt (support_message request)) (7 # 10) 500.

Definition generate_support_response (request : list (string * json)) : Prog json :=
  catch_500 (
    content <- complete (support_response_request request) ;;
    ret (JObj [("success", JBool true); ("response", content_json content);
               ("tool", JStr "customer_support_ai")])).

(** ** The sentiment classifier against its specification *)

(** Spec section 4.1: "negative" or "angry" anywhere in the lower-cased
    text gives negative; otherwise "positive" gives positive; otherwise
    neutral. *)
Inductive sentiment_spec (s : string) : string -> Prop :=
| spec_negative :
    (exists a b, py_lower s = a ++ "negative" ++ b) \/ (exists a b, py_lower s = a ++ "angry" ++ b) ->
    sentiment_spec s "negative"
| spec_positive :
    ~ (exists a b, py_lower s = a ++ "negative" ++ b) -> ~ (exists a b, py_lower s = a ++ "angry" ++ b) ->
    (exists a b, py_lower s = a ++ "positive" ++ b) ->
    sentiment_spec s "positive"
| spec_neutral :
    ~ (exists a b, py_lower s = a ++ "negative" ++ b) -> ~ (exists a b, py_lower s = a ++ "angry" ++ b) ->
    ~ (exists a b, py_lower s = a ++ "positive" ++ b) ->
    sentiment_spec s "neutral".

(** The category list the prompt itself asks for. *)
Definition sentiment_categories : string := "Sentiment Analysis (positive, neutral, negative, angry)".

Lemma py_contains_false (p s : string) :
  py_contains p s = false -> ~ exists a b, s = a ++ p ++ b.
Proof. intros H Hex. apply py_contains_spec in Hex. congruence. Qed.

(** The classifier implements its specification. *)
Lemma classify_sentiment_sound (s : string) : sentiment_spec s (classify_sentiment s).
Proof.
  unfold classify_sentiment.
  destruct (py_contains "negative" (py_lower s)) eqn:Hn;
    [apply spec_negative; left; now apply py_contains_spec|].
  destruct (py_contains "angry" (py_lower s)) eqn:Ha;
    [apply spec_negative; right; now apply py_contains_spec|].
  apply py_contains_false in Hn, Ha. simpl.
  destruct (py_contains "positive" (py_lower s)) eqn:Hp.
  - apply spec_positive; [exact Hn | exact Ha | now apply py_contains_spec].
  - apply spec_neutral; [exact Hn | exact Ha | now apply py_contains_false].
Qed.

(** The specification is deterministic, so the classifier is the only
    function meeting it. *)
Lemma sentiment_spec_functional (s r1 r2 : string) :
  sentiment_spec s r1 -> sentiment_spec s r2 -> r1 = r2.
Proof.
  intros H1 H2. inversion H1; inversion H2; subst; try reflexivity;
    exfalso; intuition eauto.
Qed.

(** ** Properties of the classifier *)

(** (C5) The classifier meets its specification, and is the only answer it
    admits. *)
Theorem classify_sentiment_correct (s r : string) :
  sentiment_spec s r <-> classify_sentiment s = r.
Proof.
  split; intros H.
  - exact (sentiment_spec_functional s _ _ (classify_sentiment_sound s) H).
  - subst. apply classify_sentiment_sound.
Qed.

(** (C14) The matching is case-insensitive: texts with the same lower-case
    form get the same label. *)
Theorem classify_sentiment_case_insensitive (s t : string) :
  py_lower s = py_lower t -> classify_sentiment s = classify_sentiment t.
Proof. intros H. unfold classify_sentiment. now rewrite H. Qed.

Lemma classify_sentiment_case_insensitive_witness :
  py_lower "ANGRY customer" = py_lower "angry customer" /\
  classify_sentiment "ANGRY customer" = classify_sentiment "angry customer" /\
  classify_sentiment "ANGRY customer" = "negative".
Proof.
  split; [reflexivity|]. split; [|reflexivity].
  apply classify_sentiment_case_insensitive. reflexivity.
Defined.

(** (C9) An analysis that repeats the prompt's list of sentiment categories
    is classified negative, whatever else it says: the first-match search
    sees the word "negative" of the list. *)
Theorem classify_sentiment_echoed_categories (a b : string) :
  classify_sentiment (a ++ sentiment_categories ++ b) = "negative".
Proof.
  unfold classify_sentiment. rewrite !py_lower_app.
  assert (H : py_contains "negative" (py_lower a ++ py_lower sentiment_categories ++ py_lower b) = true)
    by (apply py_contains_app_r, py_contains_app_l; reflexivity).
  now rewrite H.
Qed.

(** ** The handler [analyze_support_ticket] *)

(** (C15) One request is sent, the ticket prompt; a text answer gives the
    envelope with the classifier's label; a [None] content is the
    [AttributeError] of [.lower()], and a failing call is its own message,
    both turned into status 500. *)
Theorem analyze_support_ticket_run (o : oracle) (t : SupportTicket) :
  run o (analyze_support_ticket t) =
  (match o 0%nat (ticket_request t) with
   | Answer (Some a) => Done (ticket_envelope a)
   | Answer None => Raised (HTTPException 500 "'NoneType' object has no attribute 'lower'")
   | Fail e => Raised (HTTPException 500 (py_str_exn e))
   end, [ticket_request t]).
Proof. unfold run; simpl. destruct (o 0%nat (ticket_request t)) as [[a|]|e]; reflexivity. Qed.

(** (C16) Spec section 8: the prompt sent contains every field of the
    ticket. *)
Theorem ticket_prompt_contains_fields (t : SupportTicket) (f : string) :
  In f [customer_name t; customer_email t; subject t; message t; py_str_opt (priority t)] ->
  py_contains f (ticket_prompt t) = true.
Proof.
  unfold ticket_prompt. intros [<-|[<-|[<-|[<-|[<-|[]]]]]]; solve_contains.
Qed.

Lemma ticket_prompt_contains_fields_witness :
  py_contains "Refund" (ticket_prompt (mk_ticket "Asha" "a@x.in" "Refund" "late" None)) = true.
Proof. apply ticket_prompt_contains_fields. simpl. tauto. Defined.

(** ** The handler [generate_support_response] *)

(** (C25) The body's [message] (or the empty string when the key is absent)
    is embedded in the prompt; the answer is returned as is, [None] as
    [null]; a failing call is status 500. *)
Theorem generate_support_response_run (o : oracle) (request : list (string * json)) :
  run o (generate_support_response request) =
  (match o 0%nat (support_response_request request) with
   | Answer c => Done (JObj [("success", JBool true); ("response", content_json c);
                             ("tool", JStr "customer_support_ai")])
   | Fail e => Raised (HTTPException 500 (py_str_exn e))
   end, [support_response_request request]) /\
  py_contains (support_message request)
              (msg_content (nth 1 (req_messages (support_response_request request))
                               (mk_message User EmptyString))) = true.
Proof.
  split.
  - unfold run; simpl. destruct (o 0%nat (support_response_request request)); reflexivity.
  - cbn [support_response_request chat req_messages nth msg_content].
    unfold support_response_prompt. solve_contains.
Qed.
