(* ===== verification/Payment.v ===== *)
(** * Payment: [src/app/payment/razorpay_integration.py] and
      [src/app/payment/stripe_integration.py]

    The four payment handlers read a raw request body ([await
    request.json()]), pick fields with [data.get], call a vendor SDK and
    answer with a dict; each is wrapped in [try ... except Exception as e:
    raise HTTPException(500, str(e))].  The SDKs are external: they are the
    classes [RazorpayClient] and [StripeClient], whose laws state only what
    the vendor documents (Razorpay accepts a signature exactly when it is
    the HMAC of ["order_id|payment_id"] under the key secret, and raises
    [SignatureVerificationError] otherwise).  The handlers are [Prog json]
    programs that make no completion call; [serve] gives their HTTP
    response.  The environment ([os.getenv]) is a Section variable.
    [demo_razorpay] and [demo_stripe] are concrete clients satisfying the
    laws, used only to instantiate the theorems in their witnesses. *)

From S2P Require Import Prelude PyStr PyJson Completion.
From ExtLib Require Import Structures.Monad.
Import MonadNotation.
Local Open Scope string_scope.
Local Open Scope py_scope.
Local Open Scope monad_scope.

(** ** Python steps shared by the handlers *)

(** [await request.json()]: the body parsed, or the [JSONDecodeError]
    (a [ValueError]) of an invalid body. *)
Definition request_json (raw : option json) : Prog json :=
  match raw with
  | Some v => ret v
  | None => Raise (ValueError "Expecting value: line 1 column 1 (char 0)")
  end.

(** [data.get]: only a dict has it. *)
Definition as_dict (v : json) : Prog (list (string * json)) :=
  match v with
  | JObj l => ret l
  | _ => Raise (AttributeError ("'" ++ type_name v ++ "' object has no attribute 'get'"))
  end.

(** [d[k]] on a dict returned by an SDK. *)
Definition getitem (d : json) (k : string) : Prog json :=
  match d with
  | JObj l => match obj_get k l with Some v => ret v | None => Raise (KeyError k) end
  | _ => Raise (TypeError ("'" ++ type_name d ++ "' object is not subscriptable"))
  end.

(** An SDK call: its result, or the exception it raises. *)
Definition sdk {A} (r : exn + A) : Prog A :=
  match r with inl e => Raise e | inr a => ret a end.

(** [os.getenv(name)] as a JSON value. *)
Definition getenv_json (env : string -> option string) (name : string) : json :=
  match env name with Some s => JStr s | None => JNull end.

(** ** The vendor SDKs *)

(** [razorpay.Client(auth=(key_id, key_secret))]: [order.create] and
    [utility.verify_payment_signature].  The signature check is HMAC-SHA256
    of ["order_id|payment_id"] keyed with the secret, in hex. *)
Class RazorpayClient : Type := {
  rzp_key_secret : string;
  rzp_hmac_hex : string -> string -> string;
  rzp_order_create : json -> exn + json;
  rzp_verify_payment_signature : json -> exn + unit;
  rzp_verify_accepts : forall oid pid s,
    s = rzp_hmac_hex rzp_key_secret (oid ++ "|" ++ pid) ->
    rzp_verify_payment_signature
      (JObj [("razorpay_order_id", JStr oid); ("razorpay_payment_id", JStr pid);
             ("razorpay_signature", JStr s)]) = inr tt;
  rzp_verify_rejects : forall oid pid s,
    s <> rzp_hmac_hex rzp_key_secret (oid ++ "|" ++ pid) ->
    rzp_verify_payment_signature
      (JObj [("razorpay_order_id", JStr oid); ("razorpay_payment_id", JStr pid);
             ("razorpay_signature", JStr s)])
    = inl (SignatureVerificationError "Razorpay Signature Verification Failed")
}.

(** [stripe.PaymentIntent.create(amount, currency, metadata, ...)] returns
    an intent with [client_secret]; [stripe.Webhook.construct_event(
    payload, sig_header, secret)] returns the verified event or raises. *)
Class StripeClient : Type := {
  stripe_intent_create : Z -> json -> json -> exn + string;
  stripe_construct_event : string -> option string -> option string -> exn + json
}.

Section Handlers.
Context (env : string -> option string).

(** ** Razorpay *)

(** The [order_data] dict sent to [order.create]. *)
Definition razorpay_order_data (amount : Z) (currency plan_name user_email : json) : json :=
  JObj [("amount", JInt (amount * 100));
        ("currency", currency);
        ("receipt", JStr ("receipt_" ++ py_str plan_name ++ "_" ++ py_str user_email));
        ("notes", JObj [("plan_name", plan_name); ("user_email", user_email)])].

Definition create_razorpay_order `{RazorpayClient} (raw : option json) : Prog json :=
  catch_500 (
    data <- request_json raw ;;
    d <- as_dict data ;;
    amount <- of_conv (py_int (dict_get "amount" d)) ;;
    let currency := dict_get_default "currency" (JStr "INR") d in
    let plan_name := dict_get "plan_name" d in
    let user_email := dict_get "user_email" d in
    order <- sdk (rzp_order_create (razorpay_order_data amount currency plan_name user_email)) ;;
    oid <- getitem order "id" ;;
    oamount <- getitem order "amount" ;;
    ocurrency <- getitem order "currency" ;;
    ret (JObj [("success", JBool true); ("order_id", oid); ("amount", oamount);
               ("currency", ocurrency); ("key_id", getenv_json env "RAZORPAY_KEY_ID")])).

(** The [params_dict] passed to [verify_payment_signature]. *)
Definition razorpay_params (d : list (string * json)) : json :=
  JObj [("razorpay_order_id", dict_get "razorpay_order_id" d);
        ("razorpay_payment_id", dict_get "razorpay_payment_id" d);
        ("razorpay_signature", dict_get "razorpay_signature" d)].

(** The inner [try: verify ... except SignatureVerificationError: raise
    HTTPException(400, "Invalid payment signature")] sits inside the
    outer [try], whose [except Exception] catches that [HTTPException]
    too. *)
Definition verify_razorpay_payment `{RazorpayClient} (raw : option json) : Prog json :=
  catch_500 (
    data <- request_json raw ;;
    d <- as_dict data ;;
    catch (
      _ <- sdk (rzp_verify_payment_signature (razorpay_params d)) ;;
      ret (JObj [("success", JBool true); ("message", JStr "Payment verified successfully");
                 ("payment_id", dict_get "razorpay_payment_id" d)]))
      (fun e => match e with
                | SignatureVerificationError _ => Raise (HTTPException 400 "Invalid payment signature")
                | _ => Raise e
                end)).

(** ** Stripe *)

Definition create_stripe_payment_intent `{StripeClient} (raw : option json) : Prog json :=
  catch_500 (
    data <- request_json raw ;;
    d <- as_dict data ;;
    amount <- of_conv (py_int (dict_get "amount" d)) ;;
    let currency := dict_get_default "currency" (JStr "usd") d in
    let metadata := JObj [("plan_name", dict_get "plan_name" d);
                          ("user_email", dict_get "user_email" d)] in
    secret <- sdk (stripe_intent_create (amount * 100) currency metadata) ;;
    ret (JObj [("success", JBool true); ("client_secret", JStr secret);
               ("publishable_key", getenv_json env "STRIPE_PUBLISHABLE_KEY")])).

(** The three event types the webhook names; for each it reads
    [event["data"]["object"]] and does nothing else. *)
Definition handled_event_type (ty : json) : bool :=
  match ty with
  | JStr s => String.eqb s "payment_intent.succeeded"
              || String.eqb s "payment_intent.payment_failed"
              || String.eqb s "customer.subscription.deleted"
  | _ => false
  end.

Definition stripe_webhook `{StripeClient} (payload : string) (sig_header : option string)
  : Prog json :=
  catch_500 (
    event <- sdk (stripe_construct_event payload sig_header (env "STRIPE_WEBHOOK_SECRET")) ;;
    ty <- getitem event "type" ;;
    (if handled_event_type ty
     then data <- getitem event "data" ;; _ <- getitem data "object" ;; ret tt
     else ret tt) ;;
    ret (JObj [("status", JStr "success")])).
End Handlers.

(** ** Concrete clients, for the witnesses *)

(** A stand-in for HMAC-SHA256 (any function of key and message meets the
    class's laws). *)
Definition demo_hmac (k m : string) : string := k ++ ":" ++ m.

Definition demo_verify (secret : string) (params : json) : exn + unit :=
  match params with
  | JObj [(_, JStr oid); (_, JStr pid); (_, JStr s)] =>
      if String.eqb s (demo_hmac secret (oid ++ "|" ++ pid)) then inr tt
      else inl (SignatureVerificationError "Razorpay Signature Verification Failed")
  | _ => inl (TypeError "expected string parameters")
  end.

(** Razorpay's test mode echoes the requested amount and currency. *)
Definition demo_order_create (data : json) : exn + json :=
  match data with
  | JObj l => inr (JObj [("id", JStr "order_demo"); ("amount", dict_get "amount" l);
                         ("currency", dict_get "currency" l)])
  | _ => inl (UpstreamError "bad request")
  end.

Definition demo_razorpay : RazorpayClient.
Proof.
  refine {| rzp_key_secret := "s3cret"; rzp_hmac_hex := demo_hmac;
            rzp_order_create := demo_order_create;
            rzp_verify_payment_signature := demo_verify "s3cret" |}.
  - intros oid pid s ->. cbn beta iota delta [demo_verify]. now rewrite String.eqb_refl.
  - intros oid pid s Hs. cbn beta iota delta [demo_verify].
    now rewrite (proj2 (String.eqb_neq _ _) Hs).
Defined.

Definition demo_oracle : oracle := fun _ _ => Answer None.
Definition demo_env : string -> option string := fun _ => Some "rzp_test_key".

(** A Stripe client whose webhook secret check is an equality test. *)
Definition demo_construct_event (payload : string) (sig_header secret : option string) : exn + json :=
  match sig_header, secret with
  | Some s, Some k =>
      if String.eqb s k then
        inr (JObj [("type", JStr payload); ("data", JObj [("object", JObj [])])])
      else inl (UpstreamError "No signatures found matching the expected signature for payload")
  | _, _ => inl (UpstreamError "No signatures found matching the expected signature for payload")
  end.

Definition demo_stripe : StripeClient :=
  {| stripe_intent_create := fun _ _ _ => inr "pi_demo_secret";
     stripe_construct_event := demo_construct_event |}.

Definition demo_stripe_env : string -> option string :=
  fun name => if String.eqb name "STRIPE_WEBHOOK_SECRET" then Some "whsec" else None.


(** ** Properties *)

Section Properties.
Context (env : string -> option string) (o : oracle).

(** A body that carries the three Razorpay fields as strings. *)
Definition has_razorpay_fields (d : list (string * json)) (oid pid s : string) : Prop :=
  dict_get "razorpay_order_id" d = JStr oid /\
  dict_get "razorpay_payment_id" d = JStr pid /\
  dict_get "razorpay_signature" d = JStr s.

Lemma razorpay_params_eq (d : list (string * json)) (oid pid s : string) :
  has_razorpay_fields d oid pid s ->
  razorpay_params d =
  JObj [("razorpay_order_id", JStr oid); ("razorpay_payment_id", JStr pid);
        ("razorpay_signature", JStr s)].
Proof. intros (H1 & H2 & H3). unfold razorpay_params. now rewrite H1, H2, H3. Qed.

(** (C1) A tampered signature is rejected with status 500, not with the
    400 the inner handler raises (spec section 8 asks for a
    distinguishable 400): the outer [except Exception] catches the
    [HTTPException(400)] and reports [str(e)], ["400: Invalid payment
    signature"], as the detail of a 500. *)
Theorem verify_razorpay_tampered_is_500 `{RazorpayClient} (d : list (string * json)) (oid pid s : string) :
  has_razorpay_fields d oid pid s ->
  s <> rzp_hmac_hex rzp_key_secret (oid ++ "|" ++ pid) ->
  serve o (verify_razorpay_payment (Some (JObj d))) =
  mk_response 500 (JsonBody (JObj [("detail", JStr "400: Invalid payment signature")])).
Proof.
  intros Hf Hs. unfold serve, run, verify_razorpay_payment. simpl.
  rewrite (razorpay_params_eq d oid pid s Hf), (rzp_verify_rejects oid pid s Hs).
  reflexivity.
Qed.

(** (C18) The genuine signature is accepted: status 200 with the payment
    id. *)
Theorem verify_razorpay_genuine_is_200 `{RazorpayClient} (d : list (string * json)) (oid pid : string) :
  has_razorpay_fields d oid pid (rzp_hmac_hex rzp_key_secret (oid ++ "|" ++ pid)) ->
  serve o (verify_razorpay_payment (Some (JObj d))) =
  mk_response 200 (JsonBody (JObj [("success", JBool true);
                                    ("message", JStr "Payment verified successfully");
                                    ("payment_id", JStr pid)])).
Proof.
  intros Hf. unfold serve, run, verify_razorpay_payment. simpl.
  rewrite (razorpay_params_eq d _ _ _ Hf), (rzp_verify_accepts oid pid _ eq_refl).
  simpl. destruct Hf as (_ & Hp & _). now rewrite Hp.
Qed.

(** (C2) No payment handler ever answers 400 or any status other than 200
    and 500, whatever the body and whatever the SDKs do. *)
Theorem payment_status_200_or_500 `{RazorpayClient} `{StripeClient}
    (raw : option json) (payload : string) (sig_header : option string) :
  let ok r := status r = 200%Z \/ status r = 500%Z in
  ok (serve o (create_razorpay_order env raw)) /\
  ok (serve o (verify_razorpay_payment raw)) /\
  ok (serve o (create_stripe_payment_intent env raw)) /\
  ok (serve o (stripe_webhook env payload sig_header)).
Proof. repeat split; apply serve_catch_500_status. Qed.
End Properties.

Section StripeProperties.
Context (env : string -> option string) (o : oracle).

(** (C19) The webhook acknowledges every verified event with
    [{"status": "success"}], whatever its type: for the three named types
    it only reads [event["data"]["object"]]; no subscription or payment
    state is changed on any branch. *)
Theorem stripe_webhook_acknowledges `{StripeClient} (payload : string) (sig_header : option string)
    (ev : list (string * json)) (ty : json) :
  stripe_construct_event payload sig_header (env "STRIPE_WEBHOOK_SECRET") = inr (JObj ev) ->
  obj_get "type" ev = Some ty ->
  (handled_event_type ty = true ->
     exists dl obj, obj_get "data" ev = Some (JObj dl) /\ obj_get "object" dl = Some obj) ->
  serve o (stripe_webhook env payload sig_header) =
  mk_response 200 (JsonBody (JObj [("status", JStr "success")])).
Proof.
  intros Hev Hty Hdata. unfold serve, run, stripe_webhook. simpl.
  rewrite Hev. simpl. rewrite Hty. simpl.
  destruct (handled_event_type ty); simpl; [|reflexivity].
  destruct (Hdata eq_refl) as (dl & obj & Hd & Ho). rewrite Hd. simpl. now rewrite Ho.
Qed.

(** (C20) An event that fails verification (bad signature, missing secret,
    bad payload) is reported as status 500 carrying the SDK's message. *)
Theorem stripe_webhook_rejects `{StripeClient} (payload : string) (sig_header : option string) (e : exn) :
  stripe_construct_event payload sig_header (env "STRIPE_WEBHOOK_SECRET") = inl e ->
  serve o (stripe_webhook env payload sig_header) =
  mk_response 500 (JsonBody (JObj [("detail", JStr (py_str_exn e))])).
Proof. intros He. unfold serve, run, stripe_webhook. simpl. now rewrite He. Qed.
End StripeProperties.


Section OrderProperties.
Context (env : string -> option string) (o : oracle).

(** (C22) [int(data.get("amount"))] failing (missing, [null], a list, a
    non-numeric string) is status 500 carrying [int()]'s message. *)
Theorem create_razorpay_order_bad_amount `{RazorpayClient} (d : list (string * json)) (c : conv_error) :
  py_int (dict_get "amount" d) = inl c ->
  serve o (create_razorpay_order env (Some (JObj d))) =
  mk_response 500 (JsonBody (JObj [("detail", JStr (py_str_exn (exn_of_conv c)))])).
Proof. intros Hc. unfold serve, run, create_razorpay_order. simpl. now rewrite Hc. Qed.

(** (C21) With an amount [int()] accepts, the order sent to Razorpay asks
    for [100 * int(amount)] paise with the body's currency ([INR] by
    default), a receipt built from the plan and e-mail, and the handler
    answers 200 with the order's id, amount and currency and the key id
    from the environment. *)
Theorem create_razorpay_order_success `{RazorpayClient} (d : list (string * json)) (a : Z)
    (ord : list (string * json)) (i am cu : json) :
  py_int (dict_get "amount" d) = inr a ->
  rzp_order_create (razorpay_order_data a (dict_get_default "currency" (JStr "INR") d)
                      (dict_get "plan_name" d) (dict_get "user_email" d)) = inr (JObj ord) ->
  obj_get "id" ord = Some i -> obj_get "amount" ord = Some am -> obj_get "currency" ord = Some cu ->
  serve o (create_razorpay_order env (Some (JObj d))) =
  mk_response 200 (JsonBody (JObj [("success", JBool true); ("order_id", i); ("amount", am);
                                    ("currency", cu); ("key_id", getenv_json env "RAZORPAY_KEY_ID")])).
Proof.
  intros Ha Hord Hi Ham Hcu. unfold serve, run, create_razorpay_order. simpl.
  rewrite Ha. simpl. rewrite Hord. simpl. now rewrite Hi, Ham, Hcu.
Qed.
End OrderProperties.

(** ** Witnesses *)

#[local] Existing Instance demo_razorpay.

Lemma verify_razorpay_tampered_is_500_witness :
  let d := [("razorpay_order_id", JStr "order_1"); ("razorpay_payment_id", JStr "pay_1");
            ("razorpay_signature", JStr "forged")] in
  has_razorpay_fields d "order_1" "pay_1" "forged" /\
  "forged" <> demo_hmac "s3cret" ("order_1" ++ "|" ++ "pay_1") /\
  serve demo_oracle (verify_razorpay_payment (Some (JObj d))) =
  mk_response 500 (JsonBody (JObj [("detail", JStr "400: Invalid payment signature")])).
Proof.
  intros d. assert (Hf : has_razorpay_fields d "order_1" "pay_1" "forged") by (repeat split).
  assert (Hs : "forged" <> demo_hmac "s3cret" ("order_1" ++ "|" ++ "pay_1")) by discriminate.
  split; [exact Hf|]. split; [exact Hs|].
  exact (verify_razorpay_tampered_is_500 demo_oracle d "order_1" "pay_1" "forged" Hf Hs).
Defined.

Lemma verify_razorpay_genuine_is_200_witness :
  let d := [("razorpay_order_id", JStr "order_1"); ("razorpay_payment_id", JStr "pay_1");
            ("razorpay_signature", JStr "s3cret:order_1|pay_1")] in
  has_razorpay_fields d "order_1" "pay_1" (demo_hmac "s3cret" ("order_1" ++ "|" ++ "pay_1")) /\
  status (serve demo_oracle (verify_razorpay_payment (Some (JObj d)))) = 200%Z.
Proof.
  intros d. assert (Hf : has_razorpay_fields d "order_1" "pay_1" (demo_hmac "s3cret" ("order_1" ++ "|" ++ "pay_1")))
    by (repeat split).
  split; [exact Hf|]. now rewrite (@verify_razorpay_genuine_is_200 demo_oracle demo_razorpay d "order_1" "pay_1" Hf).
Defined.

(** A fractional amount is truncated to whole rupees: [12.99] becomes an
    order of 1200 paise. *)
Lemma create_razorpay_order_success_witness :
  let d := [("amount", JNum 1299 2); ("plan_name", JStr "growth"); ("user_email", JStr "a@b.in")] in
  py_int (dict_get "amount" d) = inr 12%Z /\
  serve demo_oracle (create_razorpay_order demo_env (Some (JObj d))) =
  mk_response 200 (JsonBody (JObj [("success", JBool true); ("order_id", JStr "order_demo");
                                    ("amount", JInt 1200); ("currency", JStr "INR");
                                    ("key_id", JStr "rzp_test_key")])).
Proof.
  intros d. split; [reflexivity|].
  exact (create_razorpay_order_success demo_env demo_oracle d 12 _ _ _ _
           eq_refl eq_refl eq_refl eq_refl eq_refl).
Defined.

Lemma create_razorpay_order_bad_amount_witness :
  let d := [("plan_name", JStr "growth")] in
  serve demo_oracle (create_razorpay_order demo_env (Some (JObj d))) =
  mk_response 500 (JsonBody (JObj [("detail",
    JStr "int() argument must be a string, a bytes-like object or a real number, not 'NoneType'")])).
Proof.
  intros d.
  apply (create_razorpay_order_bad_amount demo_env demo_oracle d (ConvTypeError
    "int() argument must be a string, a bytes-like object or a real number, not 'NoneType'")).
  reflexivity.
Defined.


#[local] Existing Instance demo_stripe.

Lemma stripe_webhook_acknowledges_witness :
  stripe_construct_event "payment_intent.succeeded" (Some "whsec") (demo_stripe_env "STRIPE_WEBHOOK_SECRET") =
    inr (JObj [("type", JStr "payment_intent.succeeded"); ("data", JObj [("object", JObj [])])]) /\
  serve demo_oracle (stripe_webhook demo_stripe_env "payment_intent.succeeded" (Some "whsec")) =
  mk_response 200 (JsonBody (JObj [("status", JStr "success")])).
Proof.
  assert (Hev : stripe_construct_event "payment_intent.succeeded" (Some "whsec") (demo_stripe_env "STRIPE_WEBHOOK_SECRET") =
    inr (JObj [("type", JStr "payment_intent.succeeded"); ("data", JObj [("object", JObj [])])])) by reflexivity.
  split; [exact Hev|].
  apply (stripe_webhook_acknowledges demo_stripe_env demo_oracle _ _ _ (JStr "payment_intent.succeeded") Hev eq_refl).
  intros _. exists [("object", JObj [])], (JObj []). split; reflexivity.
Defined.

Lemma stripe_webhook_rejects_witness :
  serve demo_oracle (stripe_webhook demo_stripe_env "payment_intent.succeeded" (Some "forged")) =
  mk_response 500 (JsonBody (JObj [("detail",
    JStr "No signatures found matching the expected signature for payload")])).
Proof.
  apply (stripe_webhook_rejects demo_stripe_env demo_oracle _ _
           (UpstreamError "No signatures found matching the expected signature for payload")).
  reflexivity.
Defined.
