(* ===== verification/Forecast.v ===== *)
(** * Forecast: [src/app/ai_tools/financial_forecast.py]

    The only local computation of the program.  For [month] in
    [range(1, forecast_months + 1)] the handler computes
    [revenue = monthly_revenue_month1 * (1 + growth_rate/100) ** (month-1)],
    [costs = monthly_costs * 1.02 ** (month-1)], their difference, and two
    running sums, and appends a row whose money fields are [round(x, 2)].
    The summary's break-even month is the first row whose rounded
    cumulative profit exceeds the initial investment.

    Floats are exact rationals [Q]; [round(x, 2)] is [round2], round half
    to even of [100 x], kept as an integer number of cents ([Z]).  The loop
    is [forecast_loop], a [fold_left] of [forecast_step] over [py_range];
    [spec_row] is the closed form of one row, and [forecast_projections]
    is proved equal to [map spec_row] of the months, from which the
    monotonicity, break-even and horizon theorems follow.  The handler
    (Section [Handler]) renders the prompt, with the request's money
    fields through [format(x, ",.2f")] and [json.dumps] of the first
    twelve rows, and returns the rows, the analysis and the summary.

    [x ** k] on floats raises [OverflowError] when the power is not
    representable; [forecast_loop_raises] decides whether some month of
    the loop meets such a power, and the handler then answers 500 before
    any request ([generate_financial_forecast_run]).  Other float overflow
    (a finite product or sum rounding to [inf]) is not modelled. *)

From S2P Require Import Prelude PyStr PyJson Completion.
From Stdlib Require Import Qround Qpower Qabs Lqa Setoid Morphisms.
From ExtLib Require Import Structures.Monad.
Import MonadNotation.
Local Open Scope Q_scope.

(** ** Data *)

(** [class FinancialForecastRequest(BaseModel)]; the [float] fields are
    the decimal literals of the body ([pyfloat]), whose value is
    [fl_val]. *)
Record FinancialForecastRequest : Type := mk_forecast_request {
  business_name : string;
  industry : string;
  initial_investment : pyfloat;
  monthly_revenue_month1 : pyfloat;
  monthly_costs : pyfloat;
  growth_rate : pyfloat;
  forecast_months : Z
}.

(** One row of [projections]; money is in cents, the value of
    [round(x, 2)] times 100. *)
Record projection : Type := mk_projection {
  p_month : Z;
  p_revenue : Z;
  p_costs : Z;
  p_profit : Z;
  p_cumulative_revenue : Z;
  p_cumulative_profit : Z
}.

(** ** [round(x, 2)] *)

(** [x < y] on floats. *)
Definition Qltb (x y : Q) : bool := negb (Qle_bool y x).

(** Round half to even, CPython's rounding for [round]. *)
Definition round_half_even (q : Q) : Z :=
  let f := Qfloor q in
  let r := q - inject_Z f in
  if Qltb r (1 # 2) then f
  else if Qltb (1 # 2) r then (f + 1)%Z
  else if Z.even f then f else (f + 1)%Z.

(** [round(x, 2)], in cents. *)
Definition round2 (x : Q) : Z := round_half_even (x * 100).

(** The float a cents value stands for. *)
Definition cents_to_Q (c : Z) : Q := inject_Z c / 100.

(** ** The projection loop *)

(** [range(a, b)]. *)
Definition py_range (a b : Z) : list Z :=
  map (fun i => (a + Z.of_nat i)%Z) (seq 0 (Z.to_nat (b - a))).

Definition revenue_at (req : FinancialForecastRequest) (month : Z) : Q :=
  fl_val (monthly_revenue_month1 req) * (1 + fl_val (growth_rate req) / 100) ^ (month - 1).

(** [1.02 ** (month - 1)]: a fixed 2% monthly cost inflation. *)
Definition costs_at (req : FinancialForecastRequest) (month : Z) : Q :=
  fl_val (monthly_costs req) * (102 # 100) ^ (month - 1).

Record loop_state : Type := mk_loop_state {
  cumulative_revenue : Q;
  cumulative_costs : Q;
  projections : list projection
}.

(** One iteration of the [for month in range(...)] body. *)
Definition forecast_step (req : FinancialForecastRequest) (st : loop_state) (month : Z) : loop_state :=
  let revenue := revenue_at req month in
  let costs := costs_at req month in
  let profit := revenue - costs in
  let cr := cumulative_revenue st + revenue in
  let cc := cumulative_costs st + costs in
  mk_loop_state cr cc
    (projections st ++
     [mk_projection month (round2 revenue) (round2 costs) (round2 profit) (round2 cr) (round2 (cr - cc))]).

Definition forecast_months_range (req : FinancialForecastRequest) : list Z :=
  py_range 1 (forecast_months req + 1).

(** [projections = []; cumulative_revenue = 0; cumulative_costs = 0] and
    the loop. *)
Definition forecast_loop (req : FinancialForecastRequest) : loop_state :=
  fold_left (forecast_step req) (forecast_months_range req) (mk_loop_state 0 0 []).

Definition forecast_projections (req : FinancialForecastRequest) : list projection :=
  projections (forecast_loop req).

(** ** The summary *)

(** [p["cumulative_profit"] > request.initial_investment], on the rounded
    value the row holds. *)
Definition exceeds_investment (inv : Q) (p : projection) : bool :=
  Qltb inv (cents_to_Q (p_cumulative_profit p)).

(** [next((p["month"] for p in projections if ...), None)]. *)
Definition break_even_month (inv : Q) (ps : list projection) : option Z :=
  option_map p_month (find (exceeds_investment inv) ps).

Record forecast_summary : Type := mk_summary {
  break_even : option Z;
  total_revenue_forecast : Z;
  total_profit_forecast : Z
}.

Definition forecast_summary_of (req : FinancialForecastRequest) : forecast_summary :=
  let st := forecast_loop req in
  mk_summary (break_even_month (fl_val (initial_investment req)) (projections st))
             (round2 (cumulative_revenue st))
             (round2 (cumulative_revenue st - cumulative_costs st)).

(** ** Closed form of a row *)

(** The sum of [f] over months [1..m], accumulated left to right as the
    loop does. *)
Definition sum_months (f : Z -> Q) (m : Z) : Q :=
  fold_left (fun acc j => acc + f j) (py_range 1 (m + 1)) 0.

Definition spec_row (req : FinancialForecastRequest) (m : Z) : projection :=
  let cr := sum_months (revenue_at req) m in
  let cc := sum_months (costs_at req) m in
  mk_projection m (round2 (revenue_at req m)) (round2 (costs_at req m))
    (round2 (revenue_at req m - costs_at req m)) (round2 cr) (round2 (cr - cc)).

(** ** The [OverflowError] of [float ** int] *)

(** CPython computes [x ** k] with the C library's [pow] and raises
    [OverflowError(34, 'Numerical result out of range')] when the result
    is infinite although [x] is finite.  The correctly rounded power is
    infinite exactly when the exact power reaches [2^1024 - 2^970] in
    magnitude, halfway between the largest double and [2^1024]. *)
Definition float_overflow_bound : Q := inject_Z (2 ^ 1024 - 2 ^ 970).

Definition float_pow_overflows (b : Q) (k : Z) : bool :=
  Qle_bool float_overflow_bound (Qabs (b ^ k)).

(** Whether an iteration of the loop raises; in month [m] the revenue's
    power [(1 + growth_rate/100) ** (m-1)] is evaluated before the costs'
    [1.02 ** (m-1)], and either raises the same exception. *)
Definition forecast_loop_raises (req : FinancialForecastRequest) : bool :=
  existsb (fun month => float_pow_overflows (1 + fl_val (growth_rate req) / 100) (month - 1)
                        || float_pow_overflows (102 # 100) (month - 1))
          (forecast_months_range req).

(** ** The handler [generate_financial_forecast] *)

Section Handler.
Local Open Scope string_scope.
Local Open Scope monad_scope.

(** [round(x, 2)] as the JSON float it is. *)
Definition cents_json (c : Z) : json := JNum c 2.

(** A row as the dict the loop appends. *)
Definition projection_json (p : projection) : json :=
  JObj [("month", JInt (p_month p)); ("revenue", cents_json (p_revenue p));
        ("costs", cents_json (p_costs p)); ("profit", cents_json (p_profit p));
        ("cumulative_revenue", cents_json (p_cumulative_revenue p));
        ("cumulative_profit", cents_json (p_cumulative_profit p))].

(** [f"{x:,.2f}"] of a request float. *)
Definition fmt_float_comma_2f (f : pyfloat) : string :=
  fmt_comma_2f (Qltb (fl_val f) 0) (round2 (Qabs (fl_val f))).

Definition forecast_prompt (req : FinancialForecastRequest) (projections : list projection) : string :=
"
        Analyze this financial forecast for " ++ business_name req ++ " in " ++ industry req ++ ":
        
        Initial Investment: ₹" ++ fmt_float_comma_2f (initial_investment req) ++ "
        Starting Monthly Revenue: ₹" ++ fmt_float_comma_2f (monthly_revenue_month1 req) ++ "
        Monthly Costs: ₹" ++ fmt_float_comma_2f (monthly_costs req) ++ "
        Growth Rate: " ++ py_float_str (growth_rate req) ++ "% per month
        Forecast Period: " ++ py_str_int (forecast_months req) ++ " months
        
        Financial Projections (First 12 months):
        " ++ json_dumps_indent2 (JArr (map projection_json (firstn 12 projections))) ++ "
        
        Provide:
        1. Break-even Analysis (when will they break even?)
        2. Cash Flow Analysis
        3. Key Financial Metrics (ROI, Profit Margin, Burn Rate)
        4. Risk Assessment
        5. Recommendations for financial health
        6. Scenario Analysis (Best, Realistic, Worst case)
        
        Be specific with numbers and actionable insights.
        ".

Definition forecast_persona : string :=
  "You are a financial analyst specializing in startup finance and forecasting.".

Definition forecast_request (req : FinancialForecastRequest) : chat_request :=
  chat "gpt-4-turbo-preview" forecast_persona (forecast_prompt req (forecast_projections req)) (1 # 2) 2000.

(** [round(cumulative_revenue, 2)]: the accumulators start as the [int]
    [0] and become floats at the first iteration, so with no month the
    totals are the integer [0]. *)
Definition total_json (iterated : bool) (c : Z) : json := if iterated then cents_json c else JInt c.

Definition summary_json (req : FinancialForecastRequest) : json :=
  let s := forecast_summary_of req in
  let iterated := negb (Nat.eqb (length (forecast_projections req)) 0) in
  JObj [("break_even_month", match break_even s with Some m => JInt m | None => JNull end);
        ("total_revenue_forecast", total_json iterated (total_revenue_forecast s));
        ("total_profit_forecast", total_json iterated (total_profit_forecast s))].

Definition forecast_envelope (req : FinancialForecastRequest) (analysis : option string) : json :=
  JObj [("success", JBool true);
        ("projections", JArr (map projection_json (forecast_projections req)));
        ("analysis", content_json analysis);
        ("summary", summary_json req);
        ("tool", JStr "financial_forecast")].

Definition pow_overflow_error : exn := OverflowError "(34, 'Numerical result out of range')".

(** The pre-call computation of the handler: the loop, which raises when a
    power overflows. *)
Definition forecast_precheck (req : FinancialForecastRequest) : option exn :=
  if forecast_loop_raises req then Some pow_overflow_error else None.

(** The loop runs first inside the [try]; an overflow aborts the handler
    before the prompt is built and before any call. *)
Definition generate_financial_forecast (req : FinancialForecastRequest) : Prog json :=
  catch_500 (
    if forecast_loop_raises req then Raise pow_overflow_error
    else analysis <- complete (forecast_request req) ;;
         ret (forecast_envelope req analysis)).
End Handler.

(** ** The loop computes the closed form *)

Lemma py_range_snoc (n : nat) :
  py_range 1 (Z.of_nat n + 1 + 1) = py_range 1 (Z.of_nat n + 1) ++ [(Z.of_nat n + 1)%Z].
Proof.
  unfold py_range.
  replace (Z.to_nat (Z.of_nat n + 1 + 1 - 1)%Z) with (S n) by lia.
  replace (Z.to_nat (Z.of_nat n + 1 - 1)%Z) with n by lia.
  rewrite seq_S, map_app. cbn [map]. f_equal. f_equal. lia.
Qed.

Lemma py_range_empty (a b : Z) : (b <= a)%Z -> py_range a b = [].
Proof. intros H. unfold py_range. now replace (Z.to_nat (b - a)) with 0%nat by lia. Qed.

Lemma length_py_range (a b : Z) : length (py_range a b) = Z.to_nat (b - a).
Proof. unfold py_range. now rewrite length_map, length_seq. Qed.

Lemma sum_months_succ (f : Z -> Q) (n : nat) :
  sum_months f (Z.of_nat n + 1) = sum_months f (Z.of_nat n) + f (Z.of_nat n + 1)%Z.
Proof. unfold sum_months. now rewrite py_range_snoc, fold_left_app. Qed.

(** The loop invariant: after the months [1..n], the accumulators are the
    sums of the closed forms and the rows are the closed-form rows. *)
Lemma forecast_loop_prefix (req : FinancialForecastRequest) (n : nat) :
  fold_left (forecast_step req) (py_range 1 (Z.of_nat n + 1)) (mk_loop_state 0 0 []) =
  mk_loop_state (sum_months (revenue_at req) (Z.of_nat n)) (sum_months (costs_at req) (Z.of_nat n))
                (map (spec_row req) (py_range 1 (Z.of_nat n + 1))).
Proof.
  induction n as [|n IH]; [reflexivity|].
  rewrite Nat2Z.inj_succ, <- Z.add_1_r.
  rewrite py_range_snoc, fold_left_app, IH, map_app. cbn [fold_left map].
  unfold forecast_step, spec_row. cbn [projections cumulative_revenue cumulative_costs].
  now rewrite !sum_months_succ.
Qed.

Lemma forecast_loop_closed_form (req : FinancialForecastRequest) :
  forecast_loop req =
  mk_loop_state (sum_months (revenue_at req) (Z.max 0 (forecast_months req)))
                (sum_months (costs_at req) (Z.max 0 (forecast_months req)))
                (map (spec_row req) (forecast_months_range req)).
Proof.
  unfold forecast_loop, forecast_months_range.
  destruct (Z.le_gt_cases (forecast_months req) 0) as [Hle|Hgt].
  - rewrite py_range_empty by lia. replace (Z.max 0 (forecast_months req)) with 0%Z by lia.
    reflexivity.
  - replace (forecast_months req) with (Z.of_nat (Z.to_nat (forecast_months req))) by lia.
    rewrite forecast_loop_prefix. now rewrite Z.max_r by lia.
Qed.

(** ** Rounding *)

Lemma Qltb_spec (x y : Q) : Qltb x y = true <-> x < y.
Proof.
  unfold Qltb. rewrite negb_true_iff. split; intros H.
  - apply Qnot_le_lt. intros Hle. apply Qle_bool_iff in Hle. congruence.
  - destruct (Qle_bool y x) eqn:E; [|reflexivity]. apply Qle_bool_iff in E. exfalso; lra.
Qed.

Lemma Qltb_false (x y : Q) : Qltb x y = false <-> y <= x.
Proof.
  unfold Qltb. rewrite negb_false_iff. apply Qle_bool_iff.
Qed.

#[export] Instance Qltb_Proper : Proper (Qeq ==> Qeq ==> eq) Qltb.
Proof. intros x x' Hx y y' Hy. unfold Qltb. now rewrite Hx, Hy. Qed.

(** The two results [round_half_even] can give, with what each implies on
    the fractional part. *)
Lemma round_half_even_cases (x : Q) :
  let f := Qfloor x in
  (round_half_even x = f /\ x - inject_Z f <= 1 # 2 /\
     (x - inject_Z f == 1 # 2 -> Z.even f = true)) \/
  (round_half_even x = (f + 1)%Z /\ 1 # 2 <= x - inject_Z f /\
     (x - inject_Z f == 1 # 2 -> Z.even f = false)).
Proof.
  intros f. unfold round_half_even. fold f.
  destruct (Qltb (x - inject_Z f) (1 # 2)) eqn:E1.
  - apply Qltb_spec in E1. left. split; [reflexivity|]. split; [lra|].
    intros H. exfalso. lra.
  - apply Qltb_false in E1. destruct (Qltb (1 # 2) (x - inject_Z f)) eqn:E2.
    + apply Qltb_spec in E2. right. split; [reflexivity|]. split; [lra|].
      intros H. exfalso. lra.
    + apply Qltb_false in E2. destruct (Z.even f) eqn:Ev.
      * left. split; [reflexivity|]. split; [lra|]. reflexivity.
      * right. split; [reflexivity|]. split; [lra|]. reflexivity.
Qed.

Lemma Qfloor_bounds (x : Q) : inject_Z (Qfloor x) <= x /\ x < inject_Z (Qfloor x) + 1.
Proof.
  split; [apply Qfloor_le|]. pose proof (Qlt_floor x) as H.
  rewrite inject_Z_plus in H. exact H.
Qed.

#[export] Instance round_half_even_Proper : Proper (Qeq ==> eq) round_half_even.
Proof.
  intros x y Hxy. unfold round_half_even. rewrite (Qfloor_comp x y Hxy).
  assert (H1 : x - inject_Z (Qfloor y) == y - inject_Z (Qfloor y)) by (rewrite Hxy; reflexivity).
  rewrite (Qltb_Proper _ _ H1 (1 # 2) (1 # 2) (Qeq_refl _)),
          (Qltb_Proper (1 # 2) (1 # 2) (Qeq_refl _) _ _ H1).
  reflexivity.
Qed.

#[export] Instance round2_Proper : Proper (Qeq ==> eq) round2.
Proof. intros x y Hxy. unfold round2. now rewrite Hxy. Qed.

(** Round half to even is within one half of its argument. *)
Lemma round_half_even_error (x : Q) : Qabs (inject_Z (round_half_even x) - x) <= 1 # 2.
Proof.
  pose proof (Qfloor_bounds x) as [H1 H2].
  destruct (round_half_even_cases x) as [(-> & Hr & _) | (-> & Hr & _)];
    [|rewrite inject_Z_plus; change (inject_Z 1) with 1]; apply Qabs_case; intros; lra.
Qed.

(** Round half to even is monotone. *)
(** A value less than half above an integer rounds down to it. *)
Lemma round_half_even_near (k : Z) (x : Q) :
  inject_Z k <= x -> x < inject_Z k + (1 # 2) -> round_half_even x = k.
Proof.
  intros H1 H2. assert (Hf : Qfloor x = k).
  { apply Z.le_antisymm.
    - pose proof (Qfloor_le x) as H3.
      assert (H4 : inject_Z (Qfloor x) < inject_Z (k + 1)) by (rewrite inject_Z_plus; change (inject_Z 1) with 1; lra).
      rewrite <- Zlt_Qlt in H4. lia.
    - rewrite <- (Qfloor_Z k). now apply Qfloor_resp_le. }
  unfold round_half_even. rewrite Hf.
  assert (H : Qltb (x - inject_Z k) (1 # 2) = true) by (apply Qltb_spec; lra). now rewrite H.
Qed.

Lemma round2_Proper_zero (c : Q) (n : Z) : round2 (0 * c ^ n) = 0%Z.
Proof. rewrite (round2_Proper (0 * c ^ n) 0) by ring. reflexivity. Qed.

Lemma round_half_even_mono (x y : Q) : x <= y -> (round_half_even x <= round_half_even y)%Z.
Proof.
  intros Hxy. pose proof (Qfloor_resp_le x y Hxy) as Hf.
  pose proof (Qfloor_bounds x) as [Hx1 Hx2]. pose proof (Qfloor_bounds y) as [Hy1 Hy2].
  destruct (Z.eq_dec (Qfloor x) (Qfloor y)) as [Heq|Hne].
  - destruct (round_half_even_cases x) as [(-> & Hxr & Hxe) | (-> & Hxr & Hxe)];
      destruct (round_half_even_cases y) as [(-> & Hyr & Hye) | (-> & Hyr & Hye)]; try lia.
    rewrite Heq in Hxr, Hxe.
    assert (Hh : x - inject_Z (Qfloor y) == 1 # 2 /\ y - inject_Z (Qfloor y) == 1 # 2) by (split; lra).
    destruct Hh as [Hx Hy]. specialize (Hxe Hx). specialize (Hye Hy). congruence.
  - destruct (round_half_even_cases x) as [(-> & _ & _) | (-> & _ & _)];
      destruct (round_half_even_cases y) as [(-> & _ & _) | (-> & _ & _)]; lia.
Qed.

Lemma round2_mono (x y : Q) : x <= y -> (round2 x <= round2 y)%Z.
Proof. intros H. apply round_half_even_mono. apply Qmult_le_compat_r; [exact H | discriminate]. Qed.

(** ** Properties of the forecast *)

Lemma in_forecast_months_range (req : FinancialForecastRequest) (m : Z) :
  In m (forecast_months_range req) <-> (1 <= m <= forecast_months req)%Z.
Proof.
  unfold forecast_months_range, py_range. rewrite in_map_iff. split.
  - intros [i [<- Hi]]. apply in_seq in Hi. lia.
  - intros H. exists (Z.to_nat (m - 1)). split; [lia|]. apply in_seq. lia.
Qed.

(** (C3) The loop computes the closed form: the rows are, in order, the
    rows of months [1 .. forecast_months], each depending on its month
    alone (revenue and cost of that month, sums of months [1..m]). *)
Theorem forecast_projections_closed_form (req : FinancialForecastRequest) :
  forecast_projections req = map (spec_row req) (forecast_months_range req).
Proof. unfold forecast_projections. now rewrite forecast_loop_closed_form. Qed.

(** (C10) There is one row per month of the horizon; a horizon of zero or
    less (not rejected by the code) gives no rows, no break-even month and
    zero totals. *)
Theorem forecast_horizon (req : FinancialForecastRequest) :
  length (forecast_projections req) = Z.to_nat (forecast_months req) /\
  ((forecast_months req <= 0)%Z ->
   forecast_projections req = [] /\ forecast_summary_of req = mk_summary None 0 0).
Proof.
  split.
  - unfold forecast_projections. rewrite forecast_loop_closed_form. cbn [projections].
    rewrite length_map. unfold forecast_months_range.
    rewrite length_py_range. f_equal. lia.
  - intros Hle. unfold forecast_summary_of. rewrite !forecast_loop_closed_form.
    unfold forecast_projections. rewrite forecast_loop_closed_form. cbn [projections].
    unfold forecast_months_range. rewrite py_range_empty by lia.
    replace (Z.max 0 (forecast_months req)) with 0%Z by lia. split; reflexivity.
Qed.

Lemma forecast_horizon_witness :
  let req := mk_forecast_request "Acme" "retail" (flt 0) (flt 100) (flt 50) (flt 5) (-3) in
  (forecast_months req <= 0)%Z /\ forecast_summary_of req = mk_summary None 0 0.
Proof.
  intros req. assert (H : (forecast_months req <= 0)%Z) by (simpl; lia).
  split; [exact H|]. exact (proj2 (proj2 (forecast_horizon req) H)).
Defined.

(** ** Monotonicity *)

(** [c * b^n] against [c * b^m] for [n <= m] and [b >= 1]: the sign of
    [c] decides the direction. *)
Lemma scaled_power_mono (c b : Q) (n m : Z) :
  1 <= b -> (n <= m)%Z ->
  (0 <= c -> c * b ^ n <= c * b ^ m) /\ (c <= 0 -> c * b ^ m <= c * b ^ n).
Proof.
  intros Hb Hnm. pose proof (Qpower_le_compat_l b n m Hnm Hb) as Hp.
  split; intros Hc.
  - rewrite !(Qmult_comm c). apply Qmult_le_compat_r; assumption.
  - assert (H : 0 <= - c) by lra.
    assert (H2 : b ^ n * - c <= b ^ m * - c) by (apply Qmult_le_compat_r; assumption).
    lra.
Qed.

Lemma spec_row_revenue (req : FinancialForecastRequest) (m : Z) :
  p_revenue (spec_row req m) = round2 (revenue_at req m).
Proof. reflexivity. Qed.

Lemma spec_row_costs (req : FinancialForecastRequest) (m : Z) :
  p_costs (spec_row req m) = round2 (costs_at req m).
Proof. reflexivity. Qed.

Lemma nth_error_py_range (a b : Z) (i : nat) (x : Z) :
  nth_error (py_range a b) i = Some x -> x = (a + Z.of_nat i)%Z.
Proof.
  unfold py_range. rewrite nth_error_map.
  destruct (nth_error (seq 0 _) i) as [n|] eqn:E; simpl; [|discriminate].
  intros H. injection H as <-. apply nth_error_nth with (d := 0%nat) in E as E'.
  assert (Hi : (i < Z.to_nat (b - a))%nat).
  { rewrite <- (length_seq (Z.to_nat (b - a)) 0). apply nth_error_Some. congruence. }
  rewrite seq_nth in E' by exact Hi. subst. lia.
Qed.

(** A relation that holds between the closed-form rows of any two months
    [1 <= m <= m'] holds between any two rows of the table, earlier row
    first. *)
Lemma forecast_rows_ordered (req : FinancialForecastRequest) (R : Z -> Z -> Prop)
  (g : projection -> Z) :
  (forall m m', (1 <= m <= m')%Z -> R (g (spec_row req m)) (g (spec_row req m'))) ->
  forall (i j : nat) (p q : projection), (i <= j)%nat ->
  nth_error (forecast_projections req) i = Some p ->
  nth_error (forecast_projections req) j = Some q -> R (g p) (g q).
Proof.
  intros HR i j p q Hij Hp Hq. unfold forecast_projections in Hp, Hq.
  rewrite forecast_loop_closed_form in Hp, Hq. cbn [projections] in Hp, Hq.
  rewrite nth_error_map in Hp, Hq.
  destruct (nth_error (forecast_months_range req) i) as [x|] eqn:Ex; [|discriminate].
  destruct (nth_error (forecast_months_range req) j) as [y|] eqn:Ey; [|discriminate].
  injection Hp as <-. injection Hq as <-.
  apply nth_error_py_range in Ex as ->. apply nth_error_py_range in Ey as ->.
  apply HR. lia.
Qed.

(** (C11) Spec section 8: with a non-negative growth rate and first-month
    revenue, the revenue of the rows never decreases from one month to a
    later one. *)
Theorem revenue_nondecreasing (req : FinancialForecastRequest) (i j : nat) (p q : projection) :
  0 <= fl_val (growth_rate req) -> 0 <= fl_val (monthly_revenue_month1 req) -> (i <= j)%nat ->
  nth_error (forecast_projections req) i = Some p ->
  nth_error (forecast_projections req) j = Some q ->
  (p_revenue p <= p_revenue q)%Z.
Proof.
  intros Hg Hr. apply (forecast_rows_ordered req Z.le p_revenue). intros m m' Hm.
  rewrite !spec_row_revenue. apply round2_mono.
  apply (scaled_power_mono _ (1 + fl_val (growth_rate req) / 100) (m - 1) (m' - 1)); [| lia | exact Hr].
  assert (0 <= fl_val (growth_rate req) / 100) by (apply Qle_shift_div_l; [reflexivity | lra]). lra.
Qed.

Lemma revenue_nondecreasing_witness :
  let req := mk_forecast_request "Acme" "retail" (flt 100000) (flt 20000) (flt 15000) (flt 5) 12 in
  nth_error (forecast_projections req) 0 = Some (mk_projection 1 2000000 1500000 500000 2000000 500000) /\
  nth_error (forecast_projections req) 1 = Some (mk_projection 2 2100000 1530000 570000 4100000 1070000) /\
  (p_revenue (mk_projection 1 2000000 1500000 500000 2000000 500000) <=
   p_revenue (mk_projection 2 2100000 1530000 570000 4100000 1070000))%Z.
Proof.
  intros req.
  assert (H0 : nth_error (forecast_projections req) 0 =
               Some (mk_projection 1 2000000 1500000 500000 2000000 500000)) by (vm_compute; reflexivity).
  assert (H1 : nth_error (forecast_projections req) 1 =
               Some (mk_projection 2 2100000 1530000 570000 4100000 1070000)) by (vm_compute; reflexivity).
  split; [exact H0|]. split; [exact H1|].
  apply (revenue_nondecreasing req 0 1); [discriminate | discriminate | lia | exact H0 | exact H1].
Defined.

(** (C13) Spec section 8: with zero growth every row's revenue is the first
    month's revenue. *)
Theorem revenue_constant_at_zero_growth (req : FinancialForecastRequest) :
  fl_val (growth_rate req) == 0 ->
  Forall (fun p => p_revenue p = round2 (fl_val (monthly_revenue_month1 req))) (forecast_projections req).
Proof.
  intros Hg. unfold forecast_projections. rewrite forecast_loop_closed_form. cbn [projections].
  apply Forall_map, Forall_forall.
  intros m _. rewrite spec_row_revenue. apply round2_Proper. unfold revenue_at.
  rewrite Hg. setoid_replace (1 + 0 / 100) with 1 by reflexivity. rewrite Qpower_1. ring.
Qed.

Lemma revenue_constant_at_zero_growth_witness :
  let req := mk_forecast_request "Acme" "retail" (flt 0) (mk_pyfloat 123450 2) (flt 100) (flt 0) 6 in
  fl_val (growth_rate req) == 0 /\
  Forall (fun p => p_revenue p = round2 (fl_val (monthly_revenue_month1 req))) (forecast_projections req).
Proof. split; [reflexivity|]. apply revenue_constant_at_zero_growth. reflexivity. Defined.

(** (C12) Costs inflate by the fixed 2% a month, so the direction of the
    rows' costs is the sign of [monthly_costs]: never decreasing for
    non-negative costs, all zero for zero costs (not increasing, as spec
    section 8 says), never increasing for negative costs, which the request
    accepts. *)
Theorem costs_trend (req : FinancialForecastRequest) (i j : nat) (p q : projection) :
  (i <= j)%nat ->
  nth_error (forecast_projections req) i = Some p ->
  nth_error (forecast_projections req) j = Some q ->
  (0 <= fl_val (monthly_costs req) -> (p_costs p <= p_costs q)%Z) /\
  (fl_val (monthly_costs req) == 0 -> p_costs p = 0%Z /\ p_costs q = 0%Z) /\
  (fl_val (monthly_costs req) <= 0 -> (p_costs q <= p_costs p)%Z).
Proof.
  intros Hij Hp Hq. split; [|split]; intros Hc.
  - apply (forecast_rows_ordered req Z.le p_costs) with i j; auto.
    intros m m' Hm. rewrite !spec_row_costs. apply round2_mono.
    apply (scaled_power_mono _ (102 # 100) (m - 1) (m' - 1)); [discriminate | lia | exact Hc].
  - apply (forecast_rows_ordered req (fun x y => x = 0 /\ y = 0)%Z p_costs) with i j; auto.
    intros m m' _. rewrite !spec_row_costs. unfold costs_at. rewrite Hc.
    split; apply round2_Proper_zero.
  - apply (forecast_rows_ordered req (fun x y => y <= x)%Z p_costs) with i j; auto.
    intros m m' Hm. rewrite !spec_row_costs. apply round2_mono.
    apply (scaled_power_mono _ (102 # 100) (m - 1) (m' - 1)); [discriminate | lia | exact Hc].
Qed.

Lemma costs_trend_witness :
  let req := mk_forecast_request "Acme" "retail" (flt 0) (flt 100) (flt (-50)) (flt 0) 3 in
  nth_error (forecast_projections req) 0 = Some (mk_projection 1 10000 (-5000) 15000 10000 15000) /\
  nth_error (forecast_projections req) 1 = Some (mk_projection 2 10000 (-5100) 15100 20000 30100) /\
  (p_costs (mk_projection 2 10000 (-5100) 15100 20000 30100) <=
   p_costs (mk_projection 1 10000 (-5000) 15000 10000 15000))%Z.
Proof.
  intros req.
  assert (H0 : nth_error (forecast_projections req) 0 =
               Some (mk_projection 1 10000 (-5000) 15000 10000 15000)) by (vm_compute; reflexivity).
  assert (H1 : nth_error (forecast_projections req) 1 =
               Some (mk_projection 2 10000 (-5100) 15100 20000 30100)) by (vm_compute; reflexivity).
  split; [exact H0|]. split; [exact H1|].
  apply (proj2 (proj2 (costs_trend req 0 1 _ _ ltac:(lia) H0 H1))). discriminate.
Defined.

(** ** The break-even month *)

Lemma py_range_cons (a : Z) (n : nat) :
  py_range a (a + Z.of_nat (S n)) = a :: py_range (a + 1) (a + 1 + Z.of_nat n).
Proof.
  unfold py_range.
  replace (Z.to_nat (a + Z.of_nat (S n) - a)) with (S n) by lia.
  replace (Z.to_nat (a + 1 + Z.of_nat n - (a + 1))) with n by lia.
  cbn [seq map]. f_equal; [lia|]. rewrite <- seq_shift, map_map.
  apply map_ext. intros i. lia.
Qed.

(** [find] over [range(a, a+n)] returns the first point where the test
    holds. *)
Lemma find_py_range (P : Z -> bool) (n : nat) (a m : Z) :
  find P (py_range a (a + Z.of_nat n)) = Some m <->
  ((a <= m < a + Z.of_nat n)%Z /\ P m = true /\ forall k, (a <= k < m)%Z -> P k = false).
Proof.
  revert a. induction n as [|n IH]; intros a.
  - rewrite py_range_empty by lia. simpl. split; [discriminate | lia].
  - rewrite py_range_cons. simpl. destruct (P a) eqn:Ha.
    + split.
      * intros H. injection H as <-. split; [lia|]. split; [exact Ha | intros; lia].
      * intros (Hm & Hp & Hk). destruct (Z.eq_dec a m) as [->|Hne]; [reflexivity|].
        rewrite Hk in Ha by lia. discriminate.
    + rewrite IH. split.
      * intros (Hm & Hp & Hk). split; [lia|]. split; [exact Hp|].
        intros k Hk'. destruct (Z.eq_dec k a) as [->|]; [exact Ha | apply Hk; lia].
      * intros (Hm & Hp & Hk). destruct (Z.eq_dec a m) as [->|Hne]; [congruence|].
        split; [lia|]. split; [exact Hp|]. intros k Hk'. apply Hk. lia.
Qed.

Lemma break_even_month_map (inv : Q) (req : FinancialForecastRequest) (ms : list Z) :
  break_even_month inv (map (spec_row req) ms) =
  find (fun m => exceeds_investment inv (spec_row req m)) ms.
Proof.
  unfold break_even_month. induction ms as [|m ms IH]; [reflexivity|].
  simpl. destruct (exceeds_investment inv (spec_row req m)); [reflexivity | exact IH].
Qed.

Lemma break_even_find (req : FinancialForecastRequest) :
  break_even (forecast_summary_of req) =
  find (fun m => exceeds_investment (fl_val (initial_investment req)) (spec_row req m))
       (forecast_months_range req).
Proof.
  unfold forecast_summary_of. rewrite forecast_loop_closed_form.
  cbn [break_even projections]. apply break_even_month_map.
Qed.

(** (C4) Spec section 4.1: the break-even month is the first month of the
    horizon whose (rounded) cumulative profit exceeds the initial
    investment; there is none exactly when no month of the horizon
    does. *)
Theorem break_even_first_month (req : FinancialForecastRequest) (m : Z) :
  let exceeds k := exceeds_investment (fl_val (initial_investment req)) (spec_row req k) in
  (break_even (forecast_summary_of req) = Some m <->
   (1 <= m <= forecast_months req)%Z /\ exceeds m = true /\
   forall k, (1 <= k < m)%Z -> exceeds k = false) /\
  (break_even (forecast_summary_of req) = None <->
   forall k, (1 <= k <= forecast_months req)%Z -> exceeds k = false).
Proof.
  intros exceeds. rewrite break_even_find. unfold forecast_months_range.
  destruct (Z.le_gt_cases (forecast_months req) 0) as [Hle|Hgt].
  - rewrite py_range_empty by lia. simpl. split; split; intros; try discriminate; try lia; reflexivity.
  - replace (forecast_months req + 1)%Z with (1 + Z.of_nat (Z.to_nat (forecast_months req)))%Z by lia.
    split.
    + rewrite find_py_range. split; intros (H1 & H2 & H3); (split; [lia|]); split; assumption.
    + split.
      * intros Hn k Hk. destruct (exceeds k) eqn:Ek; [|reflexivity]. exfalso.
        destruct (find (fun m0 => exceeds_investment (fl_val (initial_investment req)) (spec_row req m0))
                   (py_range 1 (1 + Z.of_nat (Z.to_nat (forecast_months req))))) as [j|] eqn:Ej;
          [discriminate|]. apply find_none with (x := k) in Ej; [unfold exceeds in Ek; congruence|].
        unfold py_range. apply in_map_iff. exists (Z.to_nat (k - 1)). split; [lia|]. apply in_seq. lia.
      * intros Hall. destruct (find _ _) as [j|] eqn:Ej; [|reflexivity]. exfalso.
        apply find_py_range in Ej as (Hj & Hp & _). specialize (Hall j ltac:(lia)).
        unfold exceeds in Hall. congruence.
Qed.

(** [round(x, 2)] is within half a cent of [x]. *)
Theorem round2_error (x : Q) : Qabs (cents_to_Q (round2 x) - x) <= 1 # 200.
Proof.
  pose proof (round_half_even_error (x * 100)) as H. unfold cents_to_Q, round2.
  set (r := inject_Z (round_half_even (x * 100))) in *.
  setoid_replace (r / 100 - x) with ((r - x * 100) * (1 # 100)) by (field; discriminate).
  rewrite Qabs_Qmult. change (Qabs (1 # 100)) with (1 # 100).
  setoid_replace (1 # 200) with ((1 # 2) * (1 # 100)) by reflexivity.
  apply Qmult_le_compat_r; [exact H | discriminate].
Qed.

(** (C8) The break-even test reads the rounded cumulative profit, not the
    exact one: when the investment is a whole number of cents, a month
    whose exact cumulative profit exceeds it by less than half a cent is
    never the break-even month, although the spec asks for the first month
    whose cumulative profit exceeds the investment. *)
Theorem break_even_ignores_sub_cent_profit (req : FinancialForecastRequest) (m k : Z) :
  fl_val (initial_investment req) == inject_Z k / 100 ->
  fl_val (initial_investment req) < sum_months (revenue_at req) m - sum_months (costs_at req) m ->
  sum_months (revenue_at req) m - sum_months (costs_at req) m < fl_val (initial_investment req) + (1 # 200) ->
  break_even (forecast_summary_of req) <> Some m.
Proof.
  intros Hk Hlo Hhi Hb. rewrite break_even_find in Hb. apply find_some in Hb as [_ Hx].
  unfold exceeds_investment, spec_row, round2 in Hx. cbn [p_cumulative_profit] in Hx.
  apply Qltb_spec in Hx. unfold cents_to_Q in Hx.
  rewrite (round_half_even_near k) in Hx; unfold Qdiv in *; change (/ 100) with (1 # 100) in *; lra.
Qed.

Lemma break_even_ignores_sub_cent_profit_witness :
  let req := mk_forecast_request "Acme" "retail" (flt 0) (mk_pyfloat 4 3) (flt 0) (flt 0) 1 in
  fl_val (initial_investment req) == inject_Z 0 / 100 /\
  fl_val (initial_investment req) < sum_months (revenue_at req) 1 - sum_months (costs_at req) 1 /\
  sum_months (revenue_at req) 1 - sum_months (costs_at req) 1 < fl_val (initial_investment req) + (1 # 200) /\
  break_even (forecast_summary_of req) <> Some 1%Z.
Proof.
  intros req.
  assert (H0 : fl_val (initial_investment req) == inject_Z 0 / 100) by reflexivity.
  assert (H1 : fl_val (initial_investment req) < sum_months (revenue_at req) 1 - sum_months (costs_at req) 1)
    by (vm_compute; reflexivity).
  assert (H2 : sum_months (revenue_at req) 1 - sum_months (costs_at req) 1 <
               fl_val (initial_investment req) + (1 # 200)) by (vm_compute; reflexivity).
  split; [exact H0|]. split; [exact H1|]. split; [exact H2|].
  exact (break_even_ignores_sub_cent_profit req 1 0 H0 H1 H2).
Defined.

(** The loop raises on a real request: with 100% growth the revenue's
    power [2.0 ** 1024] of month 1025 overflows, so a horizon of 1100
    months fails. *)
Lemma forecast_loop_raises_example :
  forecast_loop_raises (mk_forecast_request "Acme" "retail" (flt 0) (flt 100) (flt 50) (flt 100) 1100) = true.
Proof.
  apply existsb_exists. exists 1025%Z. split.
  - apply in_forecast_months_range. simpl. lia.
  - vm_compute. reflexivity.
Qed.

(** ** Properties of the handler *)

Local Open Scope string_scope.
Local Open Scope monad_scope.

(** (C23) The handler first runs the projection loop: when a power
    [float ** int] of the loop overflows (e.g. 100% growth over 1100
    months, or any horizon past about 35,800 months through [1.02 **
    (month-1)]), it answers 500 with the [OverflowError]'s message and
    sends no request.  Otherwise it sends one request, whose prompt embeds
    the first twelve rows, and returns the rows, the analysis ([None] as
    [null]) and the summary; a failing call is status 500. *)
Theorem generate_financial_forecast_run (o : oracle) (req : FinancialForecastRequest) :
  run o (generate_financial_forecast req) =
  if forecast_loop_raises req then
    (Raised (HTTPException 500 "(34, 'Numerical result out of range')"), [])
  else
    (match o 0%nat (forecast_request req) with
     | Answer c => Done (forecast_envelope req c)
     | Fail e => Raised (HTTPException 500 (py_str_exn e))
     end, [forecast_request req]).
Proof.
  unfold run, generate_financial_forecast, catch_500, catch_500_with.
  destruct (forecast_loop_raises req); [reflexivity|]. simpl.
  now destruct (o 0%nat (forecast_request req)).
Qed.

(** (C24) Spec section 8: the prompt names the business and industry, shows
    the growth rate and horizon, and embeds the JSON of the first twelve
    projection rows. *)
Theorem forecast_prompt_contains_fields (req : FinancialForecastRequest) (f : string) :
  In f [business_name req; industry req; py_float_str (growth_rate req);
        py_str_int (forecast_months req);
        json_dumps_indent2 (JArr (map projection_json (firstn 12 (forecast_projections req))))] ->
  py_contains f (forecast_prompt req (forecast_projections req)) = true.
Proof.
  unfold forecast_prompt. intros [<-|[<-|[<-|[<-|[<-|[]]]]]]; solve_contains.
Qed.

Lemma forecast_prompt_contains_fields_witness :
  let req := mk_forecast_request "Acme" "retail" (flt 100000) (flt 20000) (flt 15000) (flt 5) 12 in
  py_contains "retail" (forecast_prompt req (forecast_projections req)) = true.
Proof. intros req. apply forecast_prompt_contains_fields. simpl. tauto. Defined.
