(* ===== verification/Chatbot.v ===== *)
(** * Chatbot: [src/app/ai_tools/chatbot_builder.py]

    [create_chatbot_config] renders a system prompt from the
    configuration, then, for each of the first five common questions in
    order, awaits one completion call and stores the answer in the dict
    [sample_responses] under the question ([sample_loop]); the calls are
    sequential and the first failing one aborts the handler.  A Python
    dict keeps insertion order and overwrites the value of a key already
    present in place: [dict_setitem] on an association list.
    [chatbot_respond] answers one message with a generic persona.

    The theorems bound the number of calls by five, give the exact trace
    (a prefix of the per-question requests that stops at the first
    failure), show the dict's keys are the distinct questions with the last
    answer winning, and that [chatbot_respond] ignores the configuration id
    and stamps a constant timestamp. *)

From S2P Require Import Prelude PyStr PyJson Completion.
From ExtLib Require Import Structures.Monad.
Import MonadNotation.
Local Open Scope string_scope.
Local Open Scope py_scope.
Local Open Scope monad_scope.

(** ** Data *)

(** [class ChatbotConfig(BaseModel)]. *)
Record ChatbotConfig : Type := mk_chatbot_config {
  bot_name : string;
  business_name : string;
  business_description : string;
  common_questions : list string;
  tone : string;
  language : string
}.

(** [class ChatMessage(BaseModel)]. *)
Record ChatMessage : Type := mk_chat_message {
  message : string;
  bot_config_id : Z
}.

(** ** Python dicts with insertion order *)

(** [d[k] = v]: a present key keeps its position and takes the new value;
    a new key goes last. *)
Fixpoint dict_setitem {V} (k : string) (v : V) (d : list (string * V)) : list (string * V) :=
  match d with
  | [] => [(k, v)]
  | (k', v') :: d' => if String.eqb k' k then (k, v) :: d' else (k', v') :: dict_setitem k v d'
  end.

(** [d[k]] / [d.get(k)] on such a dict. *)
Fixpoint dict_lookup {V} (k : string) (d : list (string * V)) : option V :=
  match d with
  | [] => None
  | (k', v') :: d' => if String.eqb k' k then Some v' else dict_lookup k d'
  end.

(** ** [create_chatbot_config] *)

Definition dq : string := String dquote EmptyString.

Definition chatbot_system_prompt (cfg : ChatbotConfig) : string :=
"
        You are " ++ bot_name cfg ++ ", an AI assistant for " ++ business_name cfg ++ ".
        
        Business Description: " ++ business_description cfg ++ "
        
        Your role:
        - Answer customer questions about " ++ business_name cfg ++ "
        - Be " ++ tone cfg ++ " in your responses
        - Communicate in " ++ language cfg ++ "
        - Provide helpful, accurate information
        - If you don't know something, say so and offer to connect them with a human
        
        Common Questions You Should Know:
        " ++ json_dumps_indent2 (JArr (map JStr (common_questions cfg))) ++ "
        
        Always be polite, helpful, and represent " ++ business_name cfg ++ " professionally.
        ".

Definition sample_prompt (cfg : ChatbotConfig) (question : string) : string :=
  "As " ++ bot_name cfg ++ " for " ++ business_name cfg ++ ", answer this question in a "
  ++ tone cfg ++ " tone: " ++ question.

Definition sample_request (cfg : ChatbotConfig) (question : string) : chat_request :=
  chat "gpt-3.5-turbo" (chatbot_system_prompt cfg) (sample_prompt cfg question) (7 # 10) 200.

(** [for question in request.common_questions[:5]: ...
    sample_responses[question] = response.choices[0].message.content]. *)
Fixpoint sample_loop (cfg : ChatbotConfig) (qs : list string) (acc : list (string * option string))
  : Prog (list (string * option string)) :=
  match qs with
  | [] => ret acc
  | q :: qs' =>
      content <- complete (sample_request cfg q) ;;
      sample_loop cfg qs' (dict_setitem q content acc)
  end.

Definition embedding_code (cfg : ChatbotConfig) : string :=
"
            <!-- Add this to your website -->
            <script>
              window.sphereAIChatbot = {
                botName: " ++ dq ++ bot_name cfg ++ dq ++ ",
                businessName: " ++ dq ++ business_name cfg ++ dq ++ ",
                configId: " ++ dq ++ "your-config-id-here" ++ dq ++ "
              };
            </script>
            <script src=" ++ dq ++ "https://cdn.sphere-ai.com/chatbot.js" ++ dq ++ "></script>
            ".

Definition chatbot_envelope (cfg : ChatbotConfig) (samples : list (string * option string)) : json :=
  JObj [("success", JBool true);
        ("bot_config", JObj [("bot_name", JStr (bot_name cfg));
                             ("system_prompt", JStr (chatbot_system_prompt cfg));
                             ("sample_responses",
                              JObj (map (fun qc => (fst qc, content_json (snd qc))) samples))]);
        ("embedding_code", JStr (embedding_code cfg));
        ("tool", JStr "chatbot_builder")].

Definition create_chatbot_config (cfg : ChatbotConfig) : Prog json :=
  catch_500 (
    samples <- sample_loop cfg (firstn 5 (common_questions cfg)) [] ;;
    ret (chatbot_envelope cfg samples)).

(** ** [chatbot_respond] *)

Definition respond_request (m : ChatMessage) : chat_request :=
  chat "gpt-3.5-turbo" "You are a helpful business assistant. Be friendly and professional."
       (message m) (7 # 10) 300.

Definition chatbot_respond (m : ChatMessage) : Prog json :=
  catch_500 (
    content <- complete (respond_request m) ;;
    ret (JObj [("success", JBool true); ("response", content_json content);
               ("timestamp", JStr "2025-10-17T11:16:00Z")])).

(** ** Service behaviours used by the statements *)

(** The service numbers its answers, so a repeated question shows which
    call won. *)
Definition numbered_oracle : oracle := fun n _ => Answer (Some (py_str_int (Z.of_nat n))).

(** A request the oracle answers. *)
Definition answered (o : oracle) (n : nat) (r : chat_request) : Prop := exists c, o n r = Answer c.

(** ** Lemmas on insertion-ordered dicts *)

Section Dict.
Context {V : Type}.

Lemma dict_setitem_keys_in (k : string) (v : V) (d : list (string * V)) (q : string) :
  In q (map fst (dict_setitem k v d)) <-> In q (map fst d) \/ q = k.
Proof.
  induction d as [|[k' v'] d IH]; simpl; [intuition (subst; auto)|].
  destruct (String.eqb_spec k' k) as [->|Hne]; simpl; [intuition (subst; auto)|].
  rewrite IH. intuition (subst; auto).
Qed.

Lemma dict_setitem_nodup (k : string) (v : V) (d : list (string * V)) :
  NoDup (map fst d) -> NoDup (map fst (dict_setitem k v d)).
Proof.
  induction d as [|[k' v'] d IH]; simpl; intros Hd; [repeat constructor; auto|].
  inversion Hd as [|? ? Hnin Hd']; subst.
  destruct (String.eqb_spec k' k) as [->|Hne]; simpl; constructor; auto.
  rewrite dict_setitem_keys_in. intros [H|H]; [contradiction | congruence].
Qed.

Lemma dict_lookup_setitem (k : string) (v : V) (d : list (string * V)) (q : string) :
  dict_lookup q (dict_setitem k v d) = if String.eqb k q then Some v else dict_lookup q d.
Proof.
  induction d as [|[k' v'] d IH]; simpl; [reflexivity|].
  destruct (String.eqb_spec k' k) as [->|Hne]; simpl; [now destruct (String.eqb k q)|].
  rewrite IH. destruct (String.eqb_spec k' q) as [->|]; [|reflexivity].
  destruct (String.eqb_spec k q); [congruence | reflexivity].
Qed.
End Dict.

(** ** The sample loop *)

Section SampleLoop.
Context (o : oracle) (cfg : ChatbotConfig).

Lemma run_sample_loop_cons (n : nat) (q : string) (qs : list string) (acc : list (string * option string)) :
  run_from o n (sample_loop cfg (q :: qs) acc) =
  match o n (sample_request cfg q) with
  | Answer c => let '(r, tr) := run_from o (S n) (sample_loop cfg qs (dict_setitem q c acc)) in
                (r, sample_request cfg q :: tr)
  | Fail e => (Raised e, [sample_request cfg q])
  end.
Proof. simpl. now destruct (o n (sample_request cfg q)). Qed.

(** The loop sends at most one request per question, in order: its trace
    is a prefix of the per-question requests. *)
Lemma sample_loop_trace_prefix (qs : list string) (n : nat) (acc : list (string * option string)) :
  let tr := snd (run_from o n (sample_loop cfg qs acc)) in
  tr = firstn (length tr) (map (sample_request cfg) qs).
Proof.
  revert n acc. induction qs as [|q qs IH]; intros n acc; [reflexivity|].
  rewrite run_sample_loop_cons. destruct (o n (sample_request cfg q)) as [c|e]; [|reflexivity].
  specialize (IH (S n) (dict_setitem q c acc)).
  destruct (run_from o (S n) (sample_loop cfg qs (dict_setitem q c acc))) as [r tr].
  simpl in *. now rewrite IH at 1.
Qed.

Lemma sample_loop_trace_length (qs : list string) (n : nat) (acc : list (string * option string)) :
  (length (snd (run_from o n (sample_loop cfg qs acc))) <= length qs)%nat.
Proof.
  revert n acc. induction qs as [|q qs IH]; intros n acc; simpl; [lia|].
  destruct (o n (sample_request cfg q)) as [c|e]; simpl; [|lia].
  specialize (IH (S n) (dict_setitem q c acc)).
  destruct (run_from o (S n) (sample_loop cfg qs (dict_setitem q c acc))). simpl in *. lia.
Qed.

(** Abort at the first failure: the loop returns only when every call was
    answered; it raises the error of its last call, which is the first
    failing one, and sends nothing after it. *)
Lemma sample_loop_outcome (qs : list string) (n : nat) (acc : list (string * option string)) :
  let reqs := map (sample_request cfg) qs in
  let res := run_from o n (sample_loop cfg qs acc) in
  match fst res with
  | Done _ => length (snd res) = length qs /\
              forall i r, nth_error reqs i = Some r -> answered o (n + i)%nat r
  | Raised e => exists k r, length (snd res) = S k /\ nth_error reqs k = Some r /\
                o (n + k)%nat r = Fail e /\
                forall i r', (i < k)%nat -> nth_error reqs i = Some r' -> answered o (n + i)%nat r'
  end.
Proof.
  revert n acc. induction qs as [|q qs IH]; intros n acc.
  - split; [reflexivity|]. intros [|i] r H; discriminate.
  - cbv zeta. rewrite run_sample_loop_cons. destruct (o n (sample_request cfg q)) as [c|e] eqn:Ho.
    + specialize (IH (S n) (dict_setitem q c acc)).
      destruct (run_from o (S n) (sample_loop cfg qs (dict_setitem q c acc))) as [[d|e] tr].
      * simpl in *. destruct IH as [Hl Hall]. split; [lia|].
        intros [|i] r Hr; simpl in Hr.
        -- injection Hr as <-. rewrite Nat.add_0_r. unfold answered. now exists c.
        -- replace (n + S i)%nat with (S n + i)%nat by lia. now apply Hall.
      * simpl in *. destruct IH as (k & r & Hl & Hr & Hf & Hall).
        exists (S k), r. split; [lia|]. split; [exact Hr|].
        split; [now replace (n + S k)%nat with (S n + k)%nat by lia|].
        intros [|i] r' Hi Hr'; simpl in Hr'.
        -- injection Hr' as <-. rewrite Nat.add_0_r. unfold answered. now exists c.
        -- replace (n + S i)%nat with (S n + i)%nat by lia. apply Hall; [lia | exact Hr'].
    + exists 0%nat, (sample_request cfg q). simpl. rewrite Nat.add_0_r.
      repeat split; [exact Ho|]. intros i r' Hi. lia.
Qed.
End SampleLoop.

Section SampleDict.
Context (o : oracle) (cfg : ChatbotConfig).

(** What the loop leaves in the dict when it returns: keys without
    repetition, the keys already there and the questions asked, and for
    each key the answer of the last call that asked it (or its old value
    when no question asked it). *)
Lemma sample_loop_dict (qs : list string) (n : nat) (acc d : list (string * option string)) :
  NoDup (map fst acc) ->
  fst (run_from o n (sample_loop cfg qs acc)) = Done d ->
  NoDup (map fst d) /\
  (forall q, In q (map fst d) <-> In q (map fst acc) \/ In q qs) /\
  (forall q c, dict_lookup q d = Some c ->
     (exists i, (i < length qs)%nat /\ nth i qs EmptyString = q /\
                o (n + i)%nat (sample_request cfg q) = Answer c /\
                forall j, (i < j < length qs)%nat -> nth j qs EmptyString <> q) \/
     (dict_lookup q acc = Some c /\ ~ In q qs)).
Proof.
  revert n acc. induction qs as [|q qs IH]; intros n acc Hnd Hrun.
  - injection Hrun as <-. split; [exact Hnd|]. split; [intros q; simpl; tauto|].
    intros q c Hc. right. now split.
  - rewrite run_sample_loop_cons in Hrun.
    destruct (o n (sample_request cfg q)) as [c0|e] eqn:Ho; [|discriminate].
    destruct (run_from o (S n) (sample_loop cfg qs (dict_setitem q c0 acc))) as [r tr] eqn:Er.
    simpl in Hrun. subst r.
    destruct (IH (S n) (dict_setitem q c0 acc) (dict_setitem_nodup q c0 acc Hnd))
      as (Hd & Hkeys & Hvals); [now rewrite Er|].
    split; [exact Hd|]. split.
    { intros q'. rewrite Hkeys, dict_setitem_keys_in. simpl. intuition (subst; auto). }
    intros q' c Hc. destruct (Hvals q' c Hc) as [(i & Hi & Hq & Hoc & Hlast)|(Hacc & Hnin)].
    + left. exists (S i). split; [simpl; lia|]. split; [exact Hq|].
      split; [now replace (n + S i)%nat with (S n + i)%nat by lia|].
      intros [|j] Hj; [lia|]. apply Hlast. simpl in Hj. lia.
    + rewrite dict_lookup_setitem in Hacc. destruct (String.eqb_spec q q') as [<-|Hne].
      * injection Hacc as <-. left. exists 0%nat. split; [simpl; lia|]. split; [reflexivity|].
        rewrite Nat.add_0_r. split; [exact Ho|].
        intros [|j] Hj; [lia|]. simpl. intros Hin. apply Hnin. rewrite <- Hin. apply nth_In. simpl in Hj. lia.
      * right. split; [exact Hacc|]. simpl. intuition.
Qed.
End SampleDict.

(** ** Properties of the handlers *)

Lemma run_create_chatbot_config (o : oracle) (cfg : ChatbotConfig) :
  run o (create_chatbot_config cfg) =
  match run_from o 0 (sample_loop cfg (firstn 5 (common_questions cfg)) []) with
  | (Done d, tr) => (Done (chatbot_envelope cfg d), tr)
  | (Raised e, tr) => (Raised (HTTPException 500 (py_str_exn e)), tr)
  end.
Proof.
  unfold run, create_chatbot_config, catch_500, catch_500_with.
  rewrite run_from_catch. cbn [bind Monad_Prog]. rewrite run_from_bind.
  destruct (run_from o 0 (sample_loop cfg (firstn 5 (common_questions cfg)) [])) as [[d|e] tr];
    simpl; now rewrite app_nil_r.
Qed.

(** (C6) Spec section 4.1: the configuration handler issues at most five
    completion calls, one per question among the first five, in order;
    it returns only if every call was answered, and the first failing
    call aborts it with status 500 carrying that call's error, no request
    being sent after it. *)
Theorem create_chatbot_config_calls (o : oracle) (cfg : ChatbotConfig) :
  let reqs := map (sample_request cfg) (firstn 5 (common_questions cfg)) in
  let res := run o (create_chatbot_config cfg) in
  snd res = firstn (length (snd res)) reqs /\
  (length (snd res) <= Nat.min 5 (length (common_questions cfg)))%nat /\
  match fst res with
  | Done _ => snd res = reqs /\ forall i r, nth_error reqs i = Some r -> answered o i r
  | Raised e => exists k r e', snd res = firstn (S k) reqs /\ nth_error reqs k = Some r /\
                o k r = Fail e' /\ e = HTTPException 500 (py_str_exn e') /\
                forall i r', (i < k)%nat -> nth_error reqs i = Some r' -> answered o i r'
  end.
Proof.
  intros reqs res. unfold res. rewrite run_create_chatbot_config.
  pose proof (sample_loop_trace_prefix o cfg (firstn 5 (common_questions cfg)) 0 []) as Hpre.
  pose proof (sample_loop_trace_length o cfg (firstn 5 (common_questions cfg)) 0 []) as Hlen.
  pose proof (sample_loop_outcome o cfg (firstn 5 (common_questions cfg)) 0 []) as Hout.
  rewrite length_firstn in Hlen. fold reqs in Hpre, Hout.
  destruct (run_from o 0 (sample_loop cfg (firstn 5 (common_questions cfg)) [])) as [[d|e] tr].
  all: simpl in *; split; [exact Hpre | split; [exact Hlen|]].
  - destruct Hout as [Hl Hall]. split; [|exact Hall].
    rewrite Hpre, Hl. unfold reqs. rewrite <- (length_map (sample_request cfg)). apply firstn_all.
  - destruct Hout as (k & r & Hl & Hr & Hf & Hall). exists k, r, e.
    split; [now rewrite Hpre, Hl|]. split; [exact Hr|]. split; [exact Hf|]. split; [reflexivity|].
    exact Hall.
Qed.

(** (C7) The sample dict built by the loop over the first five questions
    has each distinct question once, and its value is the answer to the
    last call that asked it: a repeated question costs a call whose
    earlier answer is overwritten. *)
Theorem sample_responses_last_answer_wins (o : oracle) (cfg : ChatbotConfig)
    (d : list (string * option string)) :
  let qs := firstn 5 (common_questions cfg) in
  fst (run_from o 0 (sample_loop cfg qs [])) = Done d ->
  NoDup (map fst d) /\ (forall q, In q (map fst d) <-> In q qs) /\
  (forall q c, dict_lookup q d = Some c ->
     exists i, (i < length qs)%nat /\ nth i qs EmptyString = q /\
               o i (sample_request cfg q) = Answer c /\
               forall j, (i < j < length qs)%nat -> nth j qs EmptyString <> q).
Proof.
  intros qs Hrun.
  destruct (sample_loop_dict o cfg qs 0 [] d (NoDup_nil _) Hrun) as (Hnd & Hkeys & Hvals).
  split; [exact Hnd|]. split; [intros q; rewrite Hkeys; simpl; tauto|].
  intros q c Hc. destruct (Hvals q c Hc) as [H|[H _]]; [exact H | discriminate].
Qed.

Lemma sample_responses_last_answer_wins_witness :
  let cfg := mk_chatbot_config "Bo" "Biz" "Desc" ["Hours?"; "Hours?"; "Price?"] "friendly" "english" in
  fst (run_from numbered_oracle 0 (sample_loop cfg (firstn 5 (common_questions cfg)) [])) =
    Done [("Hours?", Some "1"); ("Price?", Some "2")] /\
  NoDup (map fst [("Hours?", Some "1"); ("Price?", Some "2")]).
Proof.
  intros cfg. assert (H : fst (run_from numbered_oracle 0 (sample_loop cfg (firstn 5 (common_questions cfg)) [])) =
    Done [("Hours?", Some "1"); ("Price?", Some "2")]) by reflexivity.
  split; [exact H|]. exact (proj1 (sample_responses_last_answer_wins numbered_oracle cfg _ H)).
Defined.

(** (C17) [chatbot_respond] sends the user's message with a fixed generic
    persona: the configuration id is never read (no configured bot is
    used), and the envelope carries a constant timestamp. *)
Theorem chatbot_respond_run (o : oracle) (m : ChatMessage) :
  run o (chatbot_respond m) =
  (match o 0%nat (respond_request m) with
   | Answer c => Done (JObj [("success", JBool true); ("response", content_json c);
                             ("timestamp", JStr "2025-10-17T11:16:00Z")])
   | Fail e => Raised (HTTPException 500 (py_str_exn e))
   end, [respond_request m]) /\
  forall id, run o (chatbot_respond (mk_chat_message (message m) id)) = run o (chatbot_respond m).
Proof.
  split; [unfold run; simpl; now destruct (o 0%nat (respond_request m))|].
  intros id. reflexivity.
Qed.
