(* ===== verification/Generators.v ===== *)
(** * Generators: the single-call document generators

    Four handlers of [src/app/ai_tools] that render their request into a
    prompt, make one completion call and wrap the text in an envelope:
    - [BusinessPlan]: [business_plan.py], [generate_business_plan]; the
      envelope counts the words of the plan ([len(business_plan.split())]),
      and its [except] prefixes the detail with
      ["Error generating business plan: "];
    - [MarketResearch]: [market_research.py], [conduct_market_research];
    - [PitchDeck]: [pitch_deck.py], [generate_pitch_deck], with the constant
      [slide_count] 10;
    - [ContentGenerator]: [content_generator.py], [generate_content]: the
      requested length is looked up in [word_counts] with a default, and a
      block of directives is appended for four of the content types.
    Each Module holds the request record, the prompt, the request sent, the
    handler as the code writes it, its [tool] (the parameterization of the
    invoker of [Invoker]) and the theorems: the handler refines [invoke]
    of its tool, and its prompt carries the request's fields. *)

From S2P Require Import Prelude PyStr PyJson Completion Invoker.
From ExtLib Require Import Structures.Monad.
Import MonadNotation.
Local Open Scope string_scope.
Local Open Scope monad_scope.

(** [len(text.split())] in an envelope, and the [AttributeError] it
    raises on a [None] content. *)
Definition word_count_json (text : string) : json := JInt (Z.of_nat (py_word_count text)).

Definition none_split_error : exn := AttributeError "'NoneType' object has no attribute 'split'".

Module BusinessPlan.

(** [class BusinessPlanRequest(BaseModel)]. *)
Record BusinessPlanRequest : Type := mk_business_plan_request {
  business_name : string;
  industry : string;
  description : string;
  target_market : string;
  revenue_model : string;
  funding_needed : option string
}.

Definition business_plan_prompt (r : BusinessPlanRequest) : string :=
"
        Create a comprehensive business plan for:
        
        Business Name: " ++ business_name r ++ "
        Industry: " ++ industry r ++ "
        Description: " ++ description r ++ "
        Target Market: " ++ target_market r ++ "
        Revenue Model: " ++ revenue_model r ++ "
        Funding Needed: " ++ py_or (funding_needed r) "Not specified" ++ "
        
        Generate a detailed business plan with the following sections:
        
        1. EXECUTIVE SUMMARY (2-3 paragraphs)
        2. COMPANY DESCRIPTION (detailed overview)
        3. MARKET ANALYSIS
           - Target Market Size
           - Customer Demographics
           - Market Trends
           - Competitive Landscape
        4. ORGANIZATION & MANAGEMENT
           - Organizational Structure
           - Key Team Members Needed
        5. PRODUCTS/SERVICES
           - Detailed Description
           - Unique Value Proposition
           - Competitive Advantages
        6. MARKETING & SALES STRATEGY
           - Marketing Channels
           - Customer Acquisition Strategy
           - Sales Funnel
        7. FINANCIAL PROJECTIONS (5 years)
           - Revenue Projections
           - Cost Structure
           - Break-even Analysis
           - Funding Requirements
        8. RISK ANALYSIS
           - Key Risks
           - Mitigation Strategies
        
        Make it professional, data-driven, and investor-ready. Use real market insights.
        Format with clear headings and bullet points where appropriate.
        ".

Definition business_plan_persona : string :=
  "You are an expert business consultant who creates professional, investor-ready business plans.".

Definition business_plan_request (r : BusinessPlanRequest) : chat_request :=
  chat "gpt-4-turbo-preview" business_plan_persona (business_plan_prompt r) (7 # 10) 4000.

Definition business_plan_error_prefix : string := "Error generating business plan: ".

Definition business_plan_envelope (plan : string) : json :=
  JObj [("success", JBool true); ("business_plan", JStr plan);
        ("word_count", word_count_json plan); ("tool", JStr "business_plan_generator")].

Definition generate_business_plan (r : BusinessPlanRequest) : Prog json :=
  catch_500_with business_plan_error_prefix (
    content <- complete (business_plan_request r) ;;
    match content with
    | None => Raise none_split_error
    | Some plan => ret (business_plan_envelope plan)
    end).

Definition business_plan_tool : tool BusinessPlanRequest :=
  mk_tool "gpt-4-turbo-preview" (fun _ => business_plan_persona) business_plan_prompt
    (7 # 10) 4000 business_plan_error_prefix (fun _ => None)
    (fun _ c => match c with None => inl none_split_error | Some p => inr (business_plan_envelope p) end).

(** ** Properties *)

Lemma generate_business_plan_refines (r : BusinessPlanRequest) :
  prog_equiv (generate_business_plan r) (invoke business_plan_tool r).
Proof. apply (invoke_equiv business_plan_tool r); envelope_equiv. Qed.

(** (C28) The business-plan handler sends one request; a plan is returned
    with its word count; a [None] content fails in [.split()] and every
    failure is a 500 whose detail carries the handler's own prefix
    ["Error generating business plan: "]. *)
Theorem generate_business_plan_run (o : oracle) (r : BusinessPlanRequest) :
  run o (generate_business_plan r) =
  (match o 0%nat (business_plan_request r) with
   | Answer (Some plan) => Done (business_plan_envelope plan)
   | Answer None =>
       Raised (HTTPException 500 "Error generating business plan: 'NoneType' object has no attribute 'split'")
   | Fail e => Raised (HTTPException 500 ("Error generating business plan: " ++ py_str_exn e))
   end, [business_plan_request r]).
Proof.
  unfold run. rewrite (run_refines_invoke _ _ _ o 0 (generate_business_plan_refines r) eq_refl).
  cbn. destruct (o 0%nat _) as [[plan|]|e]; reflexivity.
Qed.

(** The prompt carries every field; [funding_needed] is replaced by
    ["Not specified"] when it is [None] or empty. *)
Lemma business_plan_prompt_contains_fields (r : BusinessPlanRequest) (f : string) :
  In f [business_name r; industry r; description r; target_market r; revenue_model r;
        py_or (funding_needed r) "Not specified"] ->
  py_contains f (business_plan_prompt r) = true.
Proof.
  unfold business_plan_prompt. solve_contains_fields.
Qed.

End BusinessPlan.

Module MarketResearch.

(** [class MarketResearchRequest(BaseModel)]. *)
Record MarketResearchRequest : Type := mk_market_research_request {
  industry : string;
  target_market : string;
  geography : string;
  research_focus : string
}.

Definition market_research_prompt (r : MarketResearchRequest) : string :=
"
        Conduct comprehensive market research for:
        
        Industry: " ++ industry r ++ "
        Target Market: " ++ target_market r ++ "
        Geography: " ++ geography r ++ "
        Focus: " ++ research_focus r ++ "
        
        Provide detailed analysis on:
        1. Market Size & Growth (TAM, SAM, SOM)
        2. Key Market Trends (2025-2030)
        3. Customer Demographics & Psychographics
        4. Top 5-10 Competitors Analysis
        5. Market Entry Barriers
        6. Opportunities & Threats
        7. Pricing Landscape
        8. Distribution Channels
        9. Regulatory Considerations
        10. Market Forecast
        
        Use latest 2025 data and provide specific numbers where possible.
        Format with clear sections and bullet points.
        ".

Definition market_research_persona : string :=
  "You are a market research analyst with deep industry knowledge and access to market data.".

Definition market_research_request (r : MarketResearchRequest) : chat_request :=
  chat "gpt-4-turbo-preview" market_research_persona (market_research_prompt r) (6 # 10) 3000.

Definition market_research_envelope (c : option string) : json :=
  JObj [("success", JBool true); ("research_report", content_json c); ("tool", JStr "market_research")].

Definition conduct_market_research (r : MarketResearchRequest) : Prog json :=
  catch_500 (
    content <- complete (market_research_request r) ;;
    ret (market_research_envelope content)).

Definition market_research_tool : tool MarketResearchRequest :=
  mk_tool "gpt-4-turbo-preview" (fun _ => market_research_persona) market_research_prompt
    (6 # 10) 3000 EmptyString (fun _ => None) (fun _ c => inr (market_research_envelope c)).

(** ** Properties *)

Lemma conduct_market_research_refines (r : MarketResearchRequest) :
  prog_equiv (conduct_market_research r) (invoke market_research_tool r).
Proof. apply (invoke_equiv market_research_tool r); envelope_equiv. Qed.

Lemma market_research_prompt_contains_fields (r : MarketResearchRequest) (f : string) :
  In f [industry r; target_market r; geography r; research_focus r] ->
  py_contains f (market_research_prompt r) = true.
Proof. unfold market_research_prompt. solve_contains_fields. Qed.

End MarketResearch.

Module PitchDeck.

(** [class PitchDeckRequest(BaseModel)]. *)
Record PitchDeckRequest : Type := mk_pitch_deck_request {
  business_name : string;
  tagline : string;
  problem : string;
  solution : string;
  target_market : string;
  business_model : string;
  competition : string;
  traction : string;
  team : string;
  funding_ask : string
}.

Definition pitch_deck_prompt (r : PitchDeckRequest) : string :=
"
        Create a compelling 10-slide investor pitch deck for:
        
        Business: " ++ business_name r ++ "
        Tagline: " ++ tagline r ++ "
        Problem: " ++ problem r ++ "
        Solution: " ++ solution r ++ "
        Target Market: " ++ target_market r ++ "
        Business Model: " ++ business_model r ++ "
        Competition: " ++ competition r ++ "
        Traction: " ++ traction r ++ "
        Team: " ++ team r ++ "
        Funding Ask: " ++ funding_ask r ++ "
        
        Generate content for these 10 slides with compelling copy:
        
        SLIDE 1: COVER
        - Company name, tagline, presenter info
        
        SLIDE 2: PROBLEM
        - What problem are you solving?
        - Why is it important?
        - Market pain points
        
        SLIDE 3: SOLUTION
        - Your product/service
        - How it solves the problem
        - Key features/benefits
        
        SLIDE 4: MARKET OPPORTUNITY
        - TAM, SAM, SOM
        - Market size and growth
        - Target customer segments
        
        SLIDE 5: PRODUCT/DEMO
        - Product screenshots/demo description
        - Key functionality
        - User experience highlights
        
        SLIDE 6: BUSINESS MODEL
        - How you make money
        - Pricing strategy
        - Unit economics
        
        SLIDE 7: TRACTION
        - Current metrics (users, revenue, growth)
        - Milestones achieved
        - Customer testimonials/case studies
        
        SLIDE 8: COMPETITION
        - Competitive landscape
        - Your unique advantages
        - Market positioning
        
        SLIDE 9: TEAM
        - Founder backgrounds
        - Key team members
        - Advisors/investors
        
        SLIDE 10: FUNDING ASK
        - Amount raising
        - Use of funds breakdown
        - Projected milestones
        
        For each slide, provide:
        - Headline (catchy and clear)
        - 3-5 bullet points with compelling copy
        - Data points or statistics where relevant
        - Call-to-action or key takeaway
        
        Make it investor-ready, data-driven, and persuasive.
        ".

Definition pitch_deck_persona : string :=
  "You are a pitch deck expert who has helped raise millions for startups. Create compelling, investor-ready content.".

Definition pitch_deck_request (r : PitchDeckRequest) : chat_request :=
  chat "gpt-4-turbo-preview" pitch_deck_persona (pitch_deck_prompt r) (7 # 10) 3500.

Definition pitch_deck_envelope (c : option string) : json :=
  JObj [("success", JBool true); ("pitch_deck", content_json c); ("slide_count", JInt 10);
        ("tool", JStr "pitch_deck_creator")].

Definition generate_pitch_deck (r : PitchDeckRequest) : Prog json :=
  catch_500 (
    content <- complete (pitch_deck_request r) ;;
    ret (pitch_deck_envelope content)).

Definition pitch_deck_tool : tool PitchDeckRequest :=
  mk_tool "gpt-4-turbo-preview" (fun _ => pitch_deck_persona) pitch_deck_prompt
    (7 # 10) 3500 EmptyString (fun _ => None) (fun _ c => inr (pitch_deck_envelope c)).

(** ** Properties *)

Lemma generate_pitch_deck_refines (r : PitchDeckRequest) :
  prog_equiv (generate_pitch_deck r) (invoke pitch_deck_tool r).
Proof. apply (invoke_equiv pitch_deck_tool r); envelope_equiv. Qed.

(** (C31) Spec section 8: the pitch-deck prompt contains each of the ten
    fields of the request. *)
Theorem pitch_deck_prompt_contains_fields (r : PitchDeckRequest) (f : string) :
  In f [business_name r; tagline r; problem r; solution r; target_market r;
        business_model r; competition r; traction r; team r; funding_ask r] ->
  py_contains f (pitch_deck_prompt r) = true.
Proof.
  unfold pitch_deck_prompt. solve_contains_fields.
Qed.

Lemma pitch_deck_prompt_contains_fields_witness :
  py_contains "Series A of 2 crore"
    (pitch_deck_prompt (mk_pitch_deck_request "Sphere" "AI for founders" "slow planning" "automation"
                          "Indian SMBs" "SaaS" "spreadsheets" "200 users" "two founders"
                          "Series A of 2 crore")) = true.
Proof. apply pitch_deck_prompt_contains_fields. simpl. tauto. Defined.

End PitchDeck.

Module ContentGenerator.

(** [class ContentRequest(BaseModel)]. *)
Record ContentRequest : Type := mk_content_request {
  content_type : string;
  topic : string;
  tone : string;
  length : string;
  keywords : option string;
  target_audience : option string
}.

(** The [word_counts] dict. *)
Definition word_counts : list (string * string) :=
  [("short", "200-300 words"); ("medium", "500-700 words"); ("long", "1000-1500 words")].

(** [word_counts.get(k, default)]. *)
Definition word_counts_get (k default : string) : string :=
  match find (fun kv => String.eqb (fst kv) k) word_counts with
  | Some kv => snd kv
  | None => default
  end.

(** The f-string the prompt starts from. *)
Definition content_base_prompt (r : ContentRequest) : string :=
"
        Generate " ++ content_type r ++ " content with these specifications:
        
        Topic: " ++ topic r ++ "
        Tone: " ++ tone r ++ "
        Length: " ++ word_counts_get (length r) "500-700 words" ++ "
        Keywords: " ++ py_or (keywords r) "Not specified" ++ "
        Target Audience: " ++ py_or (target_audience r) "General audience" ++ "
        
        Requirements:
        - Write in " ++ tone r ++ " tone
        - Make it engaging and valuable
        - Include relevant keywords naturally
        - Optimize for SEO (if blog/website content)
        - Add clear call-to-action at the end
        - Use proper formatting (headings, bullets where appropriate)
        
        Content Type Specific:
        ".

(** The [if request.content_type == ...: prompt += ...] chain. *)
Definition content_type_directives (ct : string) : string :=
  if String.eqb ct "blog" then
"
- Include catchy headline
- Add meta description
- Use H2/H3 headings
- Include introduction and conclusion"
  else if String.eqb ct "social" then
"
- Keep it concise and engaging
- Include relevant hashtags
- Add emoji where appropriate
- End with strong CTA"
  else if String.eqb ct "email" then
"
- Subject line
- Personalized greeting
- Clear value proposition
- Strong CTA
- Professional signature"
  else if String.eqb ct "product_description" then
"
- Highlight key features and benefits
- Address pain points
- Include specifications
- Add compelling CTA"
  else EmptyString.

Definition content_prompt (r : ContentRequest) : string :=
  content_base_prompt r ++ content_type_directives (content_type r).

Definition content_persona (r : ContentRequest) : string :=
  "You are a professional content writer skilled in creating " ++ content_type r ++
  " content that engages and converts.".

Definition content_request (r : ContentRequest) : chat_request :=
  chat "gpt-4-turbo-preview" (content_persona r) (content_prompt r) (8 # 10) 2000.

Definition content_envelope (r : ContentRequest) (text : string) : json :=
  JObj [("success", JBool true); ("content", JStr text); ("word_count", word_count_json text);
        ("content_type", JStr (content_type r)); ("tool", JStr "content_generator")].

Definition generate_content (r : ContentRequest) : Prog json :=
  catch_500 (
    content <- complete (content_request r) ;;
    match content with
    | None => Raise none_split_error
    | Some text => ret (content_envelope r text)
    end).

Definition content_tool : tool ContentRequest :=
  mk_tool "gpt-4-turbo-preview" content_persona content_prompt (8 # 10) 2000 EmptyString (fun _ => None)
    (fun r c => match c with None => inl none_split_error | Some t => inr (content_envelope r t) end).

(** The request with another [length]. *)
Definition with_length (r : ContentRequest) (l : string) : ContentRequest :=
  mk_content_request (content_type r) (topic r) (tone r) l (keywords r) (target_audience r).

Definition demo_content_request : ContentRequest :=
  mk_content_request "website" "AI tools for founders" "friendly" "short" None None.

(** ** Properties *)

Lemma generate_content_refines (r : ContentRequest) :
  prog_equiv (generate_content r) (invoke content_tool r).
Proof. apply (invoke_equiv content_tool r); envelope_equiv. Qed.

Lemma word_counts_get_other (l : string) :
  l <> "short" -> l <> "medium" -> l <> "long" -> word_counts_get l "500-700 words" = "500-700 words".
Proof.
  intros Hs Hm Hl. unfold word_counts_get, word_counts. cbn [find fst snd].
  rewrite (proj2 (String.eqb_neq _ _) (not_eq_sym Hs)), (proj2 (String.eqb_neq _ _) (not_eq_sym Hm)),
          (proj2 (String.eqb_neq _ _) (not_eq_sym Hl)).
  reflexivity.
Qed.

(** (C29) A [length] other than ["short"], ["medium"] and ["long"] is not
    rejected: the request sent is the one for ["medium"]. *)
Theorem content_request_unknown_length (r : ContentRequest) (l : string) :
  l <> "short" -> l <> "long" ->
  content_request (with_length r l) = content_request (with_length r "medium").
Proof.
  intros Hs Hl. destruct (String.eqb_spec l "medium") as [->|Hm]; [reflexivity|].
  unfold content_request, content_prompt, content_base_prompt, content_persona, with_length.
  cbn [length content_type topic tone keywords target_audience].
  rewrite (word_counts_get_other l Hs Hm Hl). reflexivity.
Qed.

(** (C30) Only ["blog"], ["social"], ["email"] and ["product_description"]
    get type-specific directives: any other [content_type] (["website"],
    which the schema's comment lists, among them) is sent the bare prompt,
    ending in "Content Type Specific:". *)
Theorem content_prompt_other_types (r : ContentRequest) :
  ~ In (content_type r) ["blog"; "social"; "email"; "product_description"] ->
  content_prompt r = content_base_prompt r.
Proof.
  intros Hin. unfold content_prompt, content_type_directives.
  repeat match goal with
         | |- context [String.eqb ?a ?b] =>
             destruct (String.eqb_spec a b) as [E|_]; [exfalso; apply Hin; rewrite E; simpl; tauto|]
         end.
  apply str_app_nil_r.
Qed.

Lemma content_request_unknown_length_witness :
  "huge" <> "short" /\ "huge" <> "long" /\
  content_request (with_length demo_content_request "huge") =
  content_request (with_length demo_content_request "medium").
Proof.
  split; [discriminate|]. split; [discriminate|].
  apply content_request_unknown_length; discriminate.
Defined.

Lemma content_prompt_other_types_witness :
  ~ In (content_type demo_content_request) ["blog"; "social"; "email"; "product_description"] /\
  content_prompt demo_content_request = content_base_prompt demo_content_request.
Proof.
  assert (H : ~ In (content_type demo_content_request) ["blog"; "social"; "email"; "product_description"])
    by (simpl; intuition discriminate).
  split; [exact H | exact (content_prompt_other_types _ H)].
Defined.

End ContentGenerator.
