(* ===== verification/Tasks.v ===== *)
(** * Tasks: the task-manager and time-management handlers

    - [TaskManager]: [task_manager.py].  [prioritize_tasks] and
      [generate_schedule] render each task of a [TaskList] on one line
      (["\n".join([...])]) and make one call; a missing or zero
      [estimated_hours] is printed ["Unknown"] in the first and counts as
      [2] hours in the second ([task.estimated_hours or ...]).
    - [TimeManagement]: [time_management.py].  [analyze_time_usage]
      joins the two lists of a [WorkPattern] with [", "];
      [optimize_calendar] reads [meetings] and [work_style] from an untyped
      body and prints [len(meetings)], which is computed before the call
      and raises [TypeError] for a number, [None] or a boolean.
    The single-call handlers refine [Invoker.invoke]; [optimize_calendar]
    does not, since it may fail before calling the service. *)

From S2P Require Import Prelude PyStr PyJson Completion Invoker.
From ExtLib Require Import Structures.Monad.
Import MonadNotation.
Local Open Scope string_scope.
Local Open Scope monad_scope.
Local Open Scope py_scope.

Module TaskManager.

(** [class Task(BaseModel)]: [priority] defaults to ["medium"]. *)
Record Task : Type := mk_task {
  title : string;
  description : option string;
  deadline : option string;
  priority : option string;
  estimated_hours : option pyfloat
}.

(** [class TaskList(BaseModel)]. *)
Record TaskList : Type := mk_task_list { tasks : list Task }.

(** [task.estimated_hours or d] printed by an f-string: [None] and [0.0]
    are falsy. *)
Definition hours_or (h : option pyfloat) (d : string) : string :=
  match h with
  | Some f => if (fl_mant f =? 0)%Z then d else py_float_str f
  | None => d
  end.

(** One line of the [prioritize_tasks] list. *)
Definition priority_line (t : Task) : string :=
  "- " ++ title t ++ " (Deadline: " ++ py_or (deadline t) "None" ++ ", Priority: " ++
  py_str_opt (priority t) ++ ", Est. Hours: " ++ hours_or (estimated_hours t) "Unknown" ++ ")".

Definition prioritize_tasks_text (r : TaskList) : string := py_join NL (map priority_line (tasks r)).

Definition prioritize_prompt (r : TaskList) : string :=
"
        Analyze and prioritize these tasks using the Eisenhower Matrix and other productivity frameworks:
        
        " ++ prioritize_tasks_text r ++ "
        
        Provide:
        1. Prioritized Task List (with reasoning)
        2. Task Categories:
           - URGENT & IMPORTANT (Do First)
           - IMPORTANT but NOT URGENT (Schedule)
           - URGENT but NOT IMPORTANT (Delegate if possible)
           - NEITHER (Eliminate or Do Later)
        3. Suggested Schedule (when to do each task)
        4. Time Management Tips
        5. Tasks that can be batched together
        6. Recommended focus order for maximum productivity
        
        Consider deadlines, estimated time, and stated priorities.
        ".

Definition prioritize_persona : string := "You are a productivity expert and time management coach.".

Definition prioritize_request (r : TaskList) : chat_request :=
  chat "gpt-4-turbo-preview" prioritize_persona (prioritize_prompt r) (6 # 10) 1500.

Definition prioritize_envelope (r : TaskList) (c : option string) : json :=
  JObj [("success", JBool true); ("prioritization", content_json c);
        ("task_count", JInt (Z.of_nat (List.length (tasks r)))); ("tool", JStr "task_manager_ai")].

Definition prioritize_tasks (r : TaskList) : Prog json :=
  catch_500 (
    content <- complete (prioritize_request r) ;;
    ret (prioritize_envelope r content)).

Definition prioritize_tool : tool TaskList :=
  mk_tool "gpt-4-turbo-preview" (fun _ => prioritize_persona) prioritize_prompt (6 # 10) 1500
    EmptyString (fun _ => None) (fun r c => inr (prioritize_envelope r c)).

(** One line of the [generate_schedule] list. *)
Definition schedule_line (t : Task) : string :=
  "- " ++ title t ++ " (" ++ hours_or (estimated_hours t) "2" ++ "h)".

Definition schedule_tasks_text (r : TaskList) : string := py_join NL (map schedule_line (tasks r)).

Definition schedule_prompt (r : TaskList) : string :=
"
        Create an optimized schedule for these tasks:
        
        " ++ schedule_tasks_text r ++ "
        
        Assumptions:
        - Work day: 9 AM to 6 PM (with 1h lunch)
        - Focus blocks: 90-minute deep work sessions
        - Include breaks every 2 hours
        - Most important tasks in morning (peak productivity)
        
        Provide:
        1. Day-by-day schedule
        2. Time blocking suggestions
        3. Energy level considerations
        4. Buffer time for unexpected items
        5. Review/reflection time
        
        Format as a clear weekly calendar.
        ".

Definition schedule_persona : string :=
  "You are a scheduling expert who creates realistic, productive schedules.".

Definition schedule_request (r : TaskList) : chat_request :=
  chat "gpt-4-turbo-preview" schedule_persona (schedule_prompt r) (6 # 10) 1200.

Definition schedule_envelope (c : option string) : json :=
  JObj [("success", JBool true); ("schedule", content_json c); ("tool", JStr "task_manager_ai")].

Definition generate_schedule (r : TaskList) : Prog json :=
  catch_500 (
    content <- complete (schedule_request r) ;;
    ret (schedule_envelope content)).

Definition schedule_tool : tool TaskList :=
  mk_tool "gpt-4-turbo-preview" (fun _ => schedule_persona) schedule_prompt (6 # 10) 1200
    EmptyString (fun _ => None) (fun _ c => inr (schedule_envelope c)).

(** The task with another estimate. *)
Definition with_hours (t : Task) (h : option pyfloat) : Task :=
  mk_task (title t) (description t) (deadline t) (priority t) h.

(** ** Properties *)

Lemma prioritize_tasks_refines (r : TaskList) :
  prog_equiv (prioritize_tasks r) (invoke prioritize_tool r).
Proof. apply (invoke_equiv prioritize_tool r); envelope_equiv. Qed.

Lemma generate_schedule_refines (r : TaskList) :
  prog_equiv (generate_schedule r) (invoke schedule_tool r).
Proof. apply (invoke_equiv schedule_tool r); envelope_equiv. Qed.

(** Every task has its line in the prioritization prompt. *)
Lemma prioritize_prompt_contains_tasks (r : TaskList) (t : Task) :
  In t (tasks r) -> py_contains (priority_line t) (prioritize_prompt r) = true.
Proof.
  intros Hin. unfold prioritize_prompt. apply py_contains_app_r.
  apply py_contains_app_l, py_contains_join, in_map, Hin.
Qed.

(** (C32) A task estimated at zero hours is rendered exactly as one
    without an estimate: ["Unknown"] in the prioritization prompt and
    [2] hours in the schedule prompt, since [0.0] is falsy in
    [task.estimated_hours or ...]. *)
Theorem zero_hours_as_missing (t : Task) (f : pyfloat) :
  fl_mant f = 0%Z ->
  priority_line (with_hours t (Some f)) = priority_line (with_hours t None) /\
  schedule_line (with_hours t (Some f)) = "- " ++ title t ++ " (2h)".
Proof.
  intros Hf. unfold priority_line, schedule_line, with_hours, hours_or. cbn [estimated_hours title].
  rewrite Hf. split; reflexivity.
Qed.

Lemma zero_hours_as_missing_witness :
  fl_mant (mk_pyfloat 0 1) = 0%Z /\
  priority_line (with_hours (mk_task "Hire" None (Some "Fri") None None) (Some (mk_pyfloat 0 1))) =
  priority_line (with_hours (mk_task "Hire" None (Some "Fri") None None) None) /\
  schedule_line (with_hours (mk_task "Hire" None (Some "Fri") None None) (Some (mk_pyfloat 0 1))) =
  "- Hire (2h)".
Proof.
  split; [reflexivity|]. exact (zero_hours_as_missing (mk_task "Hire" None (Some "Fri") None None) (mk_pyfloat 0 1) eq_refl).
Defined.

End TaskManager.

Module TimeManagement.

(** [class WorkPattern(BaseModel)]. *)
Record WorkPattern : Type := mk_work_pattern {
  typical_work_hours : string;
  main_responsibilities : list string;
  common_distractions : list string;
  goals : string
}.

Definition time_usage_prompt (r : WorkPattern) : string :=
"
        Analyze this work pattern and provide time management recommendations:
        
        Work Hours: " ++ typical_work_hours r ++ "
        Main Responsibilities: " ++ py_join ", " (main_responsibilities r) ++ "
        Common Distractions: " ++ py_join ", " (common_distractions r) ++ "
        Goals: " ++ goals r ++ "
        
        Provide:
        1. Time Audit Analysis
        2. Productivity Bottlenecks Identified
        3. Time Wasters to Eliminate
        4. Recommended Time Blocking Schedule
        5. Focus Time Optimization
        6. Meeting Optimization Suggestions
        7. Energy Management Tips
        8. Tools/Techniques to Implement
        9. 30-day Improvement Plan
        10. Key Metrics to Track
        
        Be specific and actionable.
        ".

Definition time_usage_persona : string :=
  "You are a time management coach specializing in productivity optimization for founders and executives.".

Definition time_usage_request (r : WorkPattern) : chat_request :=
  chat "gpt-4-turbo-preview" time_usage_persona (time_usage_prompt r) (6 # 10) 2000.

Definition time_usage_envelope (c : option string) : json :=
  JObj [("success", JBool true); ("analysis", content_json c); ("tool", JStr "time_management_ai")].

Definition analyze_time_usage (r : WorkPattern) : Prog json :=
  catch_500 (
    content <- complete (time_usage_request r) ;;
    ret (time_usage_envelope content)).

Definition time_usage_tool : tool WorkPattern :=
  mk_tool "gpt-4-turbo-preview" (fun _ => time_usage_persona) time_usage_prompt (6 # 10) 2000
    EmptyString (fun _ => None) (fun _ c => inr (time_usage_envelope c)).

(** The keys of a parsed object, without repetition ([json.loads] keeps
    one binding per key). *)
Definition distinct_keys (l : list (string * json)) : list string :=
  fold_left (fun acc k => if existsb (String.eqb k) acc then acc else (acc ++ [k])%list) (map fst l) [].

(** [len(v)] of a JSON value: the items of a list, the characters of a
    string (bytes here: the model's strings are ASCII), the keys of a dict;
    [TypeError] for the others. *)
Definition py_len (v : json) : exn + Z :=
  match v with
  | JArr l => inr (Z.of_nat (List.length l))
  | JStr s => inr (Z.of_nat (String.length s))
  | JObj l => inr (Z.of_nat (List.length (distinct_keys l)))
  | JNull | JBool _ | JInt _ | JNum _ _ =>
      inl (TypeError ("object of type '" ++ type_name v ++ "' has no len()"))
  end.

Definition calendar_prompt (meetings_count : Z) (work_style : json) : string :=
"
        Optimize this calendar for maximum productivity:
        
        Current Meetings: " ++ py_str_int meetings_count ++ " per week
        Work Style: " ++ py_str work_style ++ "
        
        Provide:
        1. Ideal Weekly Calendar Template
        2. Focus Time Blocks (when to schedule deep work)
        3. Meeting Guidelines (when to schedule, how long)
        4. Buffer Time Recommendations
        5. Day Themes (e.g., Monday = Strategy, Tuesday = Execution)
        6. Break Schedule
        7. No-Meeting Zones
        8. Calendar Rules to Follow
        
        Optimize for energy levels and productivity patterns.
        ".

Definition calendar_persona : string := "You are a calendar optimization expert.".

Definition calendar_request (meetings_count : Z) (work_style : json) : chat_request :=
  chat "gpt-4-turbo-preview" calendar_persona (calendar_prompt meetings_count work_style) (6 # 10) 1500.

Definition calendar_envelope (c : option string) : json :=
  JObj [("success", JBool true); ("optimization", content_json c); ("tool", JStr "time_management_ai")].

(** [meetings = request.get("meetings", [])], [work_style =
    request.get("work_style", "mixed")]; the prompt's [len(meetings)] is
    evaluated before the call. *)
Definition optimize_calendar (request : list (string * json)) : Prog json :=
  catch_500 (
    let meetings := dict_get_default "meetings" (JArr []) request in
    let work_style := dict_get_default "work_style" (JStr "mixed") request in
    n <- of_result (py_len meetings) ;;
    content <- complete (calendar_request n work_style) ;;
    ret (calendar_envelope content)).

(** ** Properties *)

Lemma analyze_time_usage_refines (r : WorkPattern) :
  prog_equiv (analyze_time_usage r) (invoke time_usage_tool r).
Proof. apply (invoke_equiv time_usage_tool r); envelope_equiv. Qed.

(** (C33) [optimize_calendar] computes [len(meetings)] before calling the
    service: a [meetings] value without a length (a number, [null], a
    boolean) is a 500 carrying the [TypeError] and no request is sent;
    otherwise one request is sent with that count, which for a string is
    its number of characters, and the reply is returned. *)
Theorem optimize_calendar_run (o : oracle) (d : list (string * json)) :
  let meetings := dict_get_default "meetings" (JArr []) d in
  let work_style := dict_get_default "work_style" (JStr "mixed") d in
  run o (optimize_calendar d) =
  match py_len meetings with
  | inl e => (Raised (HTTPException 500 (py_str_exn e)), [])
  | inr n =>
      (match o 0%nat (calendar_request n work_style) with
       | Answer c => Done (calendar_envelope c)
       | Fail e => Raised (HTTPException 500 (py_str_exn e))
       end, [calendar_request n work_style])
  end.
Proof.
  cbv zeta. unfold run, optimize_calendar, catch_500, catch_500_with.
  rewrite run_from_catch, run_from_bind, run_from_of_result.
  destruct (py_len _) as [e|n]; [reflexivity|]. cbn - [calendar_request].
  destruct (o 0%nat _) as [c|e]; reflexivity.
Qed.

End TimeManagement.
