(* ===== verification/Models.v ===== *)
(** * Models: the declared persistence schema of [src/app/models.py]

    Four SQLAlchemy declarative classes ([User], [Subscription],
    [UsageLog], [GeneratedContent]) on one [declarative_base()].  No route
    reads or writes them (spec section 6 calls the schema latent), so what
    is modelled is the declaration itself: each class as its table name,
    its columns (type, key, index, uniqueness, nullability, default,
    foreign key) and its relationships, and [declare_class], the checks
    the declarative API makes when the class statement runs:
    - an attribute may not be named [metadata], which [Base] reserves for
      its [MetaData] (SQLAlchemy raises [InvalidRequestError("Attribute
      name 'metadata' is reserved when using the Declarative API.")]);
    - a mapped class needs a primary key column.
    [schema_consistent] checks what the mapper checks when relationships
    are configured: foreign keys name a declared table and column, and
    each [back_populates] names a relationship of the target class that
    points back.  The theorems evaluate these checks on the schema as
    written. *)

From S2P Require Import Prelude.
Local Open Scope string_scope.

(** ** Declarations *)

Inductive col_type : Type := Integer | SAString | SAFloat | DateTime | SABoolean | SAText.

(** A column default: a constant, or [datetime.utcnow] called at insert. *)
Inductive col_default : Type :=
| DefBool (b : bool)
| DefStr (s : string)
| DefInt (z : Z)
| DefUtcNow.

Record column : Type := mk_column {
  col_name : string;
  col_ty : col_type;
  col_primary_key : bool;
  col_index : bool;
  col_unique : bool;
  col_nullable : bool;
  col_default_value : option col_default;
  col_onupdate_now : bool;
  col_foreign_key : option (string * string)
}.

(** [Column(type)] with SQLAlchemy's defaults: nullable unless a primary
    key, no index, no default. *)
Definition plain (name : string) (ty : col_type) : column :=
  mk_column name ty false false false true None false None.

Definition with_default (c : column) (d : col_default) : column :=
  mk_column (col_name c) (col_ty c) (col_primary_key c) (col_index c) (col_unique c)
            (col_nullable c) (Some d) (col_onupdate_now c) (col_foreign_key c).

(** [Column(Integer, primary_key=True, index=True)]. *)
Definition id_column : column := mk_column "id" Integer true true false false None false None.

(** [Column(Integer, ForeignKey("users.id"))]. *)
Definition user_id_column : column :=
  mk_column "user_id" Integer false false false true None false (Some ("users", "id")).

(** [relationship(target, back_populates=...)]. *)
Record relation : Type := mk_relation { rel_name : string; rel_target : string; rel_back : string }.

Record model_class : Type := mk_model_class {
  class_name : string;
  tablename : string;
  columns : list column;
  relationships : list relation
}.

Definition User : model_class :=
  mk_model_class "User" "users"
    [id_column;
     mk_column "email" SAString false true true true None false None;
     plain "full_name" SAString;
     plain "hashed_password" SAString;
     with_default (plain "is_active" SABoolean) (DefBool true);
     with_default (plain "subscription_tier" SAString) (DefStr "free");
     with_default (plain "created_at" DateTime) DefUtcNow]
    [mk_relation "usage_logs" "UsageLog" "user";
     mk_relation "subscriptions" "Subscription" "user"].

Definition Subscription : model_class :=
  mk_model_class "Subscription" "subscriptions"
    [id_column; user_id_column;
     plain "plan_name" SAString;
     with_default (plain "status" SAString) (DefStr "active");
     plain "amount" SAFloat;
     plain "currency" SAString;
     plain "billing_cycle" SAString;
     plain "payment_gateway" SAString;
     plain "gateway_subscription_id" SAString;
     with_default (plain "start_date" DateTime) DefUtcNow;
     plain "end_date" DateTime;
     with_default (plain "auto_renew" SABoolean) (DefBool true)]
    [mk_relation "user" "User" "subscriptions"].

Definition UsageLog : model_class :=
  mk_model_class "UsageLog" "usage_logs"
    [id_column; user_id_column;
     plain "tool_name" SAString;
     plain "action" SAString;
     with_default (plain "credits_used" Integer) (DefInt 1);
     with_default (plain "timestamp" DateTime) DefUtcNow;
     plain "metadata" SAText]
    [mk_relation "user" "User" "usage_logs"].

Definition GeneratedContent : model_class :=
  mk_model_class "GeneratedContent" "generated_content"
    [id_column; user_id_column;
     plain "tool_name" SAString;
     plain "title" SAString;
     plain "content" SAText;
     with_default (plain "created_at" DateTime) DefUtcNow;
     mk_column "updated_at" DateTime false false false true (Some DefUtcNow) true None]
    [].

(** The classes in the order the module defines them. *)
Definition models_schema : list model_class := [User; Subscription; UsageLog; GeneratedContent].

(** ** The declarative API's checks *)

Inductive decl_error : Type :=
| InvalidRequestError (msg : string)
| ArgumentError (msg : string).

(** The attribute names a class on [declarative_base()] may not use. *)
Definition reserved_names : list string := ["metadata"].

Definition attribute_names (m : model_class) : list string :=
  map col_name (columns m) ++ map rel_name (relationships m).

(** Running one [class ...(Base)] statement. *)
Definition declare_class (m : model_class) : decl_error + unit :=
  match find (fun a => existsb (String.eqb a) reserved_names) (attribute_names m) with
  | Some a => inl (InvalidRequestError ("Attribute name '" ++ a ++ "' is reserved when using the Declarative API."))
  | None =>
      if existsb col_primary_key (columns m) then inr tt
      else inl (ArgumentError ("Mapper mapped class " ++ class_name m ++ "->" ++ tablename m ++
                               " could not assemble any primary key columns for mapped table '" ++
                               tablename m ++ "'"))
  end.

(** Importing the module runs the class statements in order; the first
    error stops it, and the classes before it are declared. *)
Fixpoint declare_all (ms : list model_class) : decl_error + list string :=
  match ms with
  | [] => inr []
  | m :: ms' =>
      match declare_class m with
      | inl e => inl e
      | inr _ => match declare_all ms' with inl e => inl e | inr ns => inr (class_name m :: ns) end
      end
  end.

Definition find_class (ms : list model_class) (name : string) : option model_class :=
  find (fun m => String.eqb (class_name m) name) ms.

(** A foreign key names a table of the schema and one of its columns. *)
Definition fk_resolves (ms : list model_class) (c : column) : bool :=
  match col_foreign_key c with
  | None => true
  | Some (tbl, col) =>
      existsb (fun m => String.eqb (tablename m) tbl && existsb (fun c' => String.eqb (col_name c') col) (columns m)) ms
  end.

(** [relationship(T, back_populates=b)] on class [m]: [T] has a
    relationship [b] whose own [back_populates] is this one, towards [m]. *)
Definition back_populates_ok (ms : list model_class) (m : model_class) (r : relation) : bool :=
  match find_class ms (rel_target r) with
  | None => false
  | Some t =>
      existsb (fun r' => String.eqb (rel_name r') (rel_back r) && String.eqb (rel_target r') (class_name m)
                         && String.eqb (rel_back r') (rel_name r)) (relationships t)
  end.

Definition schema_consistent (ms : list model_class) : bool :=
  forallb (fun m => forallb (fk_resolves ms) (columns m) && forallb (back_populates_ok ms m) (relationships m)) ms.

(** The column defaults an [INSERT] fills in for the columns it does not
    set. *)
Definition insert_defaults (m : model_class) : list (string * col_default) :=
  flat_map (fun c => match col_default_value c with Some d => [(col_name c, d)] | None => [] end) (columns m).

(** The same class with an attribute renamed. *)
Definition rename_column (old new : string) (m : model_class) : model_class :=
  mk_model_class (class_name m) (tablename m)
    (map (fun c => if String.eqb (col_name c) old then
                     mk_column new (col_ty c) (col_primary_key c) (col_index c) (col_unique c)
                               (col_nullable c) (col_default_value c) (col_onupdate_now c) (col_foreign_key c)
                   else c) (columns m))
    (relationships m).

(** ** Properties *)

(** Importing [app.models] fails: [User] and [Subscription] are
    declared, then the [UsageLog] class statement raises
    [InvalidRequestError] because of its [metadata] column; the rest of the
    schema is consistent (foreign keys resolve, relationships pair up), and
    renaming that one attribute makes every class declare. *)
Theorem models_import_fails_on_metadata :
  declare_class User = inr tt /\ declare_class Subscription = inr tt /\
  declare_all models_schema =
    inl (InvalidRequestError "Attribute name 'metadata' is reserved when using the Declarative API.") /\
  schema_consistent models_schema = true /\
  declare_all [User; Subscription; rename_column "metadata" "metadata_json" UsageLog; GeneratedContent] =
    inr ["User"; "Subscription"; "UsageLog"; "GeneratedContent"].
Proof. repeat split; vm_compute; reflexivity. Qed.

(** A new [User] row is active on the free tier; a [UsageLog] costs one
    credit; a [Subscription] starts active and renewing. *)
Lemma insert_defaults_values :
  insert_defaults User = [("is_active", DefBool true); ("subscription_tier", DefStr "free"); ("created_at", DefUtcNow)] /\
  In ("credits_used", DefInt 1) (insert_defaults UsageLog) /\
  In ("status", DefStr "active") (insert_defaults Subscription) /\
  In ("auto_renew", DefBool true) (insert_defaults Subscription).
Proof. vm_compute. intuition. Qed.
