(* ===== verification/App.v ===== *)
(** * App: [src/app/main.py], the application the handlers are mounted in

    - Routing: [FastAPI()] installs its documentation routes; each
      module's [APIRouter] declares its routes; [main.py] includes the nine
      tool routers under ["/api/tools"] and the two payment routers under
      ["/api/payment"], then declares [GET /] and [GET /health].
      [app_routes] is the resulting route table, in the order Starlette
      matches it; [dispatch] is Starlette's [Router]: the first route whose
      path and method agree, 405 for a known path and another method, a
      307 redirect when the path with its trailing slash toggled is known,
      404 otherwise.
    - Liveness: [root] and [health_check] return constant dicts.
    - CORS: [app_cors] is the [CORSMiddleware] configuration; the
      middleware's decisions ([is_allowed_origin], the headers of a simple
      response and of a preflight) follow Starlette's [CORSMiddleware],
      with the headers kept as an insertion-ordered dict ([dict_setitem]
      of [Chatbot]).
    - The invoker: every single-call AI handler is [Invoker.invoke] of its
      [tool] ([single_call_handlers_refine_invoker]). *)

From S2P Require Import Prelude PyStr PyJson Completion Invoker Support Payment Forecast Chatbot Generators Tasks.
From ExtLib Require Import Structures.Monad.
Import MonadNotation.
Local Open Scope string_scope.
Local Open Scope monad_scope.

(** ** Routes *)

(** The handlers, one per route; the first four are the documentation
    routes [FastAPI()] installs by default ([openapi_url], [docs_url],
    [swagger_ui_oauth2_redirect_url], [redoc_url]). *)
Inductive endpoint : Type :=
| EOpenAPI | ESwaggerUI | ESwaggerRedirect | ERedoc
| EBusinessPlan | EMarketResearch | EFinancialForecast | EPitchDeck | EContent
| ECreateChatbot | EChatbotRespond | EAnalyzeTicket | ESupportResponse
| EPrioritizeTasks | EGenerateSchedule | EAnalyzeTimeUsage | ECalendarOptimization
| ERazorpayOrder | ERazorpayVerify | EStripeIntent | EStripeWebhook
| ERoot | EHealth.

(** A route: the HTTP methods it accepts, its path, its handler. *)
Record route : Type := mk_route { route_methods : list string; route_path : string; route_endpoint : endpoint }.

(** [@router.post(path)] / [@app.get(path)]: an [APIRoute] accepts exactly
    the declared method. *)
Definition post (path : string) (e : endpoint) : route := mk_route ["POST"] path e.
Definition get (path : string) (e : endpoint) : route := mk_route ["GET"] path e.

(** [FastAPI.setup()]: Starlette [Route]s registered with [add_route],
    which accept [GET] and therefore [HEAD]. *)
Definition fastapi_default_routes : list route :=
  [mk_route ["GET"; "HEAD"] "/openapi.json" EOpenAPI;
   mk_route ["GET"; "HEAD"] "/docs" ESwaggerUI;
   mk_route ["GET"; "HEAD"] "/docs/oauth2-redirect" ESwaggerRedirect;
   mk_route ["GET"; "HEAD"] "/redoc" ERedoc].

(** Each module's [@router.post(...)] declarations. *)
Definition business_plan_router : list route := [post "/generate-business-plan" EBusinessPlan].
Definition market_research_router : list route := [post "/market-research" EMarketResearch].
Definition financial_forecast_router : list route := [post "/financial-forecast" EFinancialForecast].
Definition pitch_deck_router : list route := [post "/generate-pitch-deck" EPitchDeck].
Definition content_generator_router : list route := [post "/generate-content" EContent].
Definition chatbot_builder_router : list route :=
  [post "/create-chatbot-config" ECreateChatbot; post "/chatbot-respond" EChatbotRespond].
Definition customer_support_router : list route :=
  [post "/analyze-support-ticket" EAnalyzeTicket; post "/generate-support-response" ESupportResponse].
Definition task_manager_router : list route :=
  [post "/prioritize-tasks" EPrioritizeTasks; post "/generate-schedule" EGenerateSchedule].
Definition time_management_router : list route :=
  [post "/analyze-time-usage" EAnalyzeTimeUsage; post "/calendar-optimization" ECalendarOptimization].
Definition razorpay_router : list route :=
  [post "/create-order-razorpay" ERazorpayOrder; post "/verify-payment-razorpay" ERazorpayVerify].
Definition stripe_router : list route :=
  [post "/create-payment-intent-stripe" EStripeIntent; post "/webhook/stripe" EStripeWebhook].

(** [app.include_router(router, prefix=prefix)]. *)
Definition include_router (prefix : string) (rs : list route) : list route :=
  map (fun r => mk_route (route_methods r) (prefix ++ route_path r) (route_endpoint r)) rs.

(** The tool routers, in the order [main.py] includes them. *)
Definition tool_routers : list (list route) :=
  [business_plan_router; market_research_router; financial_forecast_router; pitch_deck_router;
   content_generator_router; chatbot_builder_router; customer_support_router; task_manager_router;
   time_management_router].

(** [app.routes]: the default routes, the included routers, then the two
    routes declared on [app]. *)
Definition app_routes : list route :=
  fastapi_default_routes ++
  flat_map (include_router "/api/tools") tool_routers ++
  include_router "/api/payment" razorpay_router ++ include_router "/api/payment" stripe_router ++
  [get "/" ERoot; get "/health" EHealth].

(** [path.rstrip("/")]. *)
Fixpoint lstrip_slash (s : string) : string :=
  match s with
  | String c s' => if Ascii.eqb c "/"%char then lstrip_slash s' else s
  | EmptyString => EmptyString
  end.

Definition rstrip_slash (s : string) : string := str_rev (lstrip_slash (str_rev s)).

Definition ends_with_slash (s : string) : bool :=
  match str_rev s with String c _ => Ascii.eqb c "/"%char | EmptyString => false end.

(** The path Starlette's [redirect_slashes] tries: without the trailing
    slashes, or with one added. *)
Definition toggle_slash (p : string) : string :=
  if ends_with_slash p then rstrip_slash p else p ++ "/".

Definition route_matches (m p : string) (r : route) : bool :=
  String.eqb (route_path r) p && existsb (String.eqb m) (route_methods r).

Definition path_known (p : string) : bool := existsb (fun r => String.eqb (route_path r) p) app_routes.

(** Starlette's [Router]: the first route matching path and method; else a
    route matching the path only answers 405; else, for a path other than
    [/], a route at [toggle_slash p] gives a 307 redirect; else 404. *)
Definition dispatch (m p : string) : endpoint + Z :=
  match find (route_matches m p) app_routes with
  | Some r => inl (route_endpoint r)
  | None =>
      if path_known p then inr 405%Z
      else if negb (String.eqb p "/") && path_known (toggle_slash p) then inr 307%Z
      else inr 404%Z
  end.

(** ** Liveness routes *)

Definition root : json :=
  JObj [("message", JStr "Sphere.AI API - AI Tools for Founders"); ("version", JStr "1.0.0");
        ("status", JStr "active"); ("tools_available", JInt 9); ("documentation", JStr "/docs")].

Definition health_check : json :=
  JObj [("status", JStr "healthy"); ("service", JStr "Sphere.AI Backend")].

(** ** CORS *)

Record cors_config : Type := mk_cors_config {
  allow_origins : list string;
  allow_credentials : bool;
  allow_methods : list string;
  allow_headers : list string
}.

Definition app_cors : cors_config :=
  mk_cors_config
    ["https://frontend-for-sphere-ai-k5z9-mvebyc1c1-rohits-projects-6d1c0263.vercel.app";
     "http://localhost:3000"; "http://localhost:3001"; "*"]
    true ["*"] ["*"].

(** [allow_all_origins = "*" in allow_origins]. *)
Definition allow_all_origins (c : cors_config) : bool := existsb (String.eqb "*") (allow_origins c).

Definition is_allowed_origin (c : cors_config) (origin : string) : bool :=
  allow_all_origins c || existsb (String.eqb origin) (allow_origins c).

(** The headers added to every simple (non-preflight) response. *)
Definition simple_headers (c : cors_config) : list (string * string) :=
  (if allow_all_origins c then [("access-control-allow-origin", "*")] else []) ++
  (if allow_credentials c then [("access-control-allow-credentials", "true")] else []).

(** [allow_explicit_origin]: mirror the origin and vary on it. *)
Definition allow_explicit_origin (h : list (string * string)) (origin : string) : list (string * string) :=
  dict_setitem "vary" "Origin" (dict_setitem "access-control-allow-origin" origin h).

(** The CORS headers of a simple response to a request from [origin];
    [has_cookie] is whether it carries a [Cookie] header. *)
Definition cors_simple_response (c : cors_config) (origin : string) (has_cookie : bool)
  : list (string * string) :=
  let h := simple_headers c in
  if allow_all_origins c && has_cookie then allow_explicit_origin h origin
  else if negb (allow_all_origins c) && is_allowed_origin c origin then allow_explicit_origin h origin
  else h.

(** A preflight's [Access-Control-Allow-Origin], or [None] (status 400)
    when the origin is refused; the origin is mirrored when credentials
    are allowed. *)
Definition cors_preflight_origin (c : cors_config) (origin : string) : option string :=
  if is_allowed_origin c origin then
    Some (if negb (allow_all_origins c) || allow_credentials c then origin else "*")
  else None.

(** ** Single-call handlers as instances of the invoker *)

Definition ticket_tool : tool SupportTicket :=
  mk_tool "gpt-4-turbo-preview" (fun _ => ticket_persona) ticket_prompt (6 # 10) 1000 EmptyString (fun _ => None)
    (fun _ c => match c with
                | None => inl (AttributeError "'NoneType' object has no attribute 'lower'")
                | Some a => inr (ticket_envelope a)
                end).

Definition support_response_tool : tool (list (string * json)) :=
  mk_tool "gpt-4-turbo-preview" (fun _ => support_response_persona)
    (fun r => support_response_prompt (support_message r)) (7 # 10) 500 EmptyString (fun _ => None)
    (fun _ c => inr (JObj [("success", JBool true); ("response", content_json c);
                           ("tool", JStr "customer_support_ai")])).

Definition forecast_tool : tool FinancialForecastRequest :=
  mk_tool "gpt-4-turbo-preview" (fun _ => forecast_persona)
    (fun r => forecast_prompt r (forecast_projections r)) (1 # 2) 2000 EmptyString forecast_precheck
    (fun r c => inr (forecast_envelope r c)).

Definition chatbot_respond_tool : tool ChatMessage :=
  mk_tool "gpt-3.5-turbo" (fun _ => "You are a helpful business assistant. Be friendly and professional.")
    message (7 # 10) 300 EmptyString (fun _ => None)
    (fun _ c => inr (JObj [("success", JBool true); ("response", content_json c);
                           ("timestamp", JStr "2025-10-17T11:16:00Z")])).

(** Boolean [NoDup]. *)
Fixpoint nodupb {A} (eqb : A -> A -> bool) (l : list A) : bool :=
  match l with
  | [] => true
  | x :: l' => negb (existsb (eqb x) l') && nodupb eqb l'
  end.

(** ** Lemmas *)

Lemma nodupb_NoDup {A} (eqb : A -> A -> bool) (l : list A) :
  (forall a b, eqb a b = true <-> a = b) -> nodupb eqb l = true -> NoDup l.
Proof.
  intros Heq. induction l as [|x l IH]; simpl; intros H; constructor;
    apply andb_true_iff in H as [Hx H]; [|exact (IH H)].
  intros Hin. apply negb_true_iff in Hx.
  assert (existsb (eqb x) l = true) by (apply existsb_exists; exists x; split; [exact Hin | now apply Heq]).
  congruence.
Qed.

Lemma existsb_eqb_In (m : string) (ms : list string) : existsb (String.eqb m) ms = true <-> In m ms.
Proof.
  rewrite existsb_exists. split.
  - intros (x & Hx & E). apply String.eqb_eq in E. now subst.
  - intros H. exists m. split; [exact H | apply String.eqb_refl].
Qed.

(** In a route list where no two routes share a path, the first route
    matching a method and a path is the only one. *)
Lemma find_route_unique (l : list route) (m p : string) (e : endpoint) :
  NoDup (map route_path l) ->
  option_map route_endpoint (find (route_matches m p) l) = Some e <->
  exists r, In r l /\ route_path r = p /\ In m (route_methods r) /\ route_endpoint r = e.
Proof.
  induction l as [|r l IH]; intros Hnd; simpl; [split; [discriminate | intros (? & [] & _)]|].
  inversion Hnd as [|? ? Hr Hnd']; subst.
  unfold route_matches at 1. destruct (String.eqb_spec (route_path r) p) as [Hp|Hp]; simpl.
  - destruct (existsb (String.eqb m) (route_methods r)) eqn:Hm; simpl.
    + apply existsb_eqb_In in Hm. split.
      * intros H. injection H as <-. exists r. tauto.
      * intros (r' & [<-|Hin] & Hp' & _ & He); [now f_equal|].
        exfalso. apply Hr. rewrite Hp, <- Hp'. now apply in_map.
    + rewrite (IH Hnd'). split.
      * intros (r' & Hin & H). exists r'. tauto.
      * intros (r' & [<-|Hin] & Hp' & Hm' & He).
        -- apply existsb_eqb_In in Hm'. congruence.
        -- exists r'. tauto.
  - rewrite (IH Hnd'). split.
    + intros (r' & Hin & H). exists r'. tauto.
    + intros (r' & [<-|Hin] & Hp' & H); [congruence|]. exists r'. tauto.
Qed.

Lemma dispatch_routed (m p : string) (e : endpoint) :
  dispatch m p = inl e <-> option_map route_endpoint (find (route_matches m p) app_routes) = Some e.
Proof.
  unfold dispatch. destruct (find (route_matches m p) app_routes); simpl.
  - split; congruence.
  - split; [|discriminate]. destruct (path_known p); [discriminate|].
    destruct (negb _ && _); discriminate.
Qed.

(** ** Properties *)

(** (C27) Spec section 2: each of the eleven AI handlers that makes one
    call is the prompt-templated completion invoker of its [tool] (model,
    persona, prompt template, temperature, token bound, envelope): it
    sends exactly [tool_request] and answers [invoke_outcome] of the
    reply ([Invoker.run_from_invoke]).  [create_chatbot_config] (up to
    five calls) and [optimize_calendar] (which may fail before calling)
    are the two AI handlers outside the pattern. *)
Theorem single_call_handlers_refine_invoker :
  (forall t, prog_equiv (analyze_support_ticket t) (invoke ticket_tool t)) /\
  (forall r, prog_equiv (generate_support_response r) (invoke support_response_tool r)) /\
  (forall r, prog_equiv (generate_financial_forecast r) (invoke forecast_tool r)) /\
  (forall m, prog_equiv (chatbot_respond m) (invoke chatbot_respond_tool m)) /\
  (forall r, prog_equiv (BusinessPlan.generate_business_plan r) (invoke BusinessPlan.business_plan_tool r)) /\
  (forall r, prog_equiv (MarketResearch.conduct_market_research r) (invoke MarketResearch.market_research_tool r)) /\
  (forall r, prog_equiv (PitchDeck.generate_pitch_deck r) (invoke PitchDeck.pitch_deck_tool r)) /\
  (forall r, prog_equiv (ContentGenerator.generate_content r) (invoke ContentGenerator.content_tool r)) /\
  (forall r, prog_equiv (TaskManager.prioritize_tasks r) (invoke TaskManager.prioritize_tool r)) /\
  (forall r, prog_equiv (TaskManager.generate_schedule r) (invoke TaskManager.schedule_tool r)) /\
  (forall r, prog_equiv (TimeManagement.analyze_time_usage r) (invoke TimeManagement.time_usage_tool r)).
Proof.
  split; [intro t; apply (invoke_equiv ticket_tool t); envelope_equiv|].
  split; [intro r; apply (invoke_equiv support_response_tool r); envelope_equiv|].
  split; [intro r; apply (invoke_equiv_precheck forecast_tool r _ (forecast_loop_raises r) pow_overflow_error);
           envelope_equiv|].
  split; [intro m; apply (invoke_equiv chatbot_respond_tool m); envelope_equiv|].
  repeat split; intro r;
    first [ apply BusinessPlan.generate_business_plan_refines
          | apply MarketResearch.conduct_market_research_refines
          | apply PitchDeck.generate_pitch_deck_refines
          | apply ContentGenerator.generate_content_refines
          | apply TaskManager.prioritize_tasks_refines
          | apply TaskManager.generate_schedule_refines
          | apply TimeManagement.analyze_time_usage_refines ].
Qed.

(** (C34) Spec section 9: the ["*"] in [allow_origins] supersedes the
    allow-list.  Every origin is allowed; a credentialed request from any
    origin gets its origin mirrored in [Access-Control-Allow-Origin]
    together with [Access-Control-Allow-Credentials: true], and so does
    any preflight; the listed origins make no difference. *)
Theorem cors_allows_any_origin_with_credentials (origin : string) :
  is_allowed_origin app_cors origin = true /\
  dict_lookup "access-control-allow-origin" (cors_simple_response app_cors origin true) = Some origin /\
  dict_lookup "access-control-allow-credentials" (cors_simple_response app_cors origin true) = Some "true" /\
  cors_preflight_origin app_cors origin = Some origin /\
  (forall (listed : list string) (cookie : bool),
      cors_simple_response (mk_cors_config (listed ++ ["*"]) true ["*"] ["*"]) origin cookie =
      cors_simple_response app_cors origin cookie).
Proof.
  assert (Hall : forall l, allow_all_origins (mk_cors_config (l ++ ["*"]) true ["*"] ["*"]) = true)
    by (intros l; unfold allow_all_origins; simpl; rewrite existsb_app; simpl; apply orb_true_r).
  repeat split; [reflexivity..|]. intros l cookie.
  unfold cors_simple_response, simple_headers. rewrite Hall. reflexivity.
Qed.

(** (C35) Routing is unambiguous: a request reaches a handler exactly
    when a route of [app.routes] has its path and accepts its method, and
    then it reaches that route's handler (no two routes share a path, so
    no route shadows another).  The thirteen tool routes of spec section
    6 and the four payment routes are served by their handlers. *)
Theorem app_routes_dispatch :
  (forall (m p : string) (e : endpoint),
      dispatch m p = inl e <->
      exists r, In r app_routes /\ route_path r = p /\ In m (route_methods r) /\ route_endpoint r = e) /\
  map (fun p => dispatch "POST" ("/api/tools/" ++ p))
      ["generate-business-plan"; "create-chatbot-config"; "chatbot-respond"; "generate-content";
       "analyze-support-ticket"; "generate-support-response"; "financial-forecast"; "market-research";
       "generate-pitch-deck"; "prioritize-tasks"; "generate-schedule"; "analyze-time-usage";
       "calendar-optimization"] =
  map inl [EBusinessPlan; ECreateChatbot; EChatbotRespond; EContent; EAnalyzeTicket; ESupportResponse;
           EFinancialForecast; EMarketResearch; EPitchDeck; EPrioritizeTasks; EGenerateSchedule;
           EAnalyzeTimeUsage; ECalendarOptimization] /\
  map (fun p => dispatch "POST" ("/api/payment/" ++ p))
      ["create-order-razorpay"; "verify-payment-razorpay"; "create-payment-intent-stripe"; "webhook/stripe"] =
  map inl [ERazorpayOrder; ERazorpayVerify; EStripeIntent; EStripeWebhook].
Proof.
  split; [|split; vm_compute; reflexivity].
  intros m p e. rewrite dispatch_routed. apply find_route_unique.
  apply (nodupb_NoDup String.eqb); [exact String.eqb_eq | vm_compute; reflexivity].
Qed.
